(** * Resume scoring engine: a shallow embedding of [main/utils.py] and
      [main/score_utils.py]

    The repository carries two parallel implementations of the same engine.
    Both are embedded here, [Utils] from [main/utils.py] (the module the
    views import) and [ScoreUtils] from [main/score_utils.py].  [Views]
    holds what [main/views.py] computes on top of them: the context of
    [analyze_resume] and the pure helpers of the module.

    Conventions of the embedding.
    - A Python [str] is a Rocq [string]; a character is the code point of
      the same number, so the texts covered are those over U+0000..U+00FF.
      [isspace], [lower] and the regular-expression classes [\s], [\w]
      follow CPython's tables on that range.  Message constants of the
      source that use characters beyond it are kept in their UTF-8 bytes;
      they are only ever compared for equality.
    - One character beyond the range is named by the patterns of the
      source: the bullet U+2022 of [derive_resume_metrics].  In the texts
      it takes the number 149, which it has in Windows-1252, in place of
      the control character U+0095; the texts covered hold the bullet and
      not that control character.  CPython classes the two alike in every
      table used here: neither is whitespace, a word character, a digit, a
      letter or a line end, and neither has another letter case
      ([bullet_char_plain]).  So the exchange is seen by the two patterns
      that name the bullet and by nothing else.
    - A Python [int] is a [Z].  Float arithmetic is the arithmetic of [Q]:
      a literal is its decimal value, and sums and quotients are exact where
      the source rounds each to the nearest double.  The thresholds of
      [get_grade_tag] are integers, so its comparisons are those of the
      source on every finite float.  The rubric compares rates with decimal
      literals; its bounds hold whatever the comparisons answer, and its
      [round] is applied to values far from a tie ([score_100_table]).
    - A [dict] whose insertion order is observable is an association list
      ([dict_set] keeps the position of a key that is already present).
    - [None] for an optional argument is [None] of [option].
    - A function that reads the environment or the network is a program of
      [Process], which asks the process around it and is run in a [world];
      the engine is such a program too, one that asks nothing.
    - [norm_mobile], whose pattern tells the decimal digits of every script
      from the other characters, is embedded over an alphabet that is not
      fixed ([Unicode]). *)

From Stdlib Require Import Bool Arith ZArith QArith Qround Lia Lqa List Ascii String.
Import ListNotations.

Local Open Scope string_scope.
Local Open Scope Z_scope.

(** ** Python built-ins used by the engine *)

Module Py.

(** [str.isspace] of one character, and the class [\s] of [re]. *)
Definition isspace (c : ascii) : bool :=
  let n := nat_of_ascii c in
  ((9 <=? n) && (n <=? 13) || (28 <=? n) && (n <=? 32)
   || (n =? 133) || (n =? 160))%nat.

(** [str.lower] of one character. *)
Definition lower_char (c : ascii) : ascii :=
  let n := nat_of_ascii c in
  if ((65 <=? n) && (n <=? 90)
      || (192 <=? n) && (n <=? 222) && negb (n =? 215))%nat
  then ascii_of_nat (n + 32) else c.

(** [str.upper] of one character, where the result is again one
    character of the range (it is not for U+00B5, U+00DF and U+00FF). *)
Definition upper_char (c : ascii) : ascii :=
  let n := nat_of_ascii c in
  if ((97 <=? n) && (n <=? 122)
      || (224 <=? n) && (n <=? 254) && negb (n =? 247))%nat
  then ascii_of_nat (n - 32) else c.

(** The class [\w] of [re] on a [str] pattern. *)
Definition isword (c : ascii) : bool :=
  let n := nat_of_ascii c in
  ((48 <=? n) && (n <=? 57) || (65 <=? n) && (n <=? 90) || (n =? 95)
   || (97 <=? n) && (n <=? 122)
   || (n =? 170) || (n =? 178) || (n =? 179) || (n =? 181) || (n =? 185)
   || (n =? 186) || (188 <=? n) && (n <=? 190)
   || (192 <=? n) && (n <=? 214) || (216 <=? n) && (n <=? 246)
   || (248 <=? n))%nat.

Fixpoint lower (s : string) : string :=
  match s with
  | EmptyString => EmptyString
  | String c s' => String (lower_char c) (lower s')
  end.

(** [needle in hay] for two strings. *)
Fixpoint contains (needle hay : string) : bool :=
  prefix needle hay
  || match hay with
     | EmptyString => false
     | String _ hay' => contains needle hay'
     end.

(** [s.startswith(p)]. *)
Definition startswith (p s : string) : bool := prefix p s.

(** [s.lstrip()], [s.rstrip()] and [s.strip()]. *)
Fixpoint lstrip (s : string) : string :=
  match s with
  | EmptyString => EmptyString
  | String c s' => if isspace c then lstrip s' else s
  end.

Fixpoint rstrip (s : string) : string :=
  match s with
  | EmptyString => EmptyString
  | String c s' =>
      match rstrip s' with
      | EmptyString => if isspace c then EmptyString else String c EmptyString
      | r => String c r
      end
  end.

Definition strip (s : string) : string := rstrip (lstrip s).

(** [s.split()]: the maximal runs of characters that are not whitespace. *)
Fixpoint split (s : string) : list string :=
  match s with
  | EmptyString => []
  | String c s' =>
      if isspace c then split s'
      else
        match s' with
        | EmptyString => [String c EmptyString]
        | String c' _ =>
            if isspace c' then String c EmptyString :: split s'
            else
              match split s' with
              | w :: ws => String c w :: ws
              | [] => [String c EmptyString]
              end
        end
  end.

(** [sep.join(l)]. *)
Definition join (sep : string) (l : list string) : string := concat sep l.

(** [bool(s)] for an optional string: [None] and the empty string are
    falsy. *)
Definition truthy (o : option string) : bool :=
  match o with
  | None => false
  | Some s => negb (s =? "")%string
  end.

(** [o or ''] for an optional string. *)
Definition or_empty (o : option string) : string :=
  match o with
  | None => ""
  | Some s => s
  end.

(** [round(x)] of a float: to the nearest integer, ties to the even one. *)
Definition round (x : Q) : Z :=
  let f := Qfloor x in
  let d := (x - inject_Z f)%Q in
  match Qcompare d (1 # 2) with
  | Lt => f
  | Gt => f + 1
  | Eq => if Z.even f then f else f + 1
  end.

(** [sum] of a list of ints and of a list of floats. *)
Definition sumZ (l : list Z) : Z := fold_left Z.add l 0.
Definition sumQ (l : list Q) : Q := fold_left Qplus l (0 # 1)%Q.

(** An insertion-ordered [dict]: [d[k] = v], [d.get(k)], [d.values()]. *)
Section Dict.
Context {V : Type}.

Fixpoint dict_set (k : string) (v : V) (d : list (string * V))
  : list (string * V) :=
  match d with
  | [] => [(k, v)]
  | (k', v') :: d' =>
      if (k' =? k)%string then (k, v) :: d' else (k', v') :: dict_set k v d'
  end.

Fixpoint dict_get (k : string) (d : list (string * V)) : option V :=
  match d with
  | [] => None
  | (k', v') :: d' => if (k' =? k)%string then Some v' else dict_get k d'
  end.

Definition dict_values (d : list (string * V)) : list V := map snd d.
Definition dict_keys (d : list (string * V)) : list string := map fst d.
End Dict.

(** [m.get(k, default)] and [int(bool(m.get(k)))]. *)
Definition get {A : Type} (o : option A) (default : A) : A :=
  match o with
  | Some v => v
  | None => default
  end.

Definition int_bool (o : option bool) : Z :=
  match o with
  | Some true => 1
  | _ => 0
  end.

(** Code that can raise returns an [option]; [None] is the exception
    ([d[k]] on a missing key raises [KeyError]). *)
Definition bind {A B : Type} (o : option A) (f : A -> option B) : option B :=
  match o with
  | Some a => f a
  | None => None
  end.

Notation "x <- e ;; k" := (bind e (fun x => k))
  (at level 61, e at next level, right associativity).

(** [s.splitlines()]: the lines of a text, without their ends.  On the
    code points of the range a line ends at LF, VT, FF, CR, FS, GS, RS and
    NEL, and CR LF is one end. *)
Definition is_linebreak (c : ascii) : bool :=
  let n := nat_of_ascii c in
  ((10 <=? n) && (n <=? 13) || (28 <=? n) && (n <=? 30) || (n =? 133))%nat.

Fixpoint splitlines (s : string) : list string :=
  match s with
  | EmptyString => []
  | String c s' =>
      if is_linebreak c then
        match s' with
        | String c' s'' =>
            if ((nat_of_ascii c =? 13) && (nat_of_ascii c' =? 10))%nat
            then EmptyString :: splitlines s''
            else EmptyString :: splitlines s'
        | EmptyString => [EmptyString]
        end
      else
        match splitlines s' with
        | [] => [String c EmptyString]
        | line :: lines => String c line :: lines
        end
  end.

(** [min(a, b)] of two floats: [b] only when it is smaller. *)
Definition minQ (a b : Q) : Q := if Qle_bool a b then a else b.

(** [list(dict.fromkeys(l))]: the keys of the dict that the entries of [l]
    are put into one after the other. *)
Definition dict_fromkeys (l : list string) : list (string * unit) :=
  fold_left (fun d k => dict_set k tt d) l [].

(** [len(set(l))]. *)
Definition count_distinct (l : list string) : nat :=
  List.length (nodup string_dec l).

End Py.

(** ** The process around a call

    What a function of the modules can consult besides its arguments: the
    environment ([os.getenv]), the network ([requests.get]), the random
    generator ([random.randint]) and the clock ([time.time]).  A function
    that does so is a program that asks for it; the process answers, and may
    answer the same request differently at another moment. *)

Module Process.

(** A response as the lookups read it: the status code and, for a key, the
    value of [int(r.json().get(key, 0))], [None] where that raises. *)
Record response : Type := Response
  { status_code : Z;
    json_int : string -> option Z }.

(** A program returns, raises, or asks the process and goes on with the
    answer.  [HttpGet] is answered by [None] where [requests.get] raises
    (no connection, time-out). *)
Inductive prog (A : Type) : Type :=
| Ret (a : A)
| Raise
| Getenv (name default : string) (k : string -> prog A)
| HttpGet (url : string) (headers : list (string * string))
    (k : option response -> prog A)
| Randint (a b : Z) (k : Z -> prog A)
| Time (k : Z -> prog A).

Arguments Ret {A} a.
Arguments Raise {A}.
Arguments Getenv {A} name default k.
Arguments HttpGet {A} url headers k.
Arguments Randint {A} a b k.
Arguments Time {A} k.

(** One statement after the other. *)
Fixpoint bind {A B : Type} (p : prog A) (f : A -> prog B) : prog B :=
  match p with
  | Ret a => f a
  | Raise => Raise
  | Getenv name default k => Getenv name default (fun x => bind (k x) f)
  | HttpGet url headers k => HttpGet url headers (fun x => bind (k x) f)
  | Randint a b k => Randint a b (fun x => bind (k x) f)
  | Time k => Time (fun x => bind (k x) f)
  end.

(** [try: p] with [except Exception: h]. *)
Fixpoint catch {A : Type} (p h : prog A) : prog A :=
  match p with
  | Ret a => Ret a
  | Raise => h
  | Getenv name default k => Getenv name default (fun x => catch (k x) h)
  | HttpGet url headers k => HttpGet url headers (fun x => catch (k x) h)
  | Randint a b k => Randint a b (fun x => catch (k x) h)
  | Time k => Time (fun x => catch (k x) h)
  end.

(** [requests.get(url, headers=headers, timeout=10)]. *)
Definition http_get (url : string) (headers : list (string * string))
  : prog response :=
  HttpGet url headers (fun o => match o with
                                | Some r => Ret r
                                | None => Raise
                                end).

(** What a run has asked, in the order of the requests. *)
Inductive request : Type :=
| Env (name : string)
| Http (url : string) (headers : list (string * string))
| Rand (a b : Z)
| Clock.

(** The process: what it answers to the request number [n] of its life. *)
Record world : Type := World
  { environ : nat -> string -> option string;
    network : nat -> string -> list (string * string) -> option response;
    generator : nat -> Z -> Z -> Z;
    clock : nat -> Z }.

(** The run of a program that starts when the process has answered [n]
    requests: its result, [None] for an exception that is not caught, and
    the requests it has made. *)
Fixpoint run {A : Type} (w : world) (n : nat) (p : prog A)
  : option A * list request :=
  match p with
  | Ret a => (Some a, [])
  | Raise => (None, [])
  | Getenv name default k =>
      let '(r, t) := run w (S n) (k (Py.get (environ w n name) default)) in
      (r, Env name :: t)
  | HttpGet url headers k =>
      let '(r, t) := run w (S n) (k (network w n url headers)) in
      (r, Http url headers :: t)
  | Randint a b k =>
      let '(r, t) := run w (S n) (k (generator w n a b)) in
      (r, Rand a b :: t)
  | Time k =>
      let '(r, t) := run w (S n) (k (clock w n)) in
      (r, Clock :: t)
  end.

End Process.

Notation "x <~ e ;; k" := (Process.bind e (fun x => k))
  (at level 61, e at next level, right associativity).

(** ** The fragment of [re] the engine uses

    Patterns are syntax trees; matching is the backtracking search of
    [re]: alternatives are tried from the left, a repetition takes as many
    rounds as it can and gives them back one at a time.  A match is found
    at the leftmost position where the search succeeds. *)

Module Re.

Inductive regex : Type :=
| Eps : regex
| Chr : (ascii -> bool) -> regex          (* one character of a class *)
| Seq : regex -> regex -> regex
| Alt : regex -> regex -> regex           (* r1|r2 *)
| Rep : regex -> nat -> option nat -> regex  (* r{lo,hi}, greedy *)
| Bnd : regex.                            (* \b *)

(** Helpers to write the patterns of the source. *)
Definition chr (c : ascii) : regex := Chr (Ascii.eqb c).

Fixpoint lit (s : string) : regex :=
  match s with
  | EmptyString => Eps
  | String c EmptyString => chr c
  | String c s' => Seq (chr c) (lit s')
  end.

Definition opt (r : regex) : regex := Rep r 0 (Some 1%nat).
Definition plus (r : regex) : regex := Rep r 1 None.
Definition at_least (n : nat) (r : regex) : regex := Rep r n None.

Fixpoint alts (l : list regex) : regex :=
  match l with
  | [] => Eps
  | [r] => r
  | r :: l' => Alt r (alts l')
  end.

Fixpoint seqs (l : list regex) : regex :=
  match l with
  | [] => Eps
  | [r] => r
  | r :: l' => Seq r (seqs l')
  end.

Definition dquote : ascii := ascii_of_nat 34.

Definition in_range (lo hi : ascii) (c : ascii) : bool :=
  ((nat_of_ascii lo <=? nat_of_ascii c)
   && (nat_of_ascii c <=? nat_of_ascii hi))%nat.

Definition one_of (s : string) (c : ascii) : bool :=
  existsb (Ascii.eqb c) (list_ascii_of_string s).

(** A class test, under [re.I] when [ic] is set. *)
Definition test (ic : bool) (p : ascii -> bool) (c : ascii) : bool :=
  if ic then p c || p (Py.lower_char c) || p (Py.upper_char c) else p c.

Definition word_at (o : option ascii) : bool :=
  match o with
  | None => false
  | Some c => Py.isword c
  end.

Definition head (s : string) : option ascii :=
  match s with
  | EmptyString => None
  | String c _ => Some c
  end.

(** The state of a search is the character just before the position
    (for [\b]) and the text from the position on.  [k] is what remains to
    be matched after [r]. *)
Definition answer : Type := option (option ascii * string).
Definition cont : Type := option ascii -> string -> answer.

(** The rounds of a greedy repetition [r{lo,hi}] whose body is matched by
    [step]: one more round is tried first, and the repetition stops, when
    [lo] rounds are done, only if that fails.  A round must consume a
    character, so the length of the text bounds the number of rounds. *)
Section Rounds.
Variable step : option ascii -> string -> cont -> answer.
Variable lo : nat.
Variable hi : option nat.
Variable k : cont.

Fixpoint rounds (fuel cnt : nat) (prev : option ascii) (s : string)
  {struct fuel} : answer :=
  let stop := if (lo <=? cnt)%nat then k prev s else None in
  let more :=
    match hi with
    | None => true
    | Some h => (cnt <? h)%nat
    end in
  match fuel with
  | O => stop
  | S fuel' =>
      if more then
        match step prev s
                (fun prev' s' =>
                   if (String.length s' <? String.length s)%nat
                   then rounds fuel' (S cnt) prev' s'
                   else None) with
        | Some a => Some a
        | None => stop
        end
      else stop
  end.
End Rounds.

Fixpoint run (ic : bool) (r : regex) (prev : option ascii) (s : string)
  (k : cont) {struct r} : answer :=
  match r with
  | Eps => k prev s
  | Chr p =>
      match s with
      | EmptyString => None
      | String c s' => if test ic p c then k (Some c) s' else None
      end
  | Seq r1 r2 => run ic r1 prev s (fun prev' s' => run ic r2 prev' s' k)
  | Alt r1 r2 =>
      match run ic r1 prev s k with
      | Some a => Some a
      | None => run ic r2 prev s k
      end
  | Rep r' lo hi => rounds (run ic r') lo hi k (String.length s) 0 prev s
  | Bnd => if xorb (word_at prev) (word_at (head s)) then k prev s else None
  end.

(** The leftmost match from a position on: the text before it, the text
    matched, and the state after it. *)
Fixpoint first_match (ic : bool) (r : regex) (prev : option ascii)
  (s : string) : option (string * string * option ascii * string) :=
  match run ic r prev s (fun p rest => Some (p, rest)) with
  | Some (p, rest) =>
      Some (EmptyString,
            substring 0 (String.length s - String.length rest) s, p, rest)
  | None =>
      match s with
      | EmptyString => None
      | String c s' =>
          match first_match ic r (Some c) s' with
          | Some (before, m, p, rest) => Some (String c before, m, p, rest)
          | None => None
          end
      end
  end.

(** [bool(re.search(r, s))]. *)
Definition search (ic : bool) (r : regex) (s : string) : bool :=
  match first_match ic r None s with
  | Some _ => true
  | None => false
  end.

(** [re.findall(r, s)] for a pattern without groups.  After an empty match
    the scan moves on by one character; no pattern of the engine matches
    the empty string. *)
Fixpoint findall_from (fuel : nat) (ic : bool) (r : regex)
  (prev : option ascii) (s : string) : list string :=
  match fuel with
  | O => []
  | S fuel' =>
      match first_match ic r prev s with
      | None => []
      | Some (_, m, p, rest) =>
          if (String.length m =? 0)%nat then
            match rest with
            | EmptyString => [m]
            | String c rest' => m :: findall_from fuel' ic r (Some c) rest'
            end
          else m :: findall_from fuel' ic r p rest
      end
  end.

Definition findall (ic : bool) (r : regex) (s : string) : list string :=
  findall_from (S (String.length s)) ic r None s.

(** [re.sub(r, repl, s)] for a replacement without group references: the
    text between the matches is kept and every match becomes [repl]. *)
Fixpoint sub_from (fuel : nat) (ic : bool) (r : regex) (repl : string)
  (prev : option ascii) (s : string) : string :=
  match fuel with
  | O => s
  | S fuel' =>
      match first_match ic r prev s with
      | None => s
      | Some (before, m, p, rest) =>
          if (String.length m =? 0)%nat then
            match rest with
            | EmptyString => before ++ repl
            | String c rest' =>
                before ++ repl
                ++ String c (sub_from fuel' ic r repl (Some c) rest')
            end
          else before ++ repl ++ sub_from fuel' ic r repl p rest
      end
  end.

Definition sub (ic : bool) (r : regex) (repl : string) (s : string) : string :=
  sub_from (S (String.length s)) ic r repl None s.

(** [\s+] *)
Definition spaces : regex := plus (Chr Py.isspace).

(** What [re.sub(r"\s+", " ", t)] computes, by one pass over the text
    ([sub_spaces_correct] below): every maximal run of characters of the
    class [\s] becomes one space.  [in_run] tells that the character before
    was of the class. *)
Fixpoint sub_spaces (in_run : bool) (t : string) : string :=
  match t with
  | EmptyString => EmptyString
  | String c t' =>
      if Py.isspace c
      then if in_run then sub_spaces true t'
           else String " " (sub_spaces true t')
      else String c (sub_spaces false t')
  end.

End Re.

(** ** The dicts of the resume rubric, the same in both modules *)

Module Rubric.

(** The metrics dict.  A field is [None] when its key is missing, and
    [.get] then takes the default of the source. *)
Record metrics : Type := Metrics
  { m_sections_present : option bool;
    m_single_column : option bool;
    m_text_extractable : option bool;
    m_action_verbs_per_bullet : option Q;
    m_quantified_bullets_ratio : option Q;
    m_keyword_match_rate : option Q;
    m_pages : option Z;
    m_avg_bullets_per_job : option Q;
    m_repetition_rate : option Q;
    m_jargon_rate : option Q;
    m_unique_skills_count : option Z }.

(** One entry of the list under the key items. *)
Record item : Type := Item { item_name : string; earned : Z; max : Z }.

(** The dict the rubric returns; the key subtotal holds the pair
    earned, max. *)
Record breakdown : Type := Breakdown
  { items : list item;
    subtotal_earned : Z;
    subtotal_max : Z;
    score_100 : Z }.

End Rubric.

(** ** [main/utils.py] *)

Module Utils.
Import Py Re Rubric.

Definition TECHNICAL_WEIGHTS : list (string * Z) :=
  [ ("GitHub Profile", 25);
    ("LeetCode/DSA Skills", 20);
    ("Portfolio Website", 20);
    ("LinkedIn Profile", 15);
    ("Resume (ATS Score)", 10);
    ("Certifications & Branding", 10) ].

(** *** Link extraction *)

(** One entry of the list [extract_and_identify_links] returns, a dict
    with the keys url and type; the url of the inferred entry is [None]. *)
Record link : Type := Link { url : option string; type : string }.

(** [url_pattern]: http, an optional s, ://, then one or more characters
    that are neither of the class [\s] nor the double quote. *)
Definition url_pattern : regex :=
  seqs [lit "http"; opt (chr "s"); lit "://";
        plus (Chr (fun c => negb (isspace c || Ascii.eqb c dquote)))].

Definition alnum (c : ascii) : bool :=
  in_range "a" "z" c || in_range "A" "Z" c || in_range "0" "9" c.

(** [email_pattern]: [[a-zA-Z0-9._%+-]+@[a-zA-Z0-9.-]+\.[a-zA-Z]{2,}] *)
Definition email_pattern : regex :=
  seqs [plus (Chr (fun c => alnum c || one_of "._%+-" c));
        chr "@";
        plus (Chr (fun c => alnum c || one_of ".-" c));
        chr ".";
        at_least 2 (Chr (fun c => in_range "a" "z" c || in_range "A" "Z" c))].

(** [portfolio|netlify|vercel|\.me|\.io|\.dev|\.app], searched with [re.I] *)
Definition portfolio_host_pattern : regex :=
  alts [lit "portfolio"; lit "netlify"; lit "vercel";
        lit ".me"; lit ".io"; lit ".dev"; lit ".app"].

Definition _classify (u : string) : string :=
  if contains "github.com" u then "GitHub"
  else if contains "linkedin.com" u then "LinkedIn"
  else if search true portfolio_host_pattern u then "Portfolio"
  else if startswith "mailto:" u then "Email"
  else "Other".

(** The set [existing]: the urls of [links] that are truthy. *)
Definition existing_urls (links : list link) : list string :=
  flat_map (fun d => match url d with
                     | Some u => if (u =? "")%string then [] else [u]
                     | None => []
                     end) links.

(** The loop over the anchors: an [href] not yet in [existing] is appended
    and recorded. *)
Fixpoint add_anchors (hrefs : list string) (links : list link)
  (existing : list string) : list link :=
  match hrefs with
  | [] => links
  | href :: hrefs' =>
      if negb (existsb (String.eqb href) existing)
      then add_anchors hrefs'
             (links ++ [Link (Some href) (_classify href)])%list
             (href :: existing)
      else add_anchors hrefs' links existing
  end.

Section Links.
(** The [href] of every anchor that [BeautifulSoup] finds in the text, in
    document order.  The HTML parser is a library outside the repository
    and is taken as given. *)
Variable anchor_hrefs : string -> list string.

Definition extract_and_identify_links (text : string) : list link :=
  let found_urls := findall false url_pattern text in
  let found_emails := findall false email_pattern text in
  let links := map (fun u => Link (Some u) (_classify u)) found_urls in
  let links := (links ++ map (fun e => Link (Some ("mailto:" ++ e)%string)
                                           "Email") found_emails)%list in
  let existing := existing_urls links in
  let links := add_anchors (anchor_hrefs text) links existing in
  if search true (lit "linkedin") text then
    if negb (existsb (fun d => (type d =? "LinkedIn")%string) links)
    then (links ++ [Link None "LinkedIn (Inferred)"])%list
    else links
  else links.
End Links.

(** *** Grades and suggestions *)

(** [get_grade_tag]: [s = float(score or 0)], then the three thresholds
    from the top. *)
Definition get_grade_tag (score : Q) : string :=
  let s := if Qeq_bool score 0 then 0%Q else score in
  if Qle_bool 85 s then "Excellent"
  else if Qle_bool 70 s then "Good"
  else if Qle_bool 50 s then "Average"
  else "Poor".

Definition get_cert_suggestions (domain : string) : list string :=
  if (lower domain =? "analytical")%string then
    [ "Google Data Analytics Professional Certificate – Coursera";
      "IBM Data Science Professional Certificate – Coursera";
      "Microsoft Certified: Azure Data Scientist Associate" ]
  else if (lower domain =? "technical")%string then
    [ "AWS Certified Developer – AWS";
      "Microsoft Certified: Azure Developer Associate";
      "Certified Kubernetes Application Developer (CKAD)" ]
  else
    [ "IBM AI Practitioner – Coursera";
      "Google Data Analytics Professional Certificate – Coursera";
      "AWS Certified Developer – AWS" ].

(** *** The report *)

(** A sub-criterion, a dict with the keys name, score, weight, insight. *)
Record criterion : Type := Criterion
  { crit_name : string; crit_score : Z; crit_weight : Z;
    crit_insight : string }.

(** A section of the report.  Only the certifications section has the key
    recommendations. *)
Record section : Type := Section_
  { score : Z; grade : string; weight : Z;
    sub_criteria : list criterion;
    recommendations : option (list string) }.

Record report : Type := Report
  { sections : list (string * section);
    total_score : Z;
    overall_score_average : Z;
    overall_grade : string;
    suggestions : list string }.

(** [https?://[a-z0-9\-]+\.(com|io|dev|app|me|net|in|org)], with [re.I] *)
Definition portfolio_presence_pattern : regex :=
  seqs [lit "http"; opt (chr "s"); lit "://";
        plus (Chr (fun c => in_range "a" "z" c || in_range "0" "9" c
                            || Ascii.eqb c "-"));
        chr ".";
        alts [lit "com"; lit "io"; lit "dev"; lit "app"; lit "me";
              lit "net"; lit "in"; lit "org"]].

(** [linkedin\.com/in/], with [re.I] *)
Definition linkedin_presence_pattern : regex := lit "linkedin.com/in/".

(** [\b(certification|certified|course|certificate)\b], with [re.I] *)
Definition cert_presence_pattern : regex :=
  seqs [Bnd;
        alts [lit "certification"; lit "certified"; lit "course";
              lit "certificate"];
        Bnd].

(** The five presence tests, the local variables of the same names in
    [calculate_dynamic_ats_score]. *)
Definition github_presence (github_username : option string) : bool :=
  truthy github_username.

Definition leetcode_presence (leetcode_username : option string) : bool :=
  truthy leetcode_username.

Definition portfolio_presence (text : string) : bool :=
  search true portfolio_presence_pattern text.

Definition linkedin_presence (text : string) : bool :=
  search true linkedin_presence_pattern text.

Definition cert_presence (text : string) : bool :=
  search true cert_presence_pattern text.

Definition calculate_dynamic_ats_score (resume_text : string)
  (github_username leetcode_username : option string)
  (extracted_links : list link) : option report :=
  let weights := TECHNICAL_WEIGHTS in
  let sections : list (string * section) := [] in
  let suggestions : list string := [] in

  let text := resume_text in
  let github_presence := github_presence github_username in
  let leetcode_presence := leetcode_presence leetcode_username in
  let portfolio_presence := portfolio_presence text in
  let linkedin_presence := linkedin_presence text in
  let cert_presence := cert_presence text in

  (* 1) GitHub Profile *)
  let '(github_score, github_criteria, suggestions) :=
    if github_presence then
      let cs :=
        [ Criterion "Public link present" 3 3 "GitHub link detected.";
          Criterion "Recent activity (assumed)" 4 5 "Add recent commits/pins.";
          Criterion "Domain-relevant projects" 4 6
            "Keep repos aligned to role." ] in
      (sumZ (map crit_score cs), cs, suggestions)
    else
      (0, [ Criterion "Public link present" 0 3 "Add your GitHub link." ],
       (suggestions
          ++ ["Add a GitHub profile link with pinned, recent projects."])%list)
  in
  w <- dict_get "GitHub Profile" weights ;;
  let sections :=
    dict_set "GitHub Profile"
      (Section_ github_score (get_grade_tag (inject_Z github_score)) w
         github_criteria None) sections in

  (* 2) LeetCode / DSA *)
  let '(leetcode_score, leetcode_criteria, suggestions) :=
    if leetcode_presence then
      let cs :=
        [ Criterion "Link present" 2 2 "Profile link detected.";
          Criterion "Problem variety (assumed)" 3 5 "Cover DP/Graphs/Greedy.";
          Criterion "Consistency (assumed)" 3 4 "Regular practice helps." ] in
      (sumZ (map crit_score cs), cs, suggestions)
    else
      (0, [ Criterion "Link present" 0 2 "Include your LeetCode link." ],
       (suggestions
          ++ ["Include a LeetCode link to showcase DSA practice."])%list)
  in
  w <- dict_get "LeetCode/DSA Skills" weights ;;
  let sections :=
    dict_set "LeetCode/DSA Skills"
      (Section_ leetcode_score (get_grade_tag (inject_Z leetcode_score)) w
         leetcode_criteria None) sections in

  (* 3) Portfolio *)
  let '(portfolio_score, portfolio_criteria, suggestions) :=
    if portfolio_presence then
      let cs :=
        [ Criterion "Link present" 2 2 "Portfolio detected.";
          Criterion "Project write-ups (assumed)" 3 4
            "Explain problems & impact.";
          Criterion "Interactive demos (assumed)" 2 3
            "Add live demos if possible." ] in
      (sumZ (map crit_score cs), cs, suggestions)
    else
      (0, [ Criterion "Link present" 0 2 "Add a simple portfolio site." ],
       (suggestions
          ++ ["Publish a simple portfolio with 2–3 best projects."])%list)
  in
  w <- dict_get "Portfolio Website" weights ;;
  let sections :=
    dict_set "Portfolio Website"
      (Section_ portfolio_score (get_grade_tag (inject_Z portfolio_score)) w
         portfolio_criteria None) sections in

  (* 4) LinkedIn *)
  let linkedin_score := if linkedin_presence then 3 else 0 in
  let linkedin_criteria :=
    [ Criterion "Public link present" linkedin_score 3
        (if negb linkedin_presence
         then "Add a public LinkedIn URL to boost visibility."
         else "LinkedIn detected.") ] in
  let suggestions :=
    if negb linkedin_presence
    then (suggestions
            ++ ["Add a public LinkedIn link (custom URL preferred)."])%list
    else suggestions in
  let sections :=
    dict_set "LinkedIn"
      (Section_ linkedin_score (get_grade_tag (inject_Z linkedin_score)) 3
         linkedin_criteria None) sections in

  (* 5) Resume (ATS Score): placeholder here; real value can override in
     views *)
  let resume_section_score := 65 in
  let resume_criteria :=
    [ Criterion "ATS-friendly layout" 3 3 "Readable fonts, minimal columns.";
      Criterion "Action verbs & results" 4 4 "Quantify achievements.";
      Criterion "Keyword alignment" 3 3 "Mirror JD keywords.";
      Criterion "Brevity" 2 2 "Keep to 1–2 pages.";
      Criterion "Clarity" 3 3 "Avoid jargon/repetition." ] in
  w <- dict_get "Resume (ATS Score)" weights ;;
  let sections :=
    dict_set "Resume (ATS Score)"
      (Section_ resume_section_score
         (get_grade_tag (inject_Z resume_section_score)) w
         resume_criteria None) sections in

  (* 6) Certifications *)
  let '(cert_score, cert_criteria, cert_recs) :=
    if cert_presence then
      (65,
       [ Criterion "Role-relevant" 5 5 "Keep recent & relevant.";
         Criterion "Credible issuer" 5 5 "Prefer AWS, MS, Coursera, etc.";
         Criterion "Recency" 3 3 "Within 2 years preferred.";
         Criterion "Completeness" 2 2 "Title + issuer clearly listed." ],
       [])
    else
      (0,
       [ Criterion "Certifications present" 0 15
           "Consider 1–2 role-aligned certs." ],
       get_cert_suggestions "technical")
  in
  w <- dict_get "Certifications & Branding" weights ;;
  let sections :=
    dict_set "Certifications & Branding"
      (Section_ cert_score (get_grade_tag (inject_Z cert_score)) w
         cert_criteria (Some cert_recs)) sections in

  (* Totals *)
  let total_score :=
    sumQ (map (fun s => inject_Z (score s) * (inject_Z (weight s) / 100))%Q
              (dict_values sections)) in
  let all_scores := map score (dict_values sections) in
  let overall_avg :=
    round (inject_Z (sumZ all_scores)
           / inject_Z (Z.max 1 (Z.of_nat (List.length all_scores))))%Q in
  Some (Report sections (round total_score) overall_avg
          (get_grade_tag (inject_Z overall_avg)) suggestions).

(** *** Text normalization *)

(** [normalize_text]; [t or ''] is [t] for a [str]. *)
Definition normalize_text (t : string) : string :=
  lower (strip (sub false spaces " " t)).

(** *** Keyword match rate *)

Definition keyword_match_rate (text : string) (target_keywords : list string)
  : Q :=
  match target_keywords with
  | [] => 0
  | _ =>
      let t := normalize_text text in
      let hits :=
        List.length (filter (fun kw => contains (lower kw) t) target_keywords)
      in
      inject_Z (Z.of_nat hits)
      / inject_Z (Z.max 1 (Z.of_nat (List.length target_keywords)))
  end.

(** *** The resume rubric *)

Definition ats_resume_scoring (m : metrics) : breakdown :=
  let items : list item := [] in
  let total := 0 in
  let MAX_ATS := 15 in

  (* 1) Layout & structure: 3 *)
  let pts_layout :=
    int_bool (m_sections_present m) + int_bool (m_single_column m)
    + int_bool (m_text_extractable m) in
  let items :=
    (items ++ [Item "ATS-friendly layout & structure" pts_layout 3])%list in
  let total := total + pts_layout in

  (* 2) Action verbs & quantified: 4 *)
  let av := get (m_action_verbs_per_bullet m) 0%Q in
  let qr := get (m_quantified_bullets_ratio m) 0%Q in
  let pts_actions :=
    (if Qle_bool (8 # 10) av then 2 else if Qle_bool (5 # 10) av then 1 else 0)
    + (if Qle_bool (6 # 10) qr then 2
       else if Qle_bool (3 # 10) qr then 1 else 0) in
  let items :=
    (items ++ [Item "Action verbs & quantified results" pts_actions 4])%list in
  let total := total + pts_actions in

  (* 3) Keyword alignment: 3 *)
  let kmr := get (m_keyword_match_rate m) 0%Q in
  let pts_keywords :=
    if Qle_bool (75 # 100) kmr then 3
    else if Qle_bool (5 # 10) kmr then 2
    else if Qle_bool (3 # 10) kmr then 1 else 0 in
  let items :=
    (items ++ [Item "Job-relevant keyword alignment" pts_keywords 3])%list in
  let total := total + pts_keywords in

  (* 4) Brevity: 2 *)
  let pages := get (m_pages m) 2 in
  let avg_bullets := get (m_avg_bullets_per_job m) 6%Q in
  let pts_brev :=
    (if pages <=? 2 then 1 else 0)
    + (if Qle_bool avg_bullets 7 then 1 else 0) in
  let items := (items ++ [Item "Brevity & conciseness" pts_brev 2])%list in
  let total := total + pts_brev in

  (* 5) Minimal jargon / repetition: 3 *)
  let rep := get (m_repetition_rate m) (15 # 100)%Q in
  let jar := get (m_jargon_rate m) (2 # 10)%Q in
  let usk := get (m_unique_skills_count m) 8 in
  let pts_clean :=
    (if Qle_bool rep (10 # 100) then 1 else 0)
    + (if Qle_bool jar (15 # 100) then 1 else 0)
    + (if 8 <=? usk then 1 else 0) in
  let items :=
    (items ++ [Item "Minimal jargon / repetition" pts_clean 3])%list in
  let total := total + pts_clean in

  Breakdown items total MAX_ATS
    (round ((inject_Z total / inject_Z MAX_ATS) * 100)%Q).

(** *** Role keywords *)

Definition ROLE_KEYWORDS : list (string * list string) :=
  [ ("software engineer",
     ["python"; "java"; "javascript"; "react"; "node"; "docker";
      "kubernetes"; "microservices"; "rest"; "graphql"; "aws"; "gcp";
      "ci/cd"; "unit testing"]);
    ("data scientist",
     ["python"; "pandas"; "numpy"; "sklearn"; "tensorflow"; "pytorch"; "nlp";
      "cv"; "statistics"; "sql"; "experiment"; "a/b testing";
      "data visualization"]);
    ("devops engineer",
     ["ci/cd"; "docker"; "kubernetes"; "terraform"; "ansible"; "aws"; "gcp";
      "azure"; "monitoring"; "prometheus"; "grafana"; "helm"; "sre"]);
    ("web developer",
     ["html"; "css"; "javascript"; "react"; "next.js"; "vue"; "node";
      "express"; "rest"; "graphql"; "responsive"; "seo"]);
    ("mobile app developer",
     ["android"; "ios"; "kotlin"; "swift"; "flutter"; "react native";
      "firebase"; "push notifications"; "play store"; "app store"]);
    ("human resources",
     ["recruitment"; "onboarding"; "payroll"; "employee engagement"; "hrms";
      "policy"; "compliance"; "talent acquisition"; "grievance"; "training"]);
    ("marketing",
     ["seo"; "sem"; "campaign"; "content"; "email marketing"; "social media";
      "analytics"; "branding"; "roi"; "conversion"; "google ads"]);
    ("sales",
     ["crm"; "pipeline"; "lead generation"; "negotiation"; "quota";
      "prospecting"; "closing"; "upsell"; "cross-sell"; "demo"]);
    ("finance",
     ["budgeting"; "forecasting"; "reconciliation"; "audit";
      "financial analysis"; "p&l"; "variance"; "sap"; "tally"; "excel"]);
    ("customer service",
     ["crm"; "zendesk"; "freshdesk"; "sla"; "csat"; "ticketing";
      "call handling"; "escalation"; "knowledge base"; "communication"]) ].

(** The three lines of [derive_resume_metrics] that compute the entry
    keyword_match_rate of the metrics: [base_role] is the first key of
    [ROLE_KEYWORDS] that occurs in the lowered role title, [kws] its list
    ([[]] when there is none), and the rate is 0.0 for an empty [kws]. *)
Definition base_role (role_title : string) : option string :=
  find (fun rk => contains rk (lower role_title)) (dict_keys ROLE_KEYWORDS).

Definition role_kws (role_title : string) : list string :=
  match base_role role_title with
  | Some rk => get (dict_get rk ROLE_KEYWORDS) []
  | None => []
  end.

Definition derive_keyword_match_rate (resume_text role_title : string) : Q :=
  let kws := role_kws role_title in
  match kws with
  | [] => 0
  | _ => keyword_match_rate resume_text kws
  end.

(** *** Chart payload *)

(** The dict [prepare_chart_data] returns. *)
Record chart_data : Type := ChartData
  { labels : list string;
    scores : list Z;
    backgroundColors : list string }.

Definition grade_color (grade : string) : string :=
  let grade := lower grade in
  if (grade =? "excellent")%string then "#4CAF50"
  else if (grade =? "good")%string then "#2196F3"
  else if (grade =? "average")%string then "#FF9800"
  else "#dc3545".

Definition prepare_chart_data (score_breakdown : list (string * section))
  : chart_data :=
  let labels := dict_keys score_breakdown in
  let scores :=
    map (fun k => get (option_map score (dict_get k score_breakdown)) 0)
        labels in
  let colors :=
    map (fun k => grade_color
                    (get (option_map grade (dict_get k score_breakdown)) ""))
        labels in
  ChartData labels scores colors.

(** *** Applicant name *)

(** [extract_applicant_name]: the first line that is not blank, stripped. *)
Definition extract_applicant_name (resume_text : string) : string :=
  if (resume_text =? "")%string then "Applicant Name Not Found"
  else
    match find (fun line => negb (line =? "")%string)
               (map strip (splitlines resume_text)) with
    | Some line => line
    | None => "Applicant Name Not Found"
    end.

(** *** Links and usernames read from the text *)

(** [https?://[^\s)>\]\x22'}]+], the pattern of [extract_links_from_pdf]
    and [extract_links_combined]; \x22 is the double quote. *)
Definition delimiter (c : ascii) : bool :=
  isspace c || one_of ")>]'}" c || Ascii.eqb c dquote.

Definition pdf_url_pattern : regex :=
  seqs [lit "http"; opt (chr "s"); lit "://";
        plus (Chr (fun c => negb (delimiter c)))].

Section Pdf.
(** [extract_text_from_pdf], which reads the file with PyPDF2 and answers
    the empty text on any failure, is taken as given. *)
Context {file : Type}.
Variable extract_text_from_pdf : file -> string.

Definition extract_links_from_pdf (file_obj_or_path : file) : list string :=
  let text := extract_text_from_pdf file_obj_or_path in
  findall false pdf_url_pattern text.

Definition extract_links_combined (pdf_path : file) : list string * string :=
  let full_text := extract_text_from_pdf pdf_path in
  let found_urls := findall false pdf_url_pattern full_text in
  let found_emails :=
    map (fun e => ("mailto:" ++ e)%string)
        (findall false email_pattern full_text) in
  (dict_keys (dict_fromkeys (found_urls ++ found_emails)%list), full_text).
End Pdf.

(** [github\.com/([A-Za-z0-9\-]+)] *)
Definition github_username_pattern : regex :=
  seqs [lit "github.com/"; plus (Chr (fun c => alnum c || Ascii.eqb c "-"))].

(** [extract_github_username].  The group of the pattern is all of the
    match after the eleven characters of github.com/. *)
Definition extract_github_username (text : string) : option string :=
  match first_match false github_username_pattern None text with
  | Some (_, m, _, _) => Some (substring 11 (String.length m - 11) m)
  | None => None
  end.

(** [leetcode\.com/(?:u/)?([\w\-]+)] *)
Definition leetcode_username_pattern : regex :=
  seqs [lit "leetcode.com/"; opt (lit "u/");
        plus (Chr (fun c => isword c || Ascii.eqb c "-"))].

(** [extract_leetcode_username].  The group starts after leetcode.com/u/
    when the match took the optional u/, and after leetcode.com/ when it
    did not; the match took it exactly when it starts with leetcode.com/u/,
    since the slash is no character of the group. *)
Definition extract_leetcode_username (text : string) : option string :=
  match first_match false leetcode_username_pattern None text with
  | Some (_, m, _, _) =>
      let start := if prefix "leetcode.com/u/" m then 15%nat else 13%nat in
      Some (substring start (String.length m - start) m)
  | None => None
  end.

(** *** Metrics of a resume *)

Definition digit (c : ascii) : bool := in_range "0" "9" c.
Definition letter (c : ascii) : bool := in_range "a" "z" c || in_range "A" "Z" c.
Definition newline : ascii := ascii_of_nat 10.

(** The bullet U+2022 of the patterns: in the texts it is the character of
    number 149 (see the conventions at the top). *)
Definition bullet_char : ascii := ascii_of_nat 149.

Definition bullet : regex := chr bullet_char.

(** [(\n•|\n-|\n\d+\.)] *)
Definition bullet_pattern : regex :=
  alts [Seq (chr newline) bullet; Seq (chr newline) (chr "-");
        seqs [chr newline; plus (Chr digit); chr "."]].

(** [\b\d+(\.\d+)?%?|\b(k|m|bn)\b], with [re.I] *)
Definition quantified_pattern : regex :=
  Alt (seqs [Bnd; plus (Chr digit); opt (Seq (chr ".") (plus (Chr digit)));
             opt (chr "%")])
      (seqs [Bnd; alts [lit "k"; lit "m"; lit "bn"]; Bnd]).

(** [\b(company|employer|experience)\b] *)
Definition employer_pattern : regex :=
  seqs [Bnd; alts [lit "company"; lit "employer"; lit "experience"]; Bnd].

(** [[a-zA-Z][a-zA-Z0-9\+\#\.\-]{1,20}] *)
Definition skill_pattern : regex :=
  Seq (Chr letter) (Rep (Chr (fun c => alnum c || one_of "+#.-" c)) 1
                        (Some 20%nat)).

Definition action_verbs : list string :=
  ["led"; "built"; "created"; "designed"; "implemented"; "developed";
   "optimized"; "increased"; "reduced"; "launched"; "migrated"; "improved";
   "delivered"].

(** [(^|\n|•|\-)\s*(v)\b], with [re.I].  Without [re.M] the alternative
    [^] holds at the start of the text and nowhere else, and it is the first
    alternative: a match by it, if there is one, is the first match, and the
    scan of what follows uses the other three alternatives. *)
Definition verb_at_start (v : string) : regex :=
  seqs [Rep (Chr isspace) 0 None; lit v; Bnd].

Definition verb_after_mark (v : string) : regex :=
  seqs [alts [chr newline; bullet; chr "-"]; Rep (Chr isspace) 0 None;
        lit v; Bnd].

(** [len(re.findall(rf"(^|\n|•|\-)\s*({v})\b", text, flags=re.I))] *)
Definition count_action_verb (v : string) (text : string) : nat :=
  match run true (verb_at_start v) None text (fun p rest => Some (p, rest)) with
  | Some (p, rest) =>
      S (List.length
           (findall_from (S (String.length rest)) true (verb_after_mark v)
              p rest))
  | None => List.length (findall true (verb_after_mark v) text)
  end.

Definition derive_resume_metrics (resume_text role_title : string) : metrics :=
  let t := normalize_text resume_text in
  let sections_present :=
    existsb (fun k => contains k t) ["experience"; "work history"]
    && contains "education" t && contains "skills" t in
  let single_column := true in
  let text_extractable := (0 <? String.length t)%nat in

  let action_verb_hits :=
    sumZ (map (fun v => Z.of_nat (count_action_verb v resume_text))
              action_verbs) in
  let bullets :=
    Z.max 1 (Z.of_nat (List.length (findall false bullet_pattern resume_text)))
  in
  let action_verbs_per_bullet :=
    minQ 1 (inject_Z action_verb_hits / inject_Z bullets) in

  let quantified_bullets_ratio :=
    minQ 1
      (inject_Z (Z.of_nat (List.length
                             (findall true quantified_pattern resume_text)))
       / inject_Z (Z.max 1 bullets)) in

  let pages :=
    Z.max 1 (round (inject_Z (Z.of_nat (String.length resume_text)) / 2000)) in
  let avg_bullets_per_job :=
    minQ 12
      (inject_Z bullets
       / inject_Z (Z.max 1 (Z.of_nat (List.length
                                        (findall false employer_pattern t)))))
  in

  let kmr := derive_keyword_match_rate resume_text role_title in

  let repetition_rate :=
    if negb (contains "responsible for" t) then (8 # 100)%Q else (18 # 100)%Q
  in
  let jargon_rate :=
    if negb (contains "synergy" t) && negb (contains "leverage" t)
    then (12 # 100)%Q else (22 # 100)%Q in

  let unique_skills_count :=
    Z.of_nat (count_distinct (findall false skill_pattern resume_text)) / 50 in
  let unique_skills_count := Z.max 0 (Z.min unique_skills_count 15) in

  Metrics (Some sections_present) (Some single_column) (Some text_extractable)
    (Some action_verbs_per_bullet) (Some quantified_bullets_ratio) (Some kmr)
    (Some pages) (Some avg_bullets_per_job) (Some repetition_rate)
    (Some jargon_rate) (Some unique_skills_count).

(** *** The functions that ask the process *)

(** [_github_headers] *)
Definition _github_headers : Process.prog (list (string * string)) :=
  let headers := [("Accept", "application/vnd.github.v3+json")] in
  Process.Getenv "GITHUB_TOKEN" ""
    (fun value =>
       let token := strip value in
       Process.Ret (if negb (token =? "")%string
                    then dict_set "Authorization" ("token " ++ token) headers
                    else headers)).

(** [get_github_repo_count].  The body of [try] answers [Some] of what it
    returns and [None] where it runs to its end. *)
Definition get_github_repo_count (username : string) : Process.prog Z :=
  if (username =? "")%string then Process.Ret 0
  else
    let url := "https://api.github.com/users/" ++ username in
    returned <~ Process.catch
                  (headers <~ _github_headers ;;
                   r <~ Process.http_get url headers ;;
                   if Process.status_code r =? 200 then
                     match Process.json_int r "public_repos" with
                     | Some count => Process.Ret (Some count)
                     | None => Process.Raise
                     end
                   else Process.Ret None)
                  (Process.Ret None) ;;
    match returned with
    | Some count => Process.Ret count
    | None => Process.Ret 0
    end.

(** [fetch_leetcode_problem_count]; the call gives no headers. *)
Definition fetch_leetcode_problem_count (username : string) : Process.prog Z :=
  if (username =? "")%string then Process.Ret 0
  else
    let base := "https://leetcode-api-faisalshohag.vercel.app/" in
    returned <~ Process.catch
                  (res <~ Process.http_get (base ++ username) [] ;;
                   if Process.status_code res =? 200 then
                     match Process.json_int res "totalSolved" with
                     | Some count => Process.Ret (Some count)
                     | None => Process.Raise
                     end
                   else Process.Ret None)
                  (Process.Ret None) ;;
    match returned with
    | Some count => Process.Ret count
    | None => Process.Ret 0
    end.

(** [calculate_dynamic_ats_score] as a program of the process.  Its body
    calls [re.search], [sum], [round], [get_grade_tag] and
    [get_cert_suggestions], which work on their arguments, and nothing of
    [os] or [requests], the two modules of the process that [main/utils.py]
    imports (its docstring: no network calls here); [random] and [time] are
    not imported.  So the program asks nothing, and returns the report or
    raises the [KeyError] of a missing weight. *)
Definition calculate_dynamic_ats_score_prog (resume_text : string)
  (github_username leetcode_username : option string)
  (extracted_links : list link) : Process.prog report :=
  match calculate_dynamic_ats_score resume_text github_username
          leetcode_username extracted_links with
  | Some r => Process.Ret r
  | None => Process.Raise
  end.

End Utils.

(** ** [main/score_utils.py] *)

Module ScoreUtils.
Import Py Re Rubric.

(** [get_grade_tag]: [s = float(score)], then the three thresholds from
    the top. *)
Definition get_grade_tag (score : Q) : string :=
  let s := score in
  if Qle_bool 85 s then "Excellent"
  else if Qle_bool 70 s then "Good"
  else if Qle_bool 50 s then "Average"
  else "Poor".

Definition get_cert_suggestions (domain : string) : list string :=
  let domain := lower domain in
  if existsb (String.eqb domain)
       ["analytical"; "data"; "data analytics"; "data science"] then
    [ "Google Data Analytics Professional Certificate – Coursera";
      "IBM Data Science Professional Certificate – Coursera";
      "Microsoft Certified: Azure Data Scientist Associate" ]
  else if existsb (String.eqb domain)
            ["technical"; "software"; "engineering"] then
    [ "AWS Certified Developer – AWS";
      "Microsoft Certified: Azure Developer Associate";
      "Certified Kubernetes Application Developer (CKAD)" ]
  else
    [ "IBM AI Practitioner – Coursera";
      "Google Data Analytics Professional Certificate – Coursera";
      "AWS Certified Developer – AWS" ].

Definition TECHNICAL_WEIGHTS : list (string * Z) :=
  [ ("GitHub Profile", 25);
    ("LeetCode/DSA Skills", 20);
    ("Portfolio Website", 20);
    ("LinkedIn", 15);
    ("Resume (ATS Score)", 10);
    ("Certifications & Branding", 10) ].

(** An entry of [extracted_links], read with [lk.get]: a key that is
    missing, or whose value is [None], is [None]. *)
Record link : Type := Link { url : option string; type : option string }.

(** A section of the report: the keys score and grade. *)
Record section : Type := Section_ { score : Z; grade : string }.

Record report : Type := Report
  { sections : list (string * section);
    total_score : Z;
    overall_score_average : Z;
    overall_grade : string;
    suggestions : list string }.

(** [\b(netlify|vercel|github\.io|\.me|\.io|\.dev|\.app)\b], with [re.I] *)
Definition portfolio_pattern : regex :=
  seqs [Bnd;
        alts [lit "netlify"; lit "vercel"; lit "github.io"; lit ".me";
              lit ".io"; lit ".dev"; lit ".app"];
        Bnd].

(** [\b(certification|certified|certificate|course)\b], with [re.I] *)
Definition certs_pattern : regex :=
  seqs [Bnd;
        alts [lit "certification"; lit "certified"; lit "certificate";
              lit "course"];
        Bnd].

(** The inner function [_has_link]. *)
Definition _has_link (extracted_links : list link) (kind : string) : bool :=
  existsb (fun lk => (lower (or_empty (type lk)) =? lower kind)%string)
          extracted_links.

(** The inner function [sec], on the dict [sections]. *)
Definition sec (name : string) (score : Z) (sections : list (string * section))
  : list (string * section) :=
  dict_set name (Section_ score (get_grade_tag (inject_Z score))) sections.

(** The five presence tests, the local variables of the same names in
    [calculate_dynamic_ats_score]. *)
Definition has_github (text : string) (github_username : option string)
  : bool :=
  truthy github_username || contains "github.com" (lower text).

Definition has_lc (text : string) (leetcode_username : option string) : bool :=
  truthy leetcode_username || contains "leetcode.com" (lower text).

Definition has_portfolio (text : string) : bool :=
  search true portfolio_pattern text.

Definition has_linkedin (text : string) (extracted_links : list link) : bool :=
  _has_link extracted_links "LinkedIn"
  || contains "linkedin.com/in/" (lower text).

Definition has_certs (text : string) : bool :=
  search true certs_pattern text.

Definition calculate_dynamic_ats_score (resume_text : string)
  (github_username leetcode_username : option string)
  (extracted_links : option (list link)) (domain : string) : report :=
  let extracted_links := get extracted_links [] in

  let text := resume_text in
  let has_github := has_github text github_username in
  let has_lc := has_lc text leetcode_username in
  let has_portfolio := has_portfolio text in
  let has_linkedin := has_linkedin text extracted_links in
  let has_certs := has_certs text in

  let sections : list (string * section) := [] in

  (* Heuristic scores (kept modest so your own ATS number can override) *)
  let sections := sec "GitHub Profile" (if has_github then 70 else 0) sections in
  let sections :=
    sec "LeetCode/DSA Skills" (if has_lc then 60 else 0) sections in
  let sections :=
    sec "Portfolio Website" (if has_portfolio then 55 else 0) sections in
  let sections := sec "LinkedIn" (if has_linkedin then 60 else 0) sections in
  let sections := sec "Resume (ATS Score)" 60 sections in
  let sections :=
    sec "Certifications & Branding" (if has_certs then 50 else 0) sections in

  let suggestions : list string := [] in
  let suggestions :=
    if negb has_github
    then (suggestions ++ ["Add a public GitHub link with recent activity."])%list
    else suggestions in
  let suggestions :=
    if negb has_lc
    then (suggestions
            ++ ["Include your LeetCode (or equivalent) problem-solving profile."])%list
    else suggestions in
  let suggestions :=
    if negb has_portfolio
    then (suggestions
            ++ ["Publish a portfolio (Netlify/Vercel/GitHub Pages) with 2–3 write-ups."])%list
    else suggestions in
  let suggestions :=
    if negb has_linkedin
    then (suggestions
            ++ ["Link a public LinkedIn profile with a clear headline/summary."])%list
    else suggestions in
  let suggestions :=
    if negb has_certs
    then (suggestions ++ ["Add 1–2 recent role-relevant certifications."])%list
    else suggestions in

  (* Weighted blend to a small composite *)
  let total_score :=
    sumQ (flat_map
            (fun '(k, w) =>
               match dict_get k sections with
               | Some s => [(inject_Z (score s) * (inject_Z w / 100))%Q]
               | None => []
               end) TECHNICAL_WEIGHTS) in
  let overall_avg :=
    round (inject_Z (sumZ (map score (dict_values sections)))
           / inject_Z (Z.max 1 (Z.of_nat (List.length sections))))%Q in
  Report sections (round total_score) overall_avg
    (get_grade_tag (inject_Z overall_avg)) suggestions.

(** [normalize_text]; [t or ''] is [t] for a [str]. *)
Definition normalize_text (t : string) : string :=
  lower (strip (sub false spaces " " t)).

Definition ats_resume_scoring (m : metrics) : breakdown :=
  let items : list item := [] in
  let total := 0 in
  let MAX_ATS := 15 in

  let pts_layout :=
    int_bool (m_sections_present m) + int_bool (m_single_column m)
    + int_bool (m_text_extractable m) in
  let items :=
    (items ++ [Item "ATS-friendly layout & structure" pts_layout 3])%list in
  let total := total + pts_layout in

  let av := get (m_action_verbs_per_bullet m) 0%Q in
  let qr := get (m_quantified_bullets_ratio m) 0%Q in
  let pts_actions :=
    (if Qle_bool (8 # 10) av then 2 else if Qle_bool (5 # 10) av then 1 else 0)
    + (if Qle_bool (6 # 10) qr then 2
       else if Qle_bool (3 # 10) qr then 1 else 0) in
  let items :=
    (items ++ [Item "Action verbs & quantified results" pts_actions 4])%list in
  let total := total + pts_actions in

  let kmr := get (m_keyword_match_rate m) 0%Q in
  let pts_keywords :=
    if Qle_bool (75 # 100) kmr then 3
    else if Qle_bool (5 # 10) kmr then 2
    else if Qle_bool (3 # 10) kmr then 1 else 0 in
  let items :=
    (items ++ [Item "Job-relevant keyword alignment" pts_keywords 3])%list in
  let total := total + pts_keywords in

  let pages := get (m_pages m) 2 in
  let avg_bullets := get (m_avg_bullets_per_job m) 6%Q in
  let pts_brev :=
    (if pages <=? 2 then 1 else 0)
    + (if Qle_bool avg_bullets 7 then 1 else 0) in
  let items := (items ++ [Item "Brevity & conciseness" pts_brev 2])%list in
  let total := total + pts_brev in

  let rep := get (m_repetition_rate m) (15 # 100)%Q in
  let jar := get (m_jargon_rate m) (2 # 10)%Q in
  let usk := get (m_unique_skills_count m) 8 in
  let pts_clean :=
    (if Qle_bool rep (10 # 100) then 1 else 0)
    + (if Qle_bool jar (15 # 100) then 1 else 0)
    + (if 8 <=? usk then 1 else 0) in
  let items :=
    (items ++ [Item "Minimal jargon / repetition" pts_clean 3])%list in
  let total := total + pts_clean in

  Breakdown items total MAX_ATS
    (round ((inject_Z total / inject_Z MAX_ATS) * 100)%Q).

(** [extract_applicant_name]: the list of the stripped lines that are not
    blank, and its first entry. *)
Definition extract_applicant_name (resume_text : string) : string :=
  let lines :=
    map strip
        (filter (fun ln => negb (strip ln =? "")%string)
                (splitlines resume_text)) in
  match lines with
  | line :: _ => line
  | [] => "Applicant Name Not Found"
  end.

(** [_URL_RE], the same pattern as in [main/utils.py], and
    [extract_links_from_text]. *)
Definition _URL_RE : regex := Utils.pdf_url_pattern.

Definition extract_links_from_text (text : string) : list string :=
  findall false _URL_RE text.

(** [extract_github_username]: the pattern of [main/utils.py], searched
    with [re.I]. *)
Definition extract_github_username (text : string) : option string :=
  match first_match true Utils.github_username_pattern None text with
  | Some (_, m, _, _) => Some (substring 11 (String.length m - 11) m)
  | None => None
  end.

(** [calculate_dynamic_ats_score] as a program of the process: its body
    calls [re.search], [sum], [round] and [get_grade_tag] and nothing of
    [os], the one module of the process that [main/score_utils.py] imports
    (its docstring: pure Python, no network required), so it asks nothing
    either.  It has no statement that raises. *)
Definition calculate_dynamic_ats_score_prog (resume_text : string)
  (github_username leetcode_username : option string)
  (extracted_links : option (list link)) (domain : string)
  : Process.prog report :=
  Process.Ret (calculate_dynamic_ats_score resume_text
                 github_username leetcode_username extracted_links domain).

End ScoreUtils.

(** ** Texts over all of Unicode

    [norm_mobile] is applied to a field of the form, which can hold any
    character, and its pattern [\D+] tells the decimal digits of all scripts
    from the other characters.  It is embedded over an alphabet that is not
    fixed, with the two tables of CPython that it consults taken as given:
    [str.isspace], by which [strip] goes, and the class [\d] of a [str]
    pattern.  A text is the list of its characters. *)

Module Unicode.
Section Alphabet.
Context {char : Type}.

(** [s.lstrip()], [s.rstrip()] and [s.strip()]. *)
Section Strip.
Variable isspace : char -> bool.

Fixpoint lstrip (s : list char) : list char :=
  match s with
  | [] => []
  | c :: s' => if isspace c then lstrip s' else s
  end.

Fixpoint rstrip (s : list char) : list char :=
  match s with
  | [] => []
  | c :: s' =>
      match rstrip s' with
      | [] => if isspace c then [] else [c]
      | r => c :: r
      end
  end.

Definition strip (s : list char) : list char := rstrip (lstrip s).
End Strip.

(** The fragment of [re] that [\D+] needs, with the search of [Re]:
    alternatives from the left, greedy repetitions that give back one round
    at a time, the leftmost match first. *)
Inductive regex : Type :=
| Eps : regex
| Chr : (char -> bool) -> regex
| Seq : regex -> regex -> regex
| Alt : regex -> regex -> regex
| Rep : regex -> nat -> option nat -> regex.

Definition plus (r : regex) : regex := Rep r 1 None.

Definition answer : Type := option (list char).
Definition cont : Type := list char -> answer.

Section Rounds.
Variable step : list char -> cont -> answer.
Variable lo : nat.
Variable hi : option nat.
Variable k : cont.

Fixpoint rounds (fuel cnt : nat) (s : list char) {struct fuel} : answer :=
  let stop := if (lo <=? cnt)%nat then k s else None in
  let more :=
    match hi with
    | None => true
    | Some h => (cnt <? h)%nat
    end in
  match fuel with
  | O => stop
  | S fuel' =>
      if more then
        match step s (fun s' =>
                        if (List.length s' <? List.length s)%nat
                        then rounds fuel' (S cnt) s'
                        else None) with
        | Some a => Some a
        | None => stop
        end
      else stop
  end.
End Rounds.

Fixpoint run (r : regex) (s : list char) (k : cont) {struct r} : answer :=
  match r with
  | Eps => k s
  | Chr p =>
      match s with
      | [] => None
      | c :: s' => if p c then k s' else None
      end
  | Seq r1 r2 => run r1 s (fun s' => run r2 s' k)
  | Alt r1 r2 =>
      match run r1 s k with
      | Some a => Some a
      | None => run r2 s k
      end
  | Rep r' lo hi => rounds (run r') lo hi k (List.length s) 0 s
  end.

(** The leftmost match: the text before it, the text matched and the text
    after it. *)
Fixpoint first_match (r : regex) (s : list char)
  : option (list char * list char * list char) :=
  match run r s (fun rest => Some rest) with
  | Some rest => Some ([], firstn (List.length s - List.length rest) s, rest)
  | None =>
      match s with
      | [] => None
      | c :: s' =>
          match first_match r s' with
          | Some (before, m, rest) => Some (c :: before, m, rest)
          | None => None
          end
      end
  end.

(** [re.sub(r, repl, s)] for a replacement without group references. *)
Fixpoint sub_from (fuel : nat) (r : regex) (repl : list char)
  (s : list char) : list char :=
  match fuel with
  | O => s
  | S fuel' =>
      match first_match r s with
      | None => s
      | Some (before, m, rest) =>
          if (List.length m =? 0)%nat then
            match rest with
            | [] => before ++ repl
            | c :: rest' => before ++ repl ++ c :: sub_from fuel' r repl rest'
            end
          else before ++ repl ++ sub_from fuel' r repl rest
      end
  end.

Definition sub (r : regex) (repl : list char) (s : list char) : list char :=
  sub_from (S (List.length s)) r repl s.

End Alphabet.
End Unicode.

(** ** [main/views.py] *)

Module Views.
Import Py Re Rubric.

(** [_norm]: lower first, then the substitution, then [strip]. *)
Definition _norm (t : string) : string :=
  strip (sub false spaces " " (lower t)).

(** [norm_email]: [(email or "").strip().lower()]. *)
Definition norm_email (email : option string) : string :=
  lower (strip (or_empty email)).

Section Mobile.
Context {char : Type}.
(** [str.isspace] and the class [\d] of a [str] pattern, for one
    character. *)
Variable isspace : char -> bool.
Variable isdecimal : char -> bool.

(** [\D+] *)
Definition non_digits : Unicode.regex :=
  Unicode.plus (Unicode.Chr (fun c => negb (isdecimal c))).

(** [norm_mobile]: [re.sub(r"\D+", "", (mobile or "").strip())]. *)
Definition norm_mobile (mobile : option (list char)) : list char :=
  Unicode.sub non_digits [] (Unicode.strip isspace (get mobile [])).
End Mobile.

(** [_ordered_sections]: the sections whose key is one of the six display
    names, in the order of the names, then the other sections in the order
    of the dict. *)
Definition key_mapping : list (string * string) :=
  [ ("ATS", "Resume (ATS Readiness)");
    ("GitHub", "GitHub Score");
    ("LeetCode", "LeetCode Score");
    ("LinkedIn", "LinkedIn Profile");
    ("Portfolio", "Portfolio");
    ("Certifications", "Certifications") ].

Definition _ordered_sections {V : Type} (sections : list (string * V))
  : list (string * V) :=
  let desired_order :=
    ["ATS"; "GitHub"; "LeetCode"; "LinkedIn"; "Portfolio"; "Certifications"] in
  let ordered :=
    flat_map (fun name =>
                match dict_get name key_mapping with
                | Some key =>
                    if negb (key =? "")%string then
                      match dict_get key sections with
                      | Some v => [(key, v)]
                      | None => []
                      end
                    else []
                | None => []
                end) desired_order in
  let existing_keys := map fst ordered in
  (ordered
   ++ filter (fun kv => negb (existsb (String.eqb (fst kv)) existing_keys))
             sections)%list.

Definition TECH_ROLE_MAP : list (string * string) :=
  [ ("software_engineer", "Software Engineer");
    ("data_scientist", "Data Scientist");
    ("devops_engineer", "DevOps Engineer");
    ("web_developer", "Web Developer");
    ("mobile_developer", "Mobile App Developer") ].

(** A section as the view keeps it.  The override of the Resume section
    has no weight; its sub-criteria are those of the section it replaces
    or, were there none, the items of the rubric. *)
Record section : Type := Section_
  { score : Z;
    grade : string;
    weight : option Z;
    sub_criteria : list Utils.criterion + list item;
    recommendations : option (list string) }.

Definition of_engine (s : Utils.section) : section :=
  Section_ (Utils.score s) (Utils.grade s) (Some (Utils.weight s))
    (inl (Utils.sub_criteria s)) (Utils.recommendations s).

(** The context that [analyze_resume] stores in the session, without the
    three entries that come from outside the engine: result_key (a SHA-256
    digest), pie_chart_image (a rendered chart) and missing_certifications
    (a service of its own). *)
Record context : Type := Context
  { applicant_name : string;
    contact_detection : string;
    linkedin_detection : string;
    github_detection : string;
    ats_score : Z;
    overall_score_average : Z;
    overall_grade : string;
    score_breakdown : list (string * section);
    score_breakdown_ordered : list (string * section);
    suggestions : list string;
    role : string }.

Definition yes_no (b : bool) : string := if b then "YES" else "NO".

(** [a or b] for two strings. *)
Definition or_str (a b : string) : string :=
  if (a =? "")%string then b else a.

(** [analyze_resume] from the point where the text of the upload is at
    hand.  The arguments are the fields github_username, leetcode_username
    and tech_role of the form, [None] for a field that is not posted, and
    the extracted text; the answer is [None] where the engine raises. *)
Definition analyze_resume_context
  (post_github post_leetcode post_role : option string)
  (resume_text : string) : option context :=
  let applicant_name :=
    or_str (Utils.extract_applicant_name resume_text) "Candidate" in
  let github_username :=
    or_str (strip (or_empty post_github))
           (or_str (or_empty (Utils.extract_github_username resume_text)) "")
  in
  let leetcode_username :=
    or_str (strip (or_empty post_leetcode))
           (or_str (or_empty (Utils.extract_leetcode_username resume_text)) "")
  in

  let role_slug := get post_role "software_engineer" in
  let role_title := get (dict_get role_slug TECH_ROLE_MAP) "Software Engineer"
  in

  let metrics := Utils.derive_resume_metrics resume_text role_title in
  let ats_resume_score_dict := Utils.ats_resume_scoring metrics in
  let raw_100 := score_100 ats_resume_score_dict in
  (* Always keep it < 90 *)
  let ats_resume_score := Z.max 0 (Z.min 89 raw_100) in

  ats_result <- Utils.calculate_dynamic_ats_score resume_text
                  (Some github_username) (Some leetcode_username) [] ;;
  let sections := map (fun kv => (fst kv, of_engine (snd kv)))
                      (Utils.sections ats_result) in

  let original_ats_section := dict_get "Resume (ATS Score)" sections in
  let sections :=
    dict_set "Resume (ATS Score)"
      (Section_ ats_resume_score
         (get (option_map grade original_ats_section) "")
         None
         (get (option_map sub_criteria original_ats_section)
              (inr (items ats_resume_score_dict)))
         None)
      sections in

  let desired_order :=
    [ "Resume (ATS Score)"; "GitHub Profile"; "Portfolio Website";
      "LeetCode/DSA Skills"; "LinkedIn"; "Certifications & Branding" ] in
  let score_breakdown_ordered :=
    flat_map (fun key => match dict_get key sections with
                         | Some v => [(key, v)]
                         | None => []
                         end) desired_order in
  let score_breakdown_ordered :=
    (score_breakdown_ordered
     ++ filter (fun kv => negb (existsb (String.eqb (fst kv)) desired_order))
               sections)%list in

  let overall_score_average := Utils.overall_score_average ats_result in
  let suggestions := firstn 2 (Utils.suggestions ats_result) in

  Some (Context applicant_name
          (yes_no (existsb (fun s => contains s (lower resume_text))
                           ["@"; "phone"; "email"]))
          (yes_no (contains "linkedin.com" (lower resume_text)))
          (yes_no (contains "github.com" (lower resume_text)
                   || negb (github_username =? "")%string))
          ats_resume_score overall_score_average
          (Utils.overall_grade ats_result) sections score_breakdown_ordered
          suggestions role_title).
End Views.

(** ** Reading a report *)

Import Py Re Rubric.

(** [r["sections"][name]["score"]], and the same with the keys grade and
    weight; [None] when the report has no such section. *)
Definition utils_score (name : string) (r : Utils.report) : option Z :=
  option_map Utils.score (dict_get name (Utils.sections r)).

Definition utils_grade (name : string) (r : Utils.report) : option string :=
  option_map Utils.grade (dict_get name (Utils.sections r)).

Definition utils_weight (name : string) (r : Utils.report) : option Z :=
  option_map Utils.weight (dict_get name (Utils.sections r)).

Definition score_utils_score (name : string) (r : ScoreUtils.report)
  : option Z :=
  option_map ScoreUtils.score (dict_get name (ScoreUtils.sections r)).


(** The names of the five categories that are scored by presence. *)
Definition presence_categories : list string :=
  [ "GitHub Profile"; "LeetCode/DSA Skills"; "Portfolio Website"; "LinkedIn";
    "Certifications & Branding" ].

(** ** The keyword rate in the words of the specification *)

(** Role resolution: the first entry of the catalog whose title occurs in
    the role title of the caller, letter case set aside. *)
Definition spec_resolve_role (role_title : string)
  : option (string * list string) :=
  find (fun entry => contains (lower (fst entry)) (lower role_title))
       Utils.ROLE_KEYWORDS.

(** The fraction of the keywords of the resolved role that occur in the
    normalized text; 0 when no role is resolved. *)
Definition spec_keyword_match_rate (text role_title : string) : Q :=
  match spec_resolve_role role_title with
  | None => 0
  | Some (_, kws) =>
      Z.of_nat
        (List.length
           (filter (fun kw => contains kw (Utils.normalize_text text)) kws))
      # Pos.of_nat (List.length kws)
  end.

(** ** Words *)

(** A word is a non-empty string without whitespace. *)
Fixpoint no_space (w : string) : bool :=
  match w with
  | EmptyString => true
  | String c w' => negb (isspace c) && no_space w'
  end.

Definition is_word (w : string) : bool :=
  match w with
  | EmptyString => false
  | _ => no_space w
  end.

(** The state of a search after the run of whitespace the text starts
    with. *)
Fixpoint skip_spaces (prev : option ascii) (s : string)
  : option ascii * string :=
  match s with
  | EmptyString => (prev, EmptyString)
  | String c s' => if isspace c then skip_spaces (Some c) s' else (prev, s)
  end.

Definition starts_with_space (s : string) : bool :=
  match s with
  | EmptyString => false
  | String c _ => isspace c
  end.

(** The state of a search after the run of characters of a class that the
    text starts with. *)
Fixpoint skip_class (p : ascii -> bool) (prev : option ascii) (s : string)
  : option ascii * string :=
  match s with
  | EmptyString => (prev, EmptyString)
  | String c s' => if p c then skip_class p (Some c) s' else (prev, s)
  end.

Definition starts_with_class (p : ascii -> bool) (s : string) : bool :=
  match s with
  | EmptyString => false
  | String c _ => p c
  end.

(** The state of a search after the literal [l], when the text starts
    with it. *)
Fixpoint match_lit (l : string) (prev : option ascii) (s : string)
  : option (option ascii * string) :=
  match l with
  | EmptyString => Some (prev, s)
  | String c l' =>
      match s with
      | EmptyString => None
      | String d s' => if Ascii.eqb c d then match_lit l' (Some d) s' else None
      end
  end.

(** The first occurrences of the entries of a list, in their order. *)
Fixpoint dedup_first (l : list string) : list string :=
  match l with
  | [] => []
  | x :: l' => x :: filter (fun y => negb (y =? x)%string) (dedup_first l')
  end.

(** The continuation that ends a search: it answers the state reached. *)
Definition found : cont := fun p rest => Some (p, rest).

(** The classes of the link and username patterns. *)
Definition url_char (c : ascii) : bool := negb (Utils.delimiter c).

Definition username_char (c : ascii) : bool :=
  Utils.alnum c || Ascii.eqb c "-".

Definition handle_char (c : ascii) : bool := isword c || Ascii.eqb c "-".

(** [c["score_breakdown"][name]["score"]] of a context of the view. *)
Definition view_score (name : string) (c : Views.context) : option Z :=
  option_map Views.score (dict_get name (Views.score_breakdown c)).

(** Every character of a string is of a class. *)
Fixpoint all_chars (p : ascii -> bool) (s : string) : bool :=
  match s with
  | EmptyString => true
  | String c s' => p c && all_chars p s'
  end.

(** The text after the run of characters of a class that it starts
    with. *)
Fixpoint drop_class {char : Type} (q : char -> bool) (s : list char)
  : list char :=
  match s with
  | [] => []
  | c :: s' => if q c then drop_class q s' else s
  end.

(** A resume with two bullets: the lines Experience, U+2022 Led a team of
    5, U+2022 Built APIs, reduced cost 30%, Education and Skills: python
    docker, with a line feed between them. *)
Definition bulleted_resume : string :=
  let nl := String Utils.newline "" in
  let bl := String Utils.bullet_char "" in
  "Experience" ++ nl ++ bl ++ " Led a team of 5" ++ nl
  ++ bl ++ " Built APIs, reduced cost 30%" ++ nl
  ++ "Education" ++ nl ++ "Skills: python docker".

(** An entry with a url: its type is the class of the url, or Email for an
    address with mailto: before it. *)
Definition link_entry_ok (d : Utils.link) : Prop :=
  match Utils.url d with
  | Some u =>
      Utils.type d = Utils._classify u
      \/ (Utils.type d = "Email" /\ startswith "mailto:" u = true)
  | None => False
  end.

(** * Properties *)

(** ** Grades *)

Lemma Qle_bool_false (x y : Q) : Qle_bool x y = false <-> (y < x)%Q.
Proof.
  split; intro H.
  - apply Qnot_le_lt. intro Hle. apply Qle_bool_iff in Hle. congruence.
  - destruct (Qle_bool x y) eqn:E; [|reflexivity].
    apply Qle_bool_iff in E. exfalso. revert E. apply Qlt_not_le, H.
Qed.

(** Both implementations compute the same band function; the guard
    [score or 0] of [main/utils.py] changes nothing. *)
Lemma utils_grade_tag_eq (s : Q) :
  Utils.get_grade_tag s = ScoreUtils.get_grade_tag s.
Proof.
  unfold Utils.get_grade_tag, ScoreUtils.get_grade_tag.
  destruct (Qeq_bool s 0) eqn:E; [|reflexivity].
  apply Qeq_bool_iff in E.
  assert (H85 : Qle_bool 85 s = false) by (apply Qle_bool_false; lra).
  assert (H70 : Qle_bool 70 s = false) by (apply Qle_bool_false; lra).
  assert (H50 : Qle_bool 50 s = false) by (apply Qle_bool_false; lra).
  rewrite H85, H70, H50. reflexivity.
Qed.

Lemma score_utils_grade_tag_cases (s : Q) :
  ((s < 50)%Q /\ ScoreUtils.get_grade_tag s = "Poor")
  \/ ((50 <= s)%Q /\ (s < 70)%Q /\ ScoreUtils.get_grade_tag s = "Average")
  \/ ((70 <= s)%Q /\ (s < 85)%Q /\ ScoreUtils.get_grade_tag s = "Good")
  \/ ((85 <= s)%Q /\ ScoreUtils.get_grade_tag s = "Excellent").
Proof.
  unfold ScoreUtils.get_grade_tag.
  destruct (Qle_bool 85 s) eqn:E85.
  { apply Qle_bool_iff in E85. auto 6. }
  apply Qle_bool_false in E85.
  destruct (Qle_bool 70 s) eqn:E70.
  { apply Qle_bool_iff in E70. auto 6. }
  apply Qle_bool_false in E70.
  destruct (Qle_bool 50 s) eqn:E50.
  { apply Qle_bool_iff in E50. auto 6. }
  apply Qle_bool_false in E50. auto.
Qed.

(** The six boundary values of the specification.  49.9, 69.9 and 84.9 are
    taken both as decimals and as the doubles nearest to them. *)
Example grade_tag_boundaries :
  map Utils.get_grade_tag [499 # 10; 50; 699 # 10; 70; 849 # 10; 85]%Q
  = ["Poor"; "Average"; "Average"; "Good"; "Good"; "Excellent"]
  /\ map ScoreUtils.get_grade_tag [499 # 10; 50; 699 # 10; 70; 849 # 10; 85]%Q
     = ["Poor"; "Average"; "Average"; "Good"; "Good"; "Excellent"]
  /\ map Utils.get_grade_tag
       [7022800668930867 # 140737488355328;
        2459387609009357 # 35184372088832;
        2987153190341837 # 35184372088832]%Q
     = ["Poor"; "Average"; "Good"].
Proof. repeat split; vm_compute; reflexivity. Qed.

(** C1.  For every score [s] with [0 <= s <= 100], [get_grade_tag] of both
    modules answers by four contiguous bands with inclusive lower and
    exclusive upper bounds at 50, 70 and 85: Poor below 50, Average on
    [50,70), Good on [70,85), Excellent from 85 on. *)
Theorem get_grade_tag_bands (s : Q) (Hlo : (0 <= s)%Q) (Hhi : (s <= 100)%Q) :
  ((s < 50)%Q ->
     Utils.get_grade_tag s = "Poor" /\ ScoreUtils.get_grade_tag s = "Poor")
  /\ ((50 <= s)%Q -> (s < 70)%Q ->
     Utils.get_grade_tag s = "Average"
     /\ ScoreUtils.get_grade_tag s = "Average")
  /\ ((70 <= s)%Q -> (s < 85)%Q ->
     Utils.get_grade_tag s = "Good" /\ ScoreUtils.get_grade_tag s = "Good")
  /\ ((85 <= s)%Q ->
     Utils.get_grade_tag s = "Excellent"
     /\ ScoreUtils.get_grade_tag s = "Excellent").
Proof.
  rewrite utils_grade_tag_eq.
  destruct (score_utils_grade_tag_cases s)
    as [[H1 E] | [[H1 [H2 E]] | [[H1 [H2 E]] | [H1 E]]]];
    rewrite E; repeat split; intros; try reflexivity; exfalso; lra.
Qed.

Lemma get_grade_tag_bands_witness :
  (0 <= 499 # 10)%Q /\ (499 # 10 <= 100)%Q
  /\ Utils.get_grade_tag (499 # 10) = "Poor"
  /\ ScoreUtils.get_grade_tag (499 # 10) = "Poor".
Proof.
  assert (Hlo : (0 <= 499 # 10)%Q) by (unfold Qle; simpl; lia).
  assert (Hhi : (499 # 10 <= 100)%Q) by (unfold Qle; simpl; lia).
  split; [exact Hlo | split; [exact Hhi |]].
  apply (get_grade_tag_bands (499 # 10) Hlo Hhi).
  unfold Qlt; simpl; lia.
Defined.

(** ** Link extraction *)

Lemma add_anchors_extends (hrefs : list string) :
  forall (links : list Utils.link) (existing : list string),
    exists rest, Utils.add_anchors hrefs links existing = (links ++ rest)%list.
Proof.
  induction hrefs as [|h hrefs IH]; intros links existing; simpl.
  - exists []. symmetry. apply app_nil_r.
  - destruct (negb (existsb (String.eqb h) existing)).
    + destruct (IH (links ++ [Utils.Link (Some h) (Utils._classify h)])%list
                   (h :: existing)) as [rest E].
      rewrite E, <- app_assoc. eexists. reflexivity.
    + apply IH.
Qed.

(** An [href] that the scan of the text has already produced is not added
    again: this is the one place where the function removes duplicates. *)
Lemma add_anchors_skips_existing (h : string) (hrefs : list string)
  (links : list Utils.link) (existing : list string) :
  In h existing ->
  Utils.add_anchors (h :: hrefs) links existing
  = Utils.add_anchors hrefs links existing.
Proof.
  intro H. simpl.
  assert (E : existsb (String.eqb h) existing = true).
  { apply existsb_exists. exists h. split; [exact H | apply String.eqb_refl]. }
  rewrite E. reflexivity.
Qed.

(** With each of the two urls once in the text and no anchor, the result is
    the two entries, typed GitHub and LinkedIn, in the order of the text. *)
Example extract_links_two_urls :
  Utils.extract_and_identify_links (fun _ => [])
    "Code: https://github.com/alice Profile: https://linkedin.com/in/bob"
  = [ Utils.Link (Some "https://github.com/alice") "GitHub";
      Utils.Link (Some "https://linkedin.com/in/bob") "LinkedIn" ].
Proof. vm_compute. reflexivity. Qed.

(** An anchor whose [href] the scan has found already adds nothing; a new
    one is appended after the entries of the scan. *)
Example extract_links_anchor_deduplicated :
  Utils.extract_and_identify_links
    (fun _ => ["https://github.com/alice"; "https://alice.dev";
               "https://alice.dev"])
    "see https://github.com/alice"
  = [ Utils.Link (Some "https://github.com/alice") "GitHub";
      Utils.Link (Some "https://alice.dev") "Portfolio" ].
Proof. vm_compute. reflexivity. Qed.

(** C2, as the code has it.  A url that stands twice in the text is
    returned twice, whatever the anchors are: the entries of the scan are
    appended one by one and only the anchors are compared with what is
    already there.  The urls of the result are then not free of
    duplicates. *)
Theorem extract_links_repeated_url_kept
  (anchor_hrefs : string -> list string) :
  let text := "https://github.com/alice https://github.com/alice" in
  let entry := Utils.Link (Some "https://github.com/alice") "GitHub" in
  (exists rest,
      Utils.extract_and_identify_links anchor_hrefs text
      = entry :: entry :: rest)
  /\ ~ NoDup (map Utils.url
                (Utils.extract_and_identify_links anchor_hrefs text)).
Proof.
  intros text entry.
  assert (E : exists rest,
             Utils.extract_and_identify_links anchor_hrefs text
             = entry :: entry :: rest).
  { unfold Utils.extract_and_identify_links. cbv zeta.
    replace (findall false Utils.url_pattern text)
      with ["https://github.com/alice"; "https://github.com/alice"]
      by (vm_compute; reflexivity).
    replace (findall false Utils.email_pattern text) with (@nil string)
      by (vm_compute; reflexivity).
    replace (search true (lit "linkedin") text) with false
      by (vm_compute; reflexivity).
    match goal with
    | |- context [Utils.add_anchors ?h ?l ?e] =>
        destruct (add_anchors_extends h l e) as [rest ->]
    end.
    exists rest. reflexivity. }
  split; [exact E |].
  destruct E as [rest ->]. simpl. intro H.
  inversion H as [|x l Hin _]. apply Hin. left. reflexivity.
Qed.

(** ** The report of [calculate_dynamic_ats_score] *)

(** Unfold the engine of [main/utils.py] and split on its five tests. *)
Ltac utils_cases :=
  unfold Utils.calculate_dynamic_ats_score; cbv zeta;
  match goal with
  | |- context [Utils.github_presence ?g] =>
      generalize (Utils.github_presence g)
  end;
  match goal with
  | |- context [Utils.leetcode_presence ?g] =>
      generalize (Utils.leetcode_presence g)
  end;
  match goal with
  | |- context [Utils.portfolio_presence ?t] =>
      generalize (Utils.portfolio_presence t);
      generalize (Utils.linkedin_presence t);
      generalize (Utils.cert_presence t)
  end;
  intros [|] [|] [|] [|] [|].

(** The same for [main/score_utils.py]. *)
Ltac score_utils_cases :=
  unfold ScoreUtils.calculate_dynamic_ats_score; cbv zeta;
  match goal with
  | |- context [ScoreUtils.has_github ?t ?g] =>
      generalize (ScoreUtils.has_github t g)
  end;
  match goal with
  | |- context [ScoreUtils.has_lc ?t ?g] =>
      generalize (ScoreUtils.has_lc t g)
  end;
  match goal with
  | |- context [ScoreUtils.has_linkedin ?t ?l] =>
      generalize (ScoreUtils.has_linkedin t l)
  end;
  match goal with
  | |- context [ScoreUtils.has_portfolio ?t] =>
      generalize (ScoreUtils.has_portfolio t);
      generalize (ScoreUtils.has_certs t)
  end;
  intros [|] [|] [|] [|] [|].


(** ** Category weights *)

(** The weights a report carries, section by section. *)
Lemma weights_declared_sum :
  sumZ (map snd Utils.TECHNICAL_WEIGHTS) = 100
  /\ sumZ (map snd ScoreUtils.TECHNICAL_WEIGHTS) = 100
  /\ dict_get "LinkedIn Profile" Utils.TECHNICAL_WEIGHTS = Some 15
  /\ dict_get "LinkedIn" ScoreUtils.TECHNICAL_WEIGHTS = Some 15.
Proof. repeat split; reflexivity. Qed.

(** C3, as the code has it.  The declared weights of [main/utils.py] are
    25, 20, 20, 15, 10, 10 and sum to 100, with 15 for LinkedIn Profile.
    Every report carries the declared weight on five of its sections, but
    the section LinkedIn carries the literal 3: the weights attached to a
    report sum to 88, not to 100. *)
Theorem utils_report_weights
  (resume_text : string) (github_username leetcode_username : option string)
  (links : list Utils.link) :
  map snd Utils.TECHNICAL_WEIGHTS = [25; 20; 20; 15; 10; 10]
  /\ sumZ (map snd Utils.TECHNICAL_WEIGHTS) = 100
  /\ dict_get "LinkedIn Profile" Utils.TECHNICAL_WEIGHTS = Some 15
  /\ dict_get "LinkedIn" Utils.TECHNICAL_WEIGHTS = None
  /\ exists r,
       Utils.calculate_dynamic_ats_score resume_text github_username
         leetcode_username links = Some r
       /\ map (fun kv => (fst kv, Utils.weight (snd kv))) (Utils.sections r)
          = [ ("GitHub Profile", 25); ("LeetCode/DSA Skills", 20);
              ("Portfolio Website", 20); ("LinkedIn", 3);
              ("Resume (ATS Score)", 10); ("Certifications & Branding", 10) ]
       /\ utils_weight "LinkedIn" r = Some 3
       /\ sumZ (map Utils.weight (dict_values (Utils.sections r))) = 88.
Proof.
  repeat (split; [reflexivity |]).
  utils_cases; eexists; (split; [reflexivity |]); repeat split; reflexivity.
Qed.

(** ** Empty text and no identifiers *)

(** In [main/utils.py] a missing certification adds no entry to the
    suggestions: with nothing present the list has four entries, not five. *)
Lemma utils_empty_text_suggestions_not_five :
  ~ (exists r,
        Utils.calculate_dynamic_ats_score "" None None [] = Some r
        /\ List.length (Utils.suggestions r) = 5%nat).
Proof.
  intros [r [E H]]. vm_compute in E. injection E as <-.
  vm_compute in H. discriminate.
Qed.

(** C7, amended.  With an empty text, usernames that are [None] or empty
    and no extracted links, both engines return a report (the one of
    [main/utils.py] raises no [KeyError]) with all six sections, every
    presence test false and the five presence scores 0.  The suggestions of
    [main/score_utils.py] are five, one per missing category; those of
    [main/utils.py] are four, the missing certifications being answered by
    three recommendations inside their section. *)
Theorem empty_text_report
  (github_username leetcode_username : option string)
  (links : list Utils.link) (extracted_links : option (list ScoreUtils.link))
  (domain : string)
  (Hgh : truthy github_username = false)
  (Hlc : truthy leetcode_username = false)
  (Hlinks : get extracted_links [] = []) :
  (Utils.github_presence github_username = false
   /\ Utils.leetcode_presence leetcode_username = false
   /\ Utils.portfolio_presence "" = false
   /\ Utils.linkedin_presence "" = false
   /\ Utils.cert_presence "" = false)
  /\ (ScoreUtils.has_github "" github_username = false
      /\ ScoreUtils.has_lc "" leetcode_username = false
      /\ ScoreUtils.has_portfolio "" = false
      /\ ScoreUtils.has_linkedin "" (get extracted_links []) = false
      /\ ScoreUtils.has_certs "" = false)
  /\ (exists r,
         Utils.calculate_dynamic_ats_score "" github_username
           leetcode_username links = Some r
         /\ dict_keys (Utils.sections r)
            = [ "GitHub Profile"; "LeetCode/DSA Skills"; "Portfolio Website";
                "LinkedIn"; "Resume (ATS Score)";
                "Certifications & Branding" ]
         /\ map (fun c => utils_score c r) presence_categories
            = [Some 0; Some 0; Some 0; Some 0; Some 0]
         /\ List.length (Utils.suggestions r) = 4%nat
         /\ option_map (fun s => option_map (@List.length string)
                                   (Utils.recommendations s))
              (dict_get "Certifications & Branding" (Utils.sections r))
            = Some (Some 3%nat))
  /\ (let r := ScoreUtils.calculate_dynamic_ats_score "" github_username
                 leetcode_username extracted_links domain in
      dict_keys (ScoreUtils.sections r)
      = [ "GitHub Profile"; "LeetCode/DSA Skills"; "Portfolio Website";
          "LinkedIn"; "Resume (ATS Score)"; "Certifications & Branding" ]
      /\ map (fun c => score_utils_score c r) presence_categories
         = [Some 0; Some 0; Some 0; Some 0; Some 0]
      /\ List.length (ScoreUtils.suggestions r) = 5%nat).
Proof.
  assert (U : Utils.github_presence github_username = false
              /\ Utils.leetcode_presence leetcode_username = false
              /\ Utils.portfolio_presence "" = false
              /\ Utils.linkedin_presence "" = false
              /\ Utils.cert_presence "" = false).
  { unfold Utils.github_presence, Utils.leetcode_presence.
    rewrite Hgh, Hlc. repeat split; vm_compute; reflexivity. }
  assert (S : ScoreUtils.has_github "" github_username = false
              /\ ScoreUtils.has_lc "" leetcode_username = false
              /\ ScoreUtils.has_portfolio "" = false
              /\ ScoreUtils.has_linkedin "" (get extracted_links []) = false
              /\ ScoreUtils.has_certs "" = false).
  { unfold ScoreUtils.has_github, ScoreUtils.has_lc, ScoreUtils.has_linkedin.
    rewrite Hgh, Hlc, Hlinks. repeat split; vm_compute; reflexivity. }
  split; [exact U | split; [exact S |]].
  destruct U as (U1 & U2 & U3 & U4 & U5).
  destruct S as (S1 & S2 & S3 & S4 & S5).
  split.
  - unfold Utils.calculate_dynamic_ats_score. cbv zeta.
    rewrite U1, U2, U3, U4, U5.
    eexists. split; [reflexivity |]. repeat split; reflexivity.
  - unfold ScoreUtils.calculate_dynamic_ats_score. cbv zeta.
    rewrite S1, S2, S3, S4, S5. repeat split; reflexivity.
Qed.

Lemma empty_text_report_witness :
  exists r,
    Utils.calculate_dynamic_ats_score "" None (Some "") [] = Some r
    /\ List.length (Utils.suggestions r) = 4%nat
    /\ List.length
         (ScoreUtils.suggestions
            (ScoreUtils.calculate_dynamic_ats_score "" None (Some "")
               (Some []) "Technical")) = 5%nat.
Proof.
  destruct (empty_text_report None (Some "") [] (Some []) "Technical"
              eq_refl eq_refl eq_refl)
    as (_ & _ & (r & E & _ & _ & H4 & _) & (_ & _ & H5)).
  exists r. split; [exact E | split; [exact H4 | exact H5]].
Defined.

(** ** Presence tests *)

Lemma prefix_lower (a b : string) :
  prefix a b = true -> prefix (lower a) (lower b) = true.
Proof.
  revert a. induction b as [|y b IH]; intros [|x a]; simpl; try congruence.
  destruct (ascii_dec x y) as [->|]; [|discriminate].
  intro H. destruct (ascii_dec (lower_char y) (lower_char y)); [|congruence].
  apply IH, H.
Qed.

Lemma contains_lower (needle hay : string) :
  contains needle hay = true -> contains (lower needle) (lower hay) = true.
Proof.
  induction hay as [|c hay IH]; simpl; intro H.
  - apply orb_true_iff in H. destruct H as [H|]; [|discriminate].
    apply (prefix_lower needle "") in H. simpl in H. rewrite H. reflexivity.
  - apply orb_true_iff in H. apply orb_true_iff. destruct H as [H|H].
    + left. apply (prefix_lower needle (String c hay)), H.
    + right. apply IH, H.
Qed.

(** In [main/utils.py] a text that names github.com does not make GitHub
    present when no username is passed. *)
Lemma utils_github_needs_username :
  contains "github.com" "https://github.com/alice" = true
  /\ Utils.github_presence None = false
  /\ exists r,
       Utils.calculate_dynamic_ats_score "https://github.com/alice" None None
         [] = Some r
       /\ utils_score "GitHub Profile" r = Some 0
       /\ In "Add a GitHub profile link with pinned, recent projects."
            (Utils.suggestions r).
Proof.
  split; [reflexivity | split; [reflexivity |]].
  eexists. split; [vm_compute; reflexivity |].
  split; [reflexivity | left; reflexivity].
Qed.

(** In [main/score_utils.py] a link of type Portfolio that the caller
    passes does not make the portfolio present: only the text is asked. *)
Example score_utils_portfolio_ignores_links :
  score_utils_score "Portfolio Website"
    (ScoreUtils.calculate_dynamic_ats_score "" None None
       (Some [ScoreUtils.Link (Some "https://alice.dev") (Some "Portfolio")])
       "Technical") = Some 0.
Proof. vm_compute. reflexivity. Qed.

(** C8, amended.  In [main/score_utils.py] GitHub (LeetCode) is present,
    with score 70 (60), exactly when a username is passed or the lowered
    text contains github.com (leetcode.com); LinkedIn (60) exactly when a
    passed link has the type LinkedIn or the lowered text contains
    linkedin.com/in/; Portfolio (55) and Certifications (50) exactly when
    their pattern is found in the text.  So a text that contains github.com
    makes GitHub present without a username.  In [main/utils.py] GitHub (11)
    and LeetCode (8) are present exactly when their username is passed, and
    Portfolio (7), LinkedIn (3) and Certifications (65) exactly when their
    pattern is found in the text. *)
Theorem presence_tests
  (resume_text : string) (github_username leetcode_username : option string)
  (links : list Utils.link) (extracted_links : option (list ScoreUtils.link))
  (domain : string) :
  (let r := ScoreUtils.calculate_dynamic_ats_score resume_text
              github_username leetcode_username extracted_links domain in
   score_utils_score "GitHub Profile" r
   = Some (if truthy github_username
              || contains "github.com" (lower resume_text)
           then 70 else 0)
   /\ score_utils_score "LeetCode/DSA Skills" r
      = Some (if truthy leetcode_username
                 || contains "leetcode.com" (lower resume_text)
              then 60 else 0)
   /\ score_utils_score "LinkedIn" r
      = Some (if existsb
                   (fun lk => (lower (or_empty (ScoreUtils.type lk))
                               =? "linkedin")%string)
                   (get extracted_links [])
                 || contains "linkedin.com/in/" (lower resume_text)
              then 60 else 0)
   /\ score_utils_score "Portfolio Website" r
      = Some (if search true ScoreUtils.portfolio_pattern resume_text
              then 55 else 0)
   /\ score_utils_score "Certifications & Branding" r
      = Some (if search true ScoreUtils.certs_pattern resume_text
              then 50 else 0))
  /\ (contains "github.com" resume_text = true ->
      score_utils_score "GitHub Profile"
        (ScoreUtils.calculate_dynamic_ats_score resume_text None
           leetcode_username extracted_links domain) = Some 70)
  /\ (exists r,
         Utils.calculate_dynamic_ats_score resume_text github_username
           leetcode_username links = Some r
         /\ utils_score "GitHub Profile" r
            = Some (if truthy github_username then 11 else 0)
         /\ utils_score "LeetCode/DSA Skills" r
            = Some (if truthy leetcode_username then 8 else 0)
         /\ utils_score "Portfolio Website" r
            = Some (if search true Utils.portfolio_presence_pattern
                         resume_text
                    then 7 else 0)
         /\ utils_score "LinkedIn" r
            = Some (if search true Utils.linkedin_presence_pattern resume_text
                    then 3 else 0)
         /\ utils_score "Certifications & Branding" r
            = Some (if search true Utils.cert_presence_pattern resume_text
                    then 65 else 0)).
Proof.
  assert (G : forall g,
             score_utils_score "GitHub Profile"
               (ScoreUtils.calculate_dynamic_ats_score resume_text g
                  leetcode_username extracted_links domain)
             = Some (if truthy g || contains "github.com" (lower resume_text)
                     then 70 else 0)).
  { intro g. change (truthy g || contains "github.com" (lower resume_text))
      with (ScoreUtils.has_github resume_text g).
    score_utils_cases; reflexivity. }
  split; [| split].
  - cbv zeta. split; [apply G |].
    change (truthy leetcode_username
            || contains "leetcode.com" (lower resume_text))
      with (ScoreUtils.has_lc resume_text leetcode_username).
    change (existsb
              (fun lk => (lower (or_empty (ScoreUtils.type lk))
                          =? "linkedin")%string)
              (get extracted_links [])
            || contains "linkedin.com/in/" (lower resume_text))
      with (ScoreUtils.has_linkedin resume_text (get extracted_links [])).
    change (search true ScoreUtils.portfolio_pattern resume_text)
      with (ScoreUtils.has_portfolio resume_text).
    change (search true ScoreUtils.certs_pattern resume_text)
      with (ScoreUtils.has_certs resume_text).
    score_utils_cases; repeat split; reflexivity.
  - intro H. rewrite G.
    apply contains_lower in H. change (lower "github.com") with "github.com" in H.
    rewrite H, orb_true_r. reflexivity.
  - change (truthy github_username)
      with (Utils.github_presence github_username).
    change (truthy leetcode_username)
      with (Utils.leetcode_presence leetcode_username).
    change (search true Utils.portfolio_presence_pattern resume_text)
      with (Utils.portfolio_presence resume_text).
    change (search true Utils.linkedin_presence_pattern resume_text)
      with (Utils.linkedin_presence resume_text).
    change (search true Utils.cert_presence_pattern resume_text)
      with (Utils.cert_presence resume_text).
    utils_cases; eexists; (split; [reflexivity |]); repeat split; reflexivity.
Qed.

Lemma presence_tests_witness :
  contains "github.com" "see github.com/alice" = true
  /\ score_utils_score "GitHub Profile"
       (ScoreUtils.calculate_dynamic_ats_score "see github.com/alice" None
          None None "Technical") = Some 70.
Proof.
  split; [reflexivity |].
  apply (presence_tests "see github.com/alice" None None [] None "Technical").
  reflexivity.
Defined.

(** ** Arguments that are not read *)

(** The engine of [main/utils.py] never reads [extracted_links], and the
    one of [main/score_utils.py] never reads [domain]. *)
Lemma utils_ignores_links
  (resume_text : string) (github_username leetcode_username : option string)
  (links links' : list Utils.link) :
  Utils.calculate_dynamic_ats_score resume_text github_username
    leetcode_username links
  = Utils.calculate_dynamic_ats_score resume_text github_username
      leetcode_username links'.
Proof. reflexivity. Qed.

Lemma score_utils_ignores_domain
  (resume_text : string) (github_username leetcode_username : option string)
  (extracted_links : option (list ScoreUtils.link)) (domain domain' : string) :
  ScoreUtils.calculate_dynamic_ats_score resume_text github_username
    leetcode_username extracted_links domain
  = ScoreUtils.calculate_dynamic_ats_score resume_text github_username
      leetcode_username extracted_links domain'.
Proof. reflexivity. Qed.

(** ** The report of [main/utils.py] at a glance *)

(** The report of [main/utils.py] at a glance: its six sections in their
    order, their scores, the grade of the placeholder, the suggestions and
    the overall figures. *)
Lemma utils_report_check
  (resume_text : string) (github_username leetcode_username : option string)
  (links : list Utils.link) :
  match Utils.calculate_dynamic_ats_score resume_text github_username
          leetcode_username links with
  | None => False
  | Some r =>
      dict_keys (Utils.sections r)
      = [ "GitHub Profile"; "LeetCode/DSA Skills"; "Portfolio Website";
          "LinkedIn"; "Resume (ATS Score)"; "Certifications & Branding" ]
      /\ map Utils.score (dict_values (Utils.sections r))
         = [ if Utils.github_presence github_username then 11 else 0;
             if Utils.leetcode_presence leetcode_username then 8 else 0;
             if Utils.portfolio_presence resume_text then 7 else 0;
             if Utils.linkedin_presence resume_text then 3 else 0;
             65;
             if Utils.cert_presence resume_text then 65 else 0 ]
      /\ utils_grade "Resume (ATS Score)" r = Some "Average"
      /\ Utils.suggestions r
         = ((if Utils.github_presence github_username then []
             else ["Add a GitHub profile link with pinned, recent projects."])
            ++ (if Utils.leetcode_presence leetcode_username then []
                else ["Include a LeetCode link to showcase DSA practice."])
            ++ (if Utils.portfolio_presence resume_text then []
                else ["Publish a simple portfolio with 2–3 best projects."])
            ++ (if Utils.linkedin_presence resume_text then []
                else ["Add a public LinkedIn link (custom URL preferred)."]))%list
      /\ 11 <= Utils.overall_score_average r <= 26
      /\ Utils.overall_grade r = "Poor"
  end.
Proof.
  utils_cases; vm_compute; repeat split; try reflexivity; discriminate.
Qed.

Lemma utils_report_form
  (resume_text : string) (github_username leetcode_username : option string)
  (links : list Utils.link) :
  exists r s1 s2 s3 s4 s5 s6,
    Utils.calculate_dynamic_ats_score resume_text github_username
      leetcode_username links = Some r
    /\ Utils.sections r
       = [ ("GitHub Profile", s1); ("LeetCode/DSA Skills", s2);
           ("Portfolio Website", s3); ("LinkedIn", s4);
           ("Resume (ATS Score)", s5); ("Certifications & Branding", s6) ]
    /\ Utils.score s1
       = (if Utils.github_presence github_username then 11 else 0)
    /\ Utils.score s2
       = (if Utils.leetcode_presence leetcode_username then 8 else 0)
    /\ Utils.score s3
       = (if Utils.portfolio_presence resume_text then 7 else 0)
    /\ Utils.score s4
       = (if Utils.linkedin_presence resume_text then 3 else 0)
    /\ (Utils.score s5 = 65 /\ Utils.grade s5 = "Average")
    /\ Utils.score s6
       = (if Utils.cert_presence resume_text then 65 else 0)
    /\ Utils.suggestions r
       = ((if Utils.github_presence github_username then []
           else ["Add a GitHub profile link with pinned, recent projects."])
          ++ (if Utils.leetcode_presence leetcode_username then []
              else ["Include a LeetCode link to showcase DSA practice."])
          ++ (if Utils.portfolio_presence resume_text then []
              else ["Publish a simple portfolio with 2–3 best projects."])
          ++ (if Utils.linkedin_presence resume_text then []
              else ["Add a public LinkedIn link (custom URL preferred)."]))%list
    /\ 11 <= Utils.overall_score_average r <= 26
    /\ Utils.overall_grade r = "Poor".
Proof.
  pose proof (utils_report_check resume_text github_username leetcode_username
                links) as H.
  destruct (Utils.calculate_dynamic_ats_score _ _ _ _) as [r|]; [|destruct H].
  destruct H as (Hk & Hs & Hg & Hsug & Havg & Hgr).
  unfold utils_grade in Hg. unfold dict_keys, dict_values in *.
  destruct (Utils.sections r) as [|[k1 s1] [|[k2 s2] [|[k3 s3] [|[k4 s4]
    [|[k5 s5] [|[k6 s6] [|? ?]]]]]]] eqn:Hsec; try discriminate Hk.
  cbn [map fst snd] in Hk, Hs.
  injection Hk as -> -> -> -> -> ->.
  injection Hs as E1 E2 E3 E4 E5 E6.
  cbn in Hg. injection Hg as Hg.
  exists r, s1, s2, s3, s4, s5, s6.
  repeat split; reflexivity || assumption || apply Havg.
Qed.

(** ** Determinism *)


(** ** Text normalization *)

Lemma isspace_lower_char (c : ascii) : isspace (lower_char c) = isspace c.
Proof. destruct c as [[] [] [] [] [] [] [] []]; reflexivity. Qed.

Lemma lower_char_idem (c : ascii) : lower_char (lower_char c) = lower_char c.
Proof. destruct c as [[] [] [] [] [] [] [] []]; reflexivity. Qed.

Lemma lower_idem (s : string) : lower (lower s) = lower s.
Proof.
  induction s as [|c s IH]; simpl; [reflexivity|].
  rewrite lower_char_idem, IH. reflexivity.
Qed.

Lemma lower_app (a b : string) : lower (a ++ b) = lower a ++ lower b.
Proof. induction a as [|c a IH]; simpl; [|rewrite IH]; reflexivity. Qed.

Lemma join_cons_cons (sep w w' : string) (ws : list string) :
  join sep (w :: w' :: ws) = w ++ sep ++ join sep (w' :: ws).
Proof. reflexivity. Qed.

Lemma join_cons_char (sep : string) (c : ascii) (w : string)
  (ws : list string) :
  join sep (String c w :: ws) = String c (join sep (w :: ws)).
Proof. destruct ws; reflexivity. Qed.

Lemma lower_join (ws : list string) :
  lower (join " " ws) = join " " (map lower ws).
Proof.
  induction ws as [|w ws IH]; [reflexivity|].
  destruct ws as [|w' ws]; [reflexivity|].
  rewrite join_cons_cons, !lower_app, IH. reflexivity.
Qed.

(** [lstrip] after the substitution is the substitution that starts inside
    a run. *)
Lemma lstrip_sub_spaces (b : bool) (t : string) :
  lstrip (sub_spaces b t) = sub_spaces true t.
Proof.
  revert b. induction t as [|c t IH]; intro b; simpl; [reflexivity|].
  destruct (isspace c) eqn:Ec.
  - destruct b; simpl; apply IH.
  - simpl. rewrite Ec. reflexivity.
Qed.

Lemma split_cons (c : ascii) (t : string) :
  split (String c t)
  = if isspace c then split t
    else match t with
         | EmptyString => [String c EmptyString]
         | String c' _ =>
             if isspace c' then String c EmptyString :: split t
             else match split t with
                  | w :: ws => String c w :: ws
                  | [] => [String c EmptyString]
                  end
         end.
Proof. reflexivity. Qed.

Lemma rstrip_cons (c : ascii) (t : string) :
  rstrip (String c t)
  = match rstrip t with
    | EmptyString => if isspace c then EmptyString else String c EmptyString
    | r => String c r
    end.
Proof. reflexivity. Qed.

Lemma split_head (c : ascii) (t : string) :
  isspace c = false ->
  exists w ws, split (String c t) = String c w :: ws.
Proof.
  intro Ec. rewrite split_cons, Ec. destruct t as [|c' t']; [eauto|].
  destruct (isspace c'); [eauto|].
  destruct (split (String c' t')); eauto.
Qed.

Lemma join_nil_inv (ws : list string) :
  Forall (fun w => is_word w = true) ws -> join " " ws = "" -> ws = [].
Proof.
  intros H E. destruct ws as [|w ws]; [reflexivity|].
  inversion H as [|? ? Hw _]; subst.
  destruct w as [|c w]; [discriminate Hw|].
  rewrite join_cons_char in E. discriminate E.
Qed.

Lemma split_words (t : string) : Forall (fun w => is_word w = true) (split t).
Proof.
  induction t as [|c t IH]; [constructor|].
  rewrite split_cons.
  destruct (isspace c) eqn:Ec; [exact IH|].
  assert (Hc : is_word (String c "") = true) by (simpl; rewrite Ec; reflexivity).
  destruct t as [|c' t']; [repeat constructor; exact Hc|].
  destruct (isspace c') eqn:Ec'; [constructor; [exact Hc | exact IH]|].
  destruct (split (String c' t')) as [|w ws]; [repeat constructor; exact Hc|].
  inversion IH as [|? ? Hw Hws]; subst. constructor; [|exact Hws].
  destruct w as [|d w]; [discriminate Hw|].
  simpl in *. rewrite Ec. exact Hw.
Qed.

(** The substitution followed by [strip] leaves the words of the text,
    one space between two of them. *)
Lemma rstrip_sub_spaces (t : string) :
  rstrip (sub_spaces true t) = join " " (split t).
Proof.
  induction t as [|c t IH]; [reflexivity|].
  rewrite split_cons.
  change (sub_spaces true (String c t))
    with (if isspace c then sub_spaces true t
          else String c (sub_spaces false t)).
  destruct (isspace c) eqn:Ec; [exact IH|].
  rewrite rstrip_cons, Ec.
  destruct t as [|c' t']; [reflexivity|].
  rewrite split_cons in IH |- *.
  change (sub_spaces false (String c' t'))
    with (if isspace c' then String " " (sub_spaces true t')
          else String c' (sub_spaces false t')).
  change (sub_spaces true (String c' t'))
    with (if isspace c' then sub_spaces true t'
          else String c' (sub_spaces false t')) in IH.
  destruct (isspace c') eqn:Ec'.
  - pose proof (split_words t') as Hw.
    rewrite rstrip_cons, IH.
    destruct (join " " (split t')) as [|j J] eqn:EJ.
    + rewrite (join_nil_inv _ Hw EJ). reflexivity.
    + destruct (split t') as [|w ws]; [discriminate EJ|].
      rewrite join_cons_cons, EJ. reflexivity.
  - rewrite IH.
    destruct (split_head c' t' Ec') as (w & ws & Es).
    rewrite split_cons, Ec' in Es.
    destruct t' as [|c2 t2].
    + injection Es as <- <-. reflexivity.
    + destruct (isspace c2).
      * injection Es as <- <-. rewrite !join_cons_char. reflexivity.
      * destruct (split (String c2 t2)) as [|w2 ws2].
        -- injection Es as <- <-. reflexivity.
        -- injection Es as <- <-. rewrite !join_cons_char. reflexivity.
Qed.

(** *** The pattern [\s+] under the engine *)

Lemma rounds_spaces (fuel : nat) :
  forall (cnt : nat) (prev : option ascii) (s : string),
    (String.length s <= fuel)%nat ->
    rounds (run false (Chr isspace)) 1 None (fun p rest => Some (p, rest))
      fuel cnt prev s
    = if (1 <=? cnt)%nat || starts_with_space s
      then Some (skip_spaces prev s) else None.
Proof.
  induction fuel as [|fuel IH]; intros cnt prev s Hlen.
  - destruct s as [|c s]; [|simpl in Hlen; lia].
    simpl. rewrite orb_false_r. reflexivity.
  - destruct s as [|c s].
    + simpl. rewrite orb_false_r. reflexivity.
    + simpl in Hlen. cbn [rounds run test starts_with_space skip_spaces].
      destruct (isspace c) eqn:Ec.
      * assert (Hlt : (String.length s <? String.length (String c s))%nat
                      = true) by (apply Nat.ltb_lt; simpl; lia).
        rewrite Hlt, IH by lia. rewrite orb_true_r. reflexivity.
      * rewrite orb_false_r. reflexivity.
Qed.

Lemma run_spaces (prev : option ascii) (s : string) :
  run false spaces prev s (fun p rest => Some (p, rest))
  = if starts_with_space s then Some (skip_spaces prev s) else None.
Proof.
  unfold spaces, plus. cbn [run]. rewrite rounds_spaces by lia. reflexivity.
Qed.

Lemma skip_spaces_length (prev : option ascii) (s : string) :
  (String.length (snd (skip_spaces prev s)) <= String.length s)%nat.
Proof.
  revert prev. induction s as [|c s IH]; intro prev; simpl; [lia|].
  destruct (isspace c); simpl; [|lia]. specialize (IH (Some c)). lia.
Qed.

Lemma sub_spaces_skip (prev : option ascii) (s : string) :
  sub_spaces true s = sub_spaces false (snd (skip_spaces prev s)).
Proof.
  revert prev. induction s as [|c s IH]; intro prev; simpl; [reflexivity|].
  destruct (isspace c) eqn:Ec; [apply IH|]. simpl. rewrite Ec. reflexivity.
Qed.

(** The first match of [\s+]: either the text has no whitespace and stays
    as it is, or the text before the match is kept, the match is not empty
    and the substitution goes on after it. *)
Lemma first_match_spaces (s : string) :
  forall prev,
    (first_match false spaces prev s = None /\ sub_spaces false s = s)
    \/ (exists before m p rest,
           first_match false spaces prev s = Some (before, m, p, rest)
           /\ (String.length m =? 0)%nat = false
           /\ (String.length rest < String.length s)%nat
           /\ sub_spaces false s
              = before ++ " " ++ sub_spaces false rest).
Proof.
  induction s as [|c s IH]; intro prev.
  - left. split; reflexivity.
  - cbn [first_match]. rewrite run_spaces. cbn [starts_with_space].
    destruct (isspace c) eqn:Ec.
    + right. cbn [skip_spaces]. rewrite Ec.
      pose proof (skip_spaces_length (Some c) s) as Hlen.
      destruct (skip_spaces (Some c) s) as [p rest] eqn:Es. simpl in Hlen.
      exists "", (substring 0 (String.length (String c s) - String.length rest)
                    (String c s)), p, rest.
      split; [reflexivity|]. split; [|split].
      * cbn [String.length].
        replace (S (String.length s) - String.length rest)%nat
          with (S (String.length s - String.length rest))%nat by lia.
        reflexivity.
      * simpl. lia.
      * simpl. rewrite Ec. rewrite (sub_spaces_skip (Some c) s), Es.
        reflexivity.
    + destruct (IH (Some c)) as [[E Hs] | (before & m & p & rest & E & Hm & Hl & Hs)].
      * left. rewrite E. split; [reflexivity|].
        simpl. rewrite Ec, Hs. reflexivity.
      * right. rewrite E. exists (String c before), m, p, rest.
        split; [reflexivity|]. split; [exact Hm|]. split; [simpl; lia|].
        simpl. rewrite Ec, Hs. reflexivity.
Qed.

Lemma sub_from_spaces (fuel : nat) :
  forall (prev : option ascii) (s : string),
    (String.length s < fuel)%nat ->
    sub_from fuel false spaces " " prev s = sub_spaces false s.
Proof.
  induction fuel as [|fuel IH]; intros prev s Hlen; [lia|].
  cbn [sub_from].
  destruct (first_match_spaces s prev)
    as [[E Hs] | (before & m & p & rest & E & Hm & Hl & Hs)]; rewrite E.
  - symmetry. exact Hs.
  - rewrite Hm, IH by lia. symmetry. exact Hs.
Qed.

(** [re.sub] with the pattern [\s+] and a space is the one-pass
    substitution. *)
Lemma sub_spaces_correct (t : string) :
  sub false spaces " " t = sub_spaces false t.
Proof. unfold sub. apply sub_from_spaces. lia. Qed.

(** The functional description of [normalize_text]. *)
Lemma normalize_text_words (t : string) :
  Utils.normalize_text t = join " " (map lower (split t)).
Proof.
  unfold Utils.normalize_text, strip.
  rewrite sub_spaces_correct, lstrip_sub_spaces, rstrip_sub_spaces.
  apply lower_join.
Qed.

Lemma no_space_lower (w : string) : no_space (lower w) = no_space w.
Proof.
  induction w as [|c w IH]; simpl; [reflexivity|].
  rewrite isspace_lower_char, IH. reflexivity.
Qed.

Lemma is_word_lower (w : string) : is_word (lower w) = is_word w.
Proof. destruct w as [|c w]; [reflexivity|]. apply (no_space_lower (String c w)). Qed.

(** A word followed by a space and more text is the first word of the
    whole. *)
Lemma split_word_app (w rest : string) :
  is_word w = true -> split (w ++ String " " rest) = w :: split rest.
Proof.
  induction w as [|c w IH]; [discriminate|].
  intro H. simpl in H. apply andb_true_iff in H. destruct H as [Hc Hw].
  apply negb_true_iff in Hc.
  change ((String c w ++ String " " rest)%string)
    with (String c (w ++ String " " rest)).
  rewrite split_cons, Hc.
  destruct w as [|c' w'].
  - reflexivity.
  - change ((String c' w' ++ String " " rest)%string)
      with (String c' (w' ++ String " " rest)) in *.
    assert (Hc' : isspace c' = false).
    { simpl in Hw. apply andb_true_iff in Hw. destruct Hw as [Hw _].
      apply negb_true_iff, Hw. }
    cbv beta iota. rewrite Hc', (IH Hw). reflexivity.
Qed.

Lemma split_word (w : string) : is_word w = true -> split w = [w].
Proof.
  induction w as [|c w IH]; [discriminate|].
  intro H. simpl in H. apply andb_true_iff in H. destruct H as [Hc Hw].
  apply negb_true_iff in Hc. rewrite split_cons, Hc.
  destruct w as [|c' w']; [reflexivity|].
  assert (Hc' : isspace c' = false).
  { simpl in Hw. apply andb_true_iff in Hw. destruct Hw as [Hw _].
    apply negb_true_iff, Hw. }
  cbv beta iota. rewrite Hc', (IH Hw). reflexivity.
Qed.

(** Splitting undoes joining words with one space. *)
Lemma split_join (ws : list string) :
  Forall (fun w => is_word w = true) ws -> split (join " " ws) = ws.
Proof.
  induction ws as [|w ws IH]; intro H; [reflexivity|].
  inversion H as [|? ? Hw Hws]; subst.
  destruct ws as [|w' ws]; [apply split_word, Hw|].
  rewrite join_cons_cons.
  change ((w ++ " " ++ join " " (w' :: ws))%string)
    with ((w ++ String " " (join " " (w' :: ws)))%string).
  rewrite (split_word_app _ _ Hw), (IH Hws). reflexivity.
Qed.

(** C4.  For every string, [normalize_text] returns the words of the text
    in lower case with one space between two of them: every run of
    whitespace is collapsed to a single space, leading and trailing
    whitespace is gone, and the letters are lowered.  It is idempotent, and
    [main/score_utils.py] has the same function. *)
Theorem normalize_text_idempotent (x : string) :
  Utils.normalize_text x = join " " (map lower (split x))
  /\ Utils.normalize_text (Utils.normalize_text x) = Utils.normalize_text x
  /\ ScoreUtils.normalize_text x = Utils.normalize_text x
  /\ ScoreUtils.normalize_text (ScoreUtils.normalize_text x)
     = ScoreUtils.normalize_text x
  /\ split (Utils.normalize_text x) = map lower (split x)
  /\ lower (Utils.normalize_text x) = Utils.normalize_text x.
Proof.
  assert (Hwords : Forall (fun w => is_word w = true) (map lower (split x))).
  { apply Forall_map. eapply Forall_impl; [|apply split_words].
    intros w Hw. rewrite is_word_lower. exact Hw. }
  assert (Hlow : map lower (map lower (split x)) = map lower (split x)).
  { rewrite map_map. apply map_ext. intro w. apply lower_idem. }
  assert (Hsplit : split (Utils.normalize_text x) = map lower (split x)).
  { rewrite normalize_text_words. apply split_join, Hwords. }
  assert (Hidem : Utils.normalize_text (Utils.normalize_text x)
                  = Utils.normalize_text x).
  { rewrite (normalize_text_words (Utils.normalize_text x)), Hsplit, Hlow.
    symmetry. apply normalize_text_words. }
  split; [apply normalize_text_words |].
  split; [exact Hidem |].
  split; [reflexivity |].
  split; [exact Hidem |].
  split; [exact Hsplit |].
  unfold Utils.normalize_text. apply lower_idem.
Qed.

(** A text with spaces, a tab, a line feed and a no-break space. *)
Example normalize_text_example :
  Utils.normalize_text
    ("  Senior" ++ String (ascii_of_nat 9) (String (ascii_of_nat 10)
       ("SOFTWARE   Engineer" ++ String (ascii_of_nat 160) " ")))
  = "senior software engineer"
  /\ Utils.normalize_text "" = ""
  /\ Utils.normalize_text "   " = "".
Proof. repeat split; vm_compute; reflexivity. Qed.

(** ** Keyword match rate *)

Lemma Qdiv_inject_max (a : Z) (n : nat) :
  (0 < n)%nat ->
  (inject_Z a / inject_Z (Z.max 1 (Z.of_nat n)) == a # Pos.of_nat n)%Q.
Proof.
  intro Hn. destruct n as [|n]; [lia|].
  rewrite Z.max_r by lia.
  rewrite (Qmake_Qdiv a (Pos.of_nat (S n))).
  replace (Z.pos (Pos.of_nat (S n))) with (Z.of_nat (S n)); [reflexivity |].
  rewrite <- Pos.of_nat_succ, Zpos_P_of_succ_nat. lia.
Qed.

Lemma filter_lower_keywords (t : string) (kws : list string) :
  map lower kws = kws ->
  filter (fun kw => contains (lower kw) t) kws
  = filter (fun kw => contains kw t) kws.
Proof.
  induction kws as [|kw kws IH]; simpl; [reflexivity|].
  intro H. injection H as Hk Hks. rewrite Hk, (IH Hks). reflexivity.
Qed.

(** The rate of a non-empty list of lower-case keywords is the fraction of
    them found in the normalized text. *)
Lemma keyword_match_rate_fraction (text : string) (kws : list string) :
  kws <> [] -> map lower kws = kws ->
  (Utils.keyword_match_rate text kws
   == Z.of_nat
        (List.length
           (filter (fun kw => contains kw (Utils.normalize_text text)) kws))
      # Pos.of_nat (List.length kws))%Q.
Proof.
  intros Hne Hlow. unfold Utils.keyword_match_rate.
  destruct kws as [|kw kws]; [congruence|].
  rewrite (filter_lower_keywords _ _ Hlow).
  apply Qdiv_inject_max. simpl. lia.
Qed.

(** Every keyword list of the catalog is non-empty and in lower case, every
    title is in lower case, and no title occurs twice. *)
Lemma ROLE_KEYWORDS_wf :
  Forall (fun entry => snd entry <> [] /\ map lower (snd entry) = snd entry
                       /\ lower (fst entry) = fst entry)
         Utils.ROLE_KEYWORDS
  /\ NoDup (dict_keys Utils.ROLE_KEYWORDS).
Proof.
  split.
  - repeat constructor; simpl; discriminate.
  - unfold dict_keys. simpl.
    repeat (constructor;
            [ simpl; intro H;
              repeat (destruct H as [H|H]; [discriminate H|]); exact H |]).
    constructor.
Qed.

Lemma find_ext_in {A : Type} (p q : A -> bool) (l : list A) :
  (forall x, In x l -> p x = q x) -> find p l = find q l.
Proof.
  induction l as [|x l IH]; simpl; intro H; [reflexivity|].
  rewrite <- (H x (or_introl eq_refl)).
  destruct (p x); [reflexivity|]. apply IH. intros y Hy. apply H. now right.
Qed.

Lemma spec_resolve_role_eq (role_title : string) :
  spec_resolve_role role_title
  = find (fun entry => contains (fst entry) (lower role_title))
         Utils.ROLE_KEYWORDS.
Proof.
  apply find_ext_in. intros e He.
  pose proof (proj1 ROLE_KEYWORDS_wf) as Hwf. rewrite Forall_forall in Hwf.
  destruct (Hwf e He) as (_ & _ & ->). reflexivity.
Qed.

(** The resolution of the code, by title and then by [.get], picks the
    entry the specification describes. *)
Lemma role_kws_spec (role_title : string) :
  Utils.role_kws role_title
  = match spec_resolve_role role_title with
    | Some (_, kws) => kws
    | None => []
    end
  /\ Utils.base_role role_title
     = option_map fst (spec_resolve_role role_title).
Proof.
  rewrite spec_resolve_role_eq.
  unfold Utils.role_kws, Utils.base_role, dict_keys.
  set (r := lower role_title). unfold Utils.ROLE_KEYWORDS.
  cbn [find map fst snd].
  repeat match goal with
         | |- context [if contains ?k r then _ else _] =>
             destruct (contains k r); [split; reflexivity |]
         end.
  split; reflexivity.
Qed.

(** C5.  The rate that [derive_resume_metrics] stores is the fraction of
    the keywords of the resolved role that occur in the normalized text,
    the role being the first catalog title that occurs in the lowered role
    title, and 0.0 when no title does; for the role software engineer,
    whose entry has 14 keywords, and the text python, docker it is 2/14. *)
Theorem keyword_match_rate_spec (resume_text role_title : string) :
  (Utils.derive_keyword_match_rate resume_text role_title
   == spec_keyword_match_rate resume_text role_title)%Q
  /\ Utils.base_role role_title
     = option_map fst (spec_resolve_role role_title)
  /\ (spec_resolve_role role_title = None ->
      Utils.derive_keyword_match_rate resume_text role_title = 0%Q)
  /\ List.length (Utils.role_kws "software engineer") = 14%nat
  /\ Utils.derive_keyword_match_rate "python, docker" "software engineer"
     = (2 # 14)%Q.
Proof.
  destruct (role_kws_spec role_title) as [Hk Hb].
  assert (Hwf := proj1 ROLE_KEYWORDS_wf).
  split; [| split; [exact Hb | split; [| split; vm_compute; reflexivity]]].
  - unfold Utils.derive_keyword_match_rate, spec_keyword_match_rate.
    rewrite Hk. destruct (spec_resolve_role role_title) as [[rk kws]|] eqn:E;
      [| reflexivity].
    apply find_some in E. destruct E as [Hin _].
    rewrite Forall_forall in Hwf. destruct (Hwf _ Hin) as (Hne & Hlow & _).
    simpl in Hne, Hlow.
    destruct kws as [|kw kws]; [congruence|].
    apply keyword_match_rate_fraction; [discriminate | exact Hlow].
  - intro E. unfold Utils.derive_keyword_match_rate. rewrite Hk, E.
    reflexivity.
Qed.

Lemma keyword_match_rate_spec_witness :
  spec_resolve_role "astronaut" = None
  /\ Utils.derive_keyword_match_rate "python, docker" "astronaut" = 0%Q.
Proof.
  split; [reflexivity |].
  apply (keyword_match_rate_spec "python, docker" "astronaut"). reflexivity.
Defined.

(** ** The resume rubric *)

Lemma int_bool_range (o : option bool) : 0 <= int_bool o <= 1.
Proof. destruct o as [[|]|]; simpl; lia. Qed.

(** Points of a two- or three-step threshold ladder. *)
Ltac ladder :=
  repeat match goal with
         | |- context [if ?c then _ else _] => destruct c
         end; lia.

Lemma ats_resume_scoring_same (m : metrics) :
  ScoreUtils.ats_resume_scoring m = Utils.ats_resume_scoring m.
Proof. reflexivity. Qed.

(** C6.  For every metrics dict the rubric's earned total lies in [0,15],
    15 being the sum of the five maxima 3+4+3+2+3, every item earns between
    0 and its maximum, the total is the sum of the items, and the normalized
    score is [round(earned/15*100)]; the rubric of both modules is the
    same function. *)
Theorem ats_resume_scoring_bounds (m : metrics) :
  let b := Utils.ats_resume_scoring m in
  ScoreUtils.ats_resume_scoring m = b
  /\ 0 <= subtotal_earned b <= 15
  /\ subtotal_max b = 15
  /\ map max (items b) = [3; 4; 3; 2; 3]
  /\ sumZ (map max (items b)) = 15
  /\ subtotal_earned b = sumZ (map earned (items b))
  /\ Forall (fun it => 0 <= earned it <= max it) (items b)
  /\ score_100 b
     = round ((inject_Z (subtotal_earned b) / inject_Z 15) * 100)%Q.
Proof.
  intro b. subst b. split; [reflexivity|].
  unfold Utils.ats_resume_scoring. cbv zeta.
  cbn [items subtotal_earned subtotal_max score_100 app map earned max].
  pose proof (int_bool_range (m_sections_present m)) as H1.
  pose proof (int_bool_range (m_single_column m)) as H2.
  pose proof (int_bool_range (m_text_extractable m)) as H3.
  set (l := int_bool (m_sections_present m) + int_bool (m_single_column m)
            + int_bool (m_text_extractable m)).
  assert (Hl : 0 <= l <= 3) by (subst l; lia).
  clearbody l. clear H1 H2 H3.
  match goal with
  | |- context [Item "Action verbs & quantified results" ?e _] =>
      set (a := e); assert (Ha : 0 <= a <= 4) by (subst a; ladder);
      clearbody a
  end.
  match goal with
  | |- context [Item "Job-relevant keyword alignment" ?e _] =>
      set (k := e); assert (Hk : 0 <= k <= 3) by (subst k; ladder);
      clearbody k
  end.
  match goal with
  | |- context [Item "Brevity & conciseness" ?e _] =>
      set (v := e); assert (Hv : 0 <= v <= 2) by (subst v; ladder);
      clearbody v
  end.
  match goal with
  | |- context [Item "Minimal jargon / repetition" ?e _] =>
      set (c := e); assert (Hc : 0 <= c <= 3) by (subst c; ladder);
      clearbody c
  end.
  unfold sumZ; simpl fold_left.
  repeat split; try lia.
  repeat constructor; simpl; lia.
Qed.

(** The table of [round((t/15)*100)] for the sixteen totals the rubric can
    reach; none of the quotients lies near a half, so the float of the
    source rounds to the same integer. *)
Example score_100_table :
  map (fun t => round ((inject_Z t / inject_Z 15) * 100)%Q)
      [0; 1; 2; 3; 4; 5; 6; 7; 8; 9; 10; 11; 12; 13; 14; 15]
  = [0; 7; 13; 20; 27; 33; 40; 47; 53; 60; 67; 73; 80; 87; 93; 100].
Proof. vm_compute. reflexivity. Qed.

(** Both ends of the range are reached. *)
Example ats_resume_scoring_extremes :
  subtotal_earned
    (Utils.ats_resume_scoring
       (Metrics None None None None None None (Some 3) (Some 8%Q) None None
          (Some 0))) = 0
  /\ subtotal_earned
       (Utils.ats_resume_scoring
          (Metrics (Some true) (Some true) (Some true) (Some 1%Q) (Some 1%Q)
             (Some 1%Q) (Some 1) (Some 3%Q) (Some (8 # 100)%Q)
             (Some (12 # 100)%Q) (Some 9))) = 15.
Proof. split; vm_compute; reflexivity. Qed.

(** * Further properties of the two modules and of the views *)

(** ** [strip] *)

Lemma lstrip_no_space (s : string) :
  starts_with_space s = false -> lstrip s = s.
Proof. destruct s as [|c s]; simpl; [reflexivity|]. intros ->. reflexivity. Qed.

Lemma lstrip_starts (s : string) : starts_with_space (lstrip s) = false.
Proof.
  induction s as [|c s IH]; simpl; [reflexivity|].
  destruct (isspace c) eqn:E; [exact IH|]. simpl. exact E.
Qed.

Lemma rstrip_starts (s : string) :
  starts_with_space s = false -> starts_with_space (rstrip s) = false.
Proof.
  destruct s as [|c s]; [reflexivity|]. rewrite rstrip_cons. simpl. intro E.
  destruct (rstrip s); rewrite ?E; simpl; rewrite ?E; reflexivity.
Qed.

Lemma rstrip_idem (s : string) : rstrip (rstrip s) = rstrip s.
Proof.
  induction s as [|c s IH]; [reflexivity|].
  rewrite rstrip_cons. destruct (rstrip s) as [|d r] eqn:E.
  - destruct (isspace c) eqn:Ec; [reflexivity|].
    rewrite rstrip_cons. simpl. rewrite Ec. reflexivity.
  - rewrite rstrip_cons, IH. reflexivity.
Qed.

Lemma strip_idem (s : string) : strip (strip s) = strip s.
Proof.
  unfold strip.
  rewrite (lstrip_no_space (rstrip (lstrip s))).
  - apply rstrip_idem.
  - apply rstrip_starts, lstrip_starts.
Qed.

Lemma all_chars_lstrip (p : ascii -> bool) (s : string) :
  all_chars p s = true -> all_chars p (lstrip s) = true.
Proof.
  induction s as [|c s IH]; simpl; [reflexivity|].
  intro H. destruct (isspace c); [|exact H].
  apply andb_true_iff in H. apply IH, H.
Qed.

Lemma all_chars_rstrip (p : ascii -> bool) (s : string) :
  all_chars p s = true -> all_chars p (rstrip s) = true.
Proof.
  induction s as [|c s IH]; [reflexivity|].
  rewrite rstrip_cons. simpl. intro H. apply andb_true_iff in H.
  destruct H as [Hc Hs]. specialize (IH Hs).
  destruct (rstrip s) as [|d r].
  - destruct (isspace c); simpl; rewrite ?Hc; reflexivity.
  - simpl in *. rewrite Hc. exact IH.
Qed.

Lemma all_chars_strip (p : ascii -> bool) (s : string) :
  all_chars p s = true -> all_chars p (strip s) = true.
Proof. intro H. apply all_chars_rstrip, all_chars_lstrip, H. Qed.

(** ** Applicant name *)

(** Induction on a string two characters at a time. *)
Lemma string_ind2 (P : string -> Prop) :
  P "" ->
  (forall c, P (String c "")) ->
  (forall c c' s, P s -> P (String c' s) -> P (String c (String c' s))) ->
  forall s, P s.
Proof.
  intros H0 H1 H2 s.
  assert (H : P s /\ forall c, P (String c s)).
  { induction s as [|c' s [IHs IHc]]; split; auto. }
  exact (proj1 H).
Qed.

Lemma splitlines_no_break (s : string) :
  Forall (fun line => all_chars (fun c => negb (is_linebreak c)) line = true)
         (splitlines s).
Proof.
  induction s as [|c|c c' s IH IH'] using string_ind2.
  - constructor.
  - simpl. destruct (is_linebreak c) eqn:E; repeat constructor.
    simpl. rewrite E. reflexivity.
  - change (splitlines (String c (String c' s)))
      with (if is_linebreak c then
              if ((nat_of_ascii c =? 13) && (nat_of_ascii c' =? 10))%nat
              then "" :: splitlines s
              else "" :: splitlines (String c' s)
            else match splitlines (String c' s) with
                 | [] => [String c ""]
                 | line :: lines => String c line :: lines
                 end).
    destruct (is_linebreak c) eqn:E.
    + destruct ((nat_of_ascii c =? 13) && (nat_of_ascii c' =? 10))%nat;
        constructor; auto.
    + destruct (splitlines (String c' s)) as [|line lines].
      * repeat constructor. simpl. rewrite E. reflexivity.
      * inversion IH' as [|? ? Hl Hls]; subst. constructor; [|exact Hls].
        simpl. rewrite E. exact Hl.
Qed.

Lemma find_map_strip (lines : list string) :
  find (fun line => negb (line =? "")%string) (map strip lines)
  = hd_error (map strip (filter (fun ln => negb (strip ln =? "")%string) lines)).
Proof.
  induction lines as [|l lines IH]; simpl; [reflexivity|].
  destruct (strip l =? "")%string; simpl; [exact IH | reflexivity].
Qed.

Lemma extract_applicant_name_nonempty (resume_text : string) :
  (Utils.extract_applicant_name resume_text =? "")%string = false.
Proof.
  unfold Utils.extract_applicant_name.
  destruct (resume_text =? "")%string; [reflexivity|].
  destruct (find _ _) as [line|] eqn:E; [|reflexivity].
  apply find_some in E. destruct E as [_ Hne].
  apply negb_true_iff in Hne. exact Hne.
Qed.

(** X1.  The two modules find the same name in every text. *)
Theorem extract_applicant_name_agree (resume_text : string) :
  Utils.extract_applicant_name resume_text
  = ScoreUtils.extract_applicant_name resume_text.
Proof.
  unfold Utils.extract_applicant_name, ScoreUtils.extract_applicant_name.
  rewrite find_map_strip.
  destruct (resume_text =? "")%string eqn:E.
  - apply String.eqb_eq in E. subst. reflexivity.
  - destruct (map strip _); reflexivity.
Qed.

(** X2.  The name is never empty, has no whitespace at either end and no line
    end inside; it is the default text or a stripped line of the resume. *)
Theorem extract_applicant_name_shape (resume_text : string) :
  let name := Utils.extract_applicant_name resume_text in
  name <> ""
  /\ strip name = name
  /\ all_chars (fun c => negb (is_linebreak c)) name = true
  /\ (name = "Applicant Name Not Found"
      \/ exists line, In line (splitlines resume_text) /\ name = strip line).
Proof.
  intro name. subst name. unfold Utils.extract_applicant_name.
  destruct (resume_text =? "")%string.
  { repeat split; try reflexivity; [discriminate | now left]. }
  destruct (find _ _) as [line|] eqn:E.
  - apply find_some in E. destruct E as [Hin Hne].
    apply in_map_iff in Hin. destruct Hin as (l & <- & Hl).
    split; [|split; [|split]].
    + intro H. rewrite H in Hne. discriminate.
    + apply strip_idem.
    + apply all_chars_strip.
      pose proof (splitlines_no_break resume_text) as F.
      rewrite Forall_forall in F. apply F, Hl.
    + right. exists l. split; [exact Hl | reflexivity].
  - repeat split; try reflexivity; [discriminate | now left].
Qed.

(** ** [_norm] of the views *)

Lemma sub_spaces_lower (b : bool) (t : string) :
  sub_spaces b (lower t) = lower (sub_spaces b t).
Proof.
  revert b. induction t as [|c t IH]; intro b; simpl; [reflexivity|].
  rewrite isspace_lower_char. destruct (isspace c); [destruct b|]; simpl;
    rewrite IH; reflexivity.
Qed.

Lemma lstrip_lower (s : string) : lstrip (lower s) = lower (lstrip s).
Proof.
  induction s as [|c s IH]; simpl; [reflexivity|].
  rewrite isspace_lower_char. destruct (isspace c); [exact IH | reflexivity].
Qed.

Lemma rstrip_lower (s : string) : rstrip (lower s) = lower (rstrip s).
Proof.
  induction s as [|c s IH]; [reflexivity|].
  change (lower (String c s)) with (String (lower_char c) (lower s)).
  rewrite !rstrip_cons, IH, isspace_lower_char.
  destruct (rstrip s); [destruct (isspace c)|]; reflexivity.
Qed.

(** X3.  The views lower the text before they collapse the whitespace and the
    engine after; the result is the same text. *)
Theorem views_norm_is_normalize_text (t : string) :
  Views._norm t = Utils.normalize_text t.
Proof.
  unfold Views._norm, Utils.normalize_text, strip.
  rewrite !sub_spaces_correct, sub_spaces_lower, lstrip_lower, rstrip_lower.
  reflexivity.
Qed.

(** ** Invariants of the reports *)

(** X4.  Every section is graded by its own score and the report by its average,
    in both modules. *)
Theorem report_grades_consistent
  (resume_text : string) (github_username leetcode_username : option string)
  (links : list Utils.link) (extracted_links : option (list ScoreUtils.link))
  (domain : string) :
  (exists r,
      Utils.calculate_dynamic_ats_score resume_text github_username
        leetcode_username links = Some r
      /\ Forall (fun kv => Utils.grade (snd kv)
                           = Utils.get_grade_tag
                               (inject_Z (Utils.score (snd kv))))
                (Utils.sections r)
      /\ Utils.overall_grade r
         = Utils.get_grade_tag (inject_Z (Utils.overall_score_average r)))
  /\ (let r := ScoreUtils.calculate_dynamic_ats_score resume_text
                 github_username leetcode_username extracted_links domain in
      Forall (fun kv => ScoreUtils.grade (snd kv)
                        = ScoreUtils.get_grade_tag
                            (inject_Z (ScoreUtils.score (snd kv))))
             (ScoreUtils.sections r)
      /\ ScoreUtils.overall_grade r
         = ScoreUtils.get_grade_tag
             (inject_Z (ScoreUtils.overall_score_average r))).
Proof.
  split.
  - utils_cases; vm_compute; eexists; (split; [reflexivity |]);
      (split; [repeat constructor | reflexivity]).
  - score_utils_cases; vm_compute; (split; [repeat constructor | reflexivity]).
Qed.

(** X5.  The engine of [main/utils.py] grades every resume Poor overall: its
    average stays between 11 and 26.  The one of [main/score_utils.py] stays
    between 10 and 59 and never reaches Good or Excellent. *)
Theorem overall_grade_range
  (resume_text : string) (github_username leetcode_username : option string)
  (links : list Utils.link) (extracted_links : option (list ScoreUtils.link))
  (domain : string) :
  (exists r,
      Utils.calculate_dynamic_ats_score resume_text github_username
        leetcode_username links = Some r
      /\ 11 <= Utils.overall_score_average r <= 26
      /\ Utils.overall_grade r = "Poor")
  /\ (let r := ScoreUtils.calculate_dynamic_ats_score resume_text
                 github_username leetcode_username extracted_links domain in
      10 <= ScoreUtils.overall_score_average r <= 59
      /\ (ScoreUtils.overall_grade r = "Poor"
          \/ ScoreUtils.overall_grade r = "Average")).
Proof.
  split.
  - destruct (utils_report_form resume_text github_username leetcode_username
                links)
      as (r & _ & _ & _ & _ & _ & _ & E & _ & _ & _ & _ & _ & _ & _ & _ & Ha
          & Hg).
    exists r. auto.
  - score_utils_cases; vm_compute;
      (split; [split; discriminate
              | first [left; reflexivity | right; reflexivity]]).
Qed.

(** X6.  The suggestions are the messages of the categories that are missing, in
    the order of the categories: GitHub, LeetCode, Portfolio, LinkedIn and, in
    [main/score_utils.py] only, Certifications.  In [main/utils.py] missing
    certifications put the three certificates of the technical bucket into their
    section, and present ones an empty list. *)
Theorem report_suggestions
  (resume_text : string) (github_username leetcode_username : option string)
  (links : list Utils.link) (extracted_links : option (list ScoreUtils.link))
  (domain : string) :
  (exists r,
      Utils.calculate_dynamic_ats_score resume_text github_username
        leetcode_username links = Some r
      /\ Utils.suggestions r
         = ((if Utils.github_presence github_username then []
             else ["Add a GitHub profile link with pinned, recent projects."])
            ++ (if Utils.leetcode_presence leetcode_username then []
                else ["Include a LeetCode link to showcase DSA practice."])
            ++ (if Utils.portfolio_presence resume_text then []
                else ["Publish a simple portfolio with 2–3 best projects."])
            ++ (if Utils.linkedin_presence resume_text then []
                else ["Add a public LinkedIn link (custom URL preferred)."]))%list
      /\ option_map Utils.recommendations
           (dict_get "Certifications & Branding" (Utils.sections r))
         = Some (Some (if Utils.cert_presence resume_text then []
                       else Utils.get_cert_suggestions "technical")))
  /\ ScoreUtils.suggestions
       (ScoreUtils.calculate_dynamic_ats_score resume_text github_username
          leetcode_username extracted_links domain)
     = ((if ScoreUtils.has_github resume_text github_username then []
         else ["Add a public GitHub link with recent activity."])
        ++ (if ScoreUtils.has_lc resume_text leetcode_username then []
            else ["Include your LeetCode (or equivalent) problem-solving profile."])
        ++ (if ScoreUtils.has_portfolio resume_text then []
            else ["Publish a portfolio (Netlify/Vercel/GitHub Pages) with 2–3 write-ups."])
        ++ (if ScoreUtils.has_linkedin resume_text (get extracted_links [])
            then []
            else ["Link a public LinkedIn profile with a clear headline/summary."])
        ++ (if ScoreUtils.has_certs resume_text then []
            else ["Add 1–2 recent role-relevant certifications."]))%list.
Proof.
  split.
  - utils_cases; vm_compute; eexists; (split; [reflexivity |]);
      split; reflexivity.
  - score_utils_cases; reflexivity.
Qed.

(** X7.  In a report of [main/utils.py] every sub-criterion scores between 0 and
    its weight.  The scores of the sub-criteria add up to the score of their
    section for GitHub, LeetCode, Portfolio and LinkedIn, and for Certifications
    when they are missing; the Resume section, and Certifications when present,
    score 65 over sub-criteria that add up to 15. *)
Theorem sub_criteria_invariant
  (resume_text : string) (github_username leetcode_username : option string)
  (links : list Utils.link) :
  exists r,
    Utils.calculate_dynamic_ats_score resume_text github_username
      leetcode_username links = Some r
    /\ Forall (fun kv =>
                 Forall (fun c => 0 <= Utils.crit_score c <= Utils.crit_weight c)
                        (Utils.sub_criteria (snd kv)))
              (Utils.sections r)
    /\ Forall (fun kv =>
                 let total :=
                   sumZ (map Utils.crit_score (Utils.sub_criteria (snd kv))) in
                 if (fst kv =? "Resume (ATS Score)")%string
                 then Utils.score (snd kv) = 65 /\ total = 15
                 else if ((fst kv =? "Certifications & Branding")%string
                          && Utils.cert_presence resume_text)%bool
                      then Utils.score (snd kv) = 65 /\ total = 15
                      else Utils.score (snd kv) = total)
              (Utils.sections r).
Proof.
  unfold Utils.calculate_dynamic_ats_score; cbv zeta.
  generalize (Utils.github_presence github_username).
  generalize (Utils.leetcode_presence leetcode_username).
  generalize (Utils.portfolio_presence resume_text).
  generalize (Utils.linkedin_presence resume_text).
  destruct (Utils.cert_presence resume_text);
    intros [|] [|] [|] [|];
    (eexists; split; [vm_compute; reflexivity |]);
    (split; [repeat (apply Forall_cons || apply Forall_nil); vm_compute;
             split; discriminate
            | repeat (apply Forall_cons || apply Forall_nil); vm_compute;
              try split; reflexivity]).
Qed.

(** ** Chart payload *)

(** X8.  The chart of a report of [main/utils.py] has one label, one score and
    one colour per section, in the order of the report, and its colours are
    fixed but for one: GitHub, LeetCode, Portfolio and LinkedIn are always red,
    Resume is always orange, and Certifications are orange when present and red
    otherwise.  No slice is ever blue or green. *)
Theorem chart_of_report
  (resume_text : string) (github_username leetcode_username : option string)
  (links : list Utils.link) :
  exists r,
    Utils.calculate_dynamic_ats_score resume_text github_username
      leetcode_username links = Some r
    /\ let d := Utils.prepare_chart_data (Utils.sections r) in
       Utils.labels d = dict_keys (Utils.sections r)
       /\ Utils.scores d = map Utils.score (dict_values (Utils.sections r))
       /\ Utils.backgroundColors d
          = [ "#dc3545"; "#dc3545"; "#dc3545"; "#dc3545"; "#FF9800";
              if Utils.cert_presence resume_text then "#FF9800"
              else "#dc3545" ].
Proof.
  assert (H : match Utils.calculate_dynamic_ats_score resume_text
                      github_username leetcode_username links with
              | None => False
              | Some r =>
                  let d := Utils.prepare_chart_data (Utils.sections r) in
                  Utils.labels d = dict_keys (Utils.sections r)
                  /\ Utils.scores d
                     = map Utils.score (dict_values (Utils.sections r))
                  /\ Utils.backgroundColors d
                     = [ "#dc3545"; "#dc3545"; "#dc3545"; "#dc3545"; "#FF9800";
                         if Utils.cert_presence resume_text then "#FF9800"
                         else "#dc3545" ]
              end).
  { utils_cases; vm_compute; repeat split; reflexivity. }
  destruct (Utils.calculate_dynamic_ats_score _ _ _ _) as [r|];
    [exists r; split; [reflexivity | exact H] | destruct H].
Qed.

(** ** Certificate suggestions *)

(** X9.  Both modules answer every domain with exactly three certificates and
    look at the domain only through its lower-case form.  They give the same
    answer unless that form is one of the five names that only
    [main/score_utils.py] sorts into a bucket. *)
Theorem get_cert_suggestions_three (domain : string) :
  List.length (Utils.get_cert_suggestions domain) = 3%nat
  /\ List.length (ScoreUtils.get_cert_suggestions domain) = 3%nat
  /\ Utils.get_cert_suggestions (lower domain)
     = Utils.get_cert_suggestions domain
  /\ ScoreUtils.get_cert_suggestions (lower domain)
     = ScoreUtils.get_cert_suggestions domain
  /\ (~ In (lower domain)
          ["data"; "data analytics"; "data science"; "software";
           "engineering"] ->
      Utils.get_cert_suggestions domain
      = ScoreUtils.get_cert_suggestions domain).
Proof.
  unfold Utils.get_cert_suggestions, ScoreUtils.get_cert_suggestions.
  cbv zeta. rewrite lower_idem. set (d := lower domain). cbn [existsb].
  split; [| split; [| split; [reflexivity | split; [reflexivity |]]]].
  - destruct (d =? "analytical")%string; [reflexivity|].
    destruct (d =? "technical")%string; reflexivity.
  - repeat match goal with
           | |- context [(d =? ?x)%string] => destruct (d =? x)%string
           end; reflexivity.
  - intro H.
    repeat match goal with
           | |- context [(d =? ?x)%string] =>
               destruct (d =? x)%string eqn:?E
           end; try reflexivity;
      exfalso; apply H;
      repeat match goal with
             | E : (d =? _)%string = true |- _ =>
                 apply String.eqb_eq in E; rewrite E
             end; simpl; auto 6.
Qed.

Lemma get_cert_suggestions_three_witness :
  Utils.get_cert_suggestions "Technical"
  = ScoreUtils.get_cert_suggestions "Technical".
Proof.
  apply (get_cert_suggestions_three "Technical").
  simpl. intros [H|[H|[H|[H|[H|[]]]]]]; discriminate H.
Defined.

(** ** The search engine *)

(** ** Strings *)

Lemma append_assoc (a b c : string) : (a ++ b) ++ c = a ++ (b ++ c).
Proof. induction a as [|x a IH]; simpl; [|rewrite IH]; reflexivity. Qed.

Lemma append_nil_r (a : string) : a ++ "" = a.
Proof. induction a as [|x a IH]; simpl; [|rewrite IH]; reflexivity. Qed.

Lemma append_length (a b : string) :
  String.length (a ++ b) = (String.length a + String.length b)%nat.
Proof. induction a as [|x a IH]; simpl; [|rewrite IH]; reflexivity. Qed.

Lemma substring_append (a b : string) :
  substring 0 (String.length (a ++ b) - String.length b) (a ++ b) = a.
Proof.
  rewrite append_length.
  replace (String.length a + String.length b - String.length b)%nat
    with (String.length a) by lia.
  induction a as [|x a IH]; simpl.
  - destruct b; reflexivity.
  - rewrite IH. reflexivity.
Qed.

Lemma append_inv_tail (a b c : string) : a ++ c = b ++ c -> a = b.
Proof.
  revert b. induction a as [|x a IH]; intros [|y b] H; simpl in H.
  - reflexivity.
  - exfalso. apply (f_equal String.length) in H. simpl in H.
    rewrite append_length in H. lia.
  - exfalso. apply (f_equal String.length) in H. simpl in H.
    rewrite append_length in H. lia.
  - injection H as -> H. rewrite (IH _ H). reflexivity.
Qed.

Lemma all_chars_append (p : ascii -> bool) (a b : string) :
  all_chars p (a ++ b) = all_chars p a && all_chars p b.
Proof.
  induction a as [|x a IH]; simpl; [reflexivity|].
  rewrite IH, andb_assoc. reflexivity.
Qed.

(** ** The engine *)

(** What a search answers, its continuation has answered on a suffix of
    the text. *)
Lemma rounds_frame (step : option ascii -> string -> cont -> answer)
  (lo : nat) (hi : option nat) (k : cont) :
  (forall prev s k' a, step prev s k' = Some a ->
     exists p' w s', s = w ++ s' /\ k' p' s' = Some a) ->
  forall fuel cnt prev s a,
    rounds step lo hi k fuel cnt prev s = Some a ->
    exists p' w s', s = w ++ s' /\ k p' s' = Some a.
Proof.
  intros Hstep. induction fuel as [|fuel IH]; intros cnt prev s a H.
  - simpl in H. destruct (lo <=? cnt)%nat; [|discriminate].
    exists prev, "", s. split; [reflexivity | exact H].
  - cbn [rounds] in H.
    assert (Hstop : (if (lo <=? cnt)%nat then k prev s else None) = Some a ->
                    exists p' w s', s = w ++ s' /\ k p' s' = Some a).
    { destruct (lo <=? cnt)%nat; [|discriminate]. intro E.
      exists prev, "", s. split; [reflexivity | exact E]. }
    destruct (match hi with None => true | Some h => (cnt <? h)%nat end);
      [|exact (Hstop H)].
    destruct (step prev s _) as [a'|] eqn:E; [|exact (Hstop H)].
    injection H as ->.
    apply Hstep in E. destruct E as (p1 & w1 & s1 & -> & E).
    destruct (String.length s1 <? String.length (w1 ++ s1))%nat; [|discriminate].
    apply IH in E. destruct E as (p2 & w2 & s2 & -> & E).
    exists p2, (w1 ++ w2), s2. split; [symmetry; apply append_assoc | exact E].
Qed.

Lemma run_frame (ic : bool) (r : regex) :
  forall prev s k a,
    run ic r prev s k = Some a ->
    exists p' w s', s = w ++ s' /\ k p' s' = Some a.
Proof.
  induction r as [|p|r1 IH1 r2 IH2|r1 IH1 r2 IH2|r IH lo hi|];
    intros prev s k a H; cbn [run] in H.
  - exists prev, "", s. split; [reflexivity | exact H].
  - destruct s as [|c s]; [discriminate|].
    destruct (test ic p c); [|discriminate].
    exists (Some c), (String c ""), s. split; [reflexivity | exact H].
  - apply IH1 in H. destruct H as (p1 & w1 & s1 & -> & H).
    apply IH2 in H. destruct H as (p2 & w2 & s2 & -> & H).
    exists p2, (w1 ++ w2), s2. split; [symmetry; apply append_assoc | exact H].
  - destruct (run ic r1 prev s k) as [a'|] eqn:E.
    + injection H as ->. apply IH1 in E. exact E.
    + apply IH2 in H. exact H.
  - eapply rounds_frame; [|exact H]. intros. eapply IH; eassumption.
  - destruct (xorb _ _); [|discriminate].
    exists prev, "", s. split; [reflexivity | exact H].
Qed.

(** A first match splits the text into what is before it, the match and
    what is after it, and the match is one the pattern makes at that
    place. *)
Lemma run_found (ic : bool) (r : regex) (prev : option ascii) (s : string)
  (p : option ascii) (rest : string) :
  run ic r prev s found = Some (p, rest) ->
  exists w, s = w ++ rest
            /\ substring 0 (String.length s - String.length rest) s = w.
Proof.
  intro E. destruct (run_frame _ _ _ _ _ _ E) as (p' & w & s' & Hs & Hk).
  injection Hk as -> ->. exists w. split; [exact Hs|].
  rewrite Hs. apply substring_append.
Qed.

Lemma first_match_sound (ic : bool) (r : regex) (s : string) :
  forall prev before m p rest,
    first_match ic r prev s = Some (before, m, p, rest) ->
    s = before ++ m ++ rest
    /\ exists prev', run ic r prev' (m ++ rest) found = Some (p, rest).
Proof.
  assert (Hhere : forall prev s before m p rest p0 rest0,
             run ic r prev s found = Some (p0, rest0) ->
             Some ("", substring 0 (String.length s - String.length rest0) s,
                   p0, rest0) = Some (before, m, p, rest) ->
             s = before ++ m ++ rest
             /\ exists prev', run ic r prev' (m ++ rest) found
                              = Some (p, rest)).
  { intros prev0 s0 before m p rest p0 rest0 E H.
    destruct (run_found _ _ _ _ _ _ E) as (w & Hs & Hw).
    injection H as <- <- <- <-. rewrite Hw.
    split; [exact Hs|]. exists prev0. rewrite <- Hs. exact E. }
  induction s as [|c s IH]; intros prev before m p rest H; cbn [first_match] in H.
  - destruct (run ic r prev "" _) as [[p0 rest0]|] eqn:E; [|discriminate].
    exact (Hhere _ _ _ _ _ _ _ _ E H).
  - destruct (run ic r prev (String c s) _) as [[p0 rest0]|] eqn:E.
    + exact (Hhere _ _ _ _ _ _ _ _ E H).
    + destruct (first_match ic r (Some c) s) as [[[[b0 m0] p0] rest0]|] eqn:E';
        [|discriminate].
      injection H as <- <- <- <-.
      destruct (IH _ _ _ _ _ E') as (Hs & prev' & Hr).
      split; [simpl; rewrite <- Hs; reflexivity|]. exists prev'. exact Hr.
Qed.

(** Every entry of [findall] is a match of the pattern somewhere in the
    text. *)
Lemma findall_from_sound (ic : bool) (r : regex) (fuel : nat) :
  forall prev s m,
    In m (findall_from fuel ic r prev s) ->
    exists a b p prev',
      s = a ++ m ++ b /\ run ic r prev' (m ++ b) found = Some (p, b).
Proof.
  induction fuel as [|fuel IH]; intros prev s m H; [destruct H|].
  cbn [findall_from] in H.
  destruct (first_match ic r prev s) as [[[[b0 m0] p0] rest0]|] eqn:E;
    [|destruct H].
  destruct (first_match_sound _ _ _ _ _ _ _ _ E) as (Hs & prev' & Hr).
  assert (Hhere : m0 = m ->
                  exists a b p prev',
                    s = a ++ m ++ b
                    /\ run ic r prev' (m ++ b) found = Some (p, b)).
  { intros <-. exists b0, rest0, p0, prev'. split; assumption. }
  assert (Hlater : forall prev1 c,
             In m (findall_from fuel ic r prev1 c) ->
             (exists x, rest0 = x ++ c) ->
             exists a b p prev',
               s = a ++ m ++ b
               /\ run ic r prev' (m ++ b) found = Some (p, b)).
  { intros prev1 c Hin [x Hx]. apply IH in Hin.
    destruct Hin as (a & b & p & prev2 & Hc & Hr2).
    exists (b0 ++ m0 ++ x ++ a), b, p, prev2. split; [|exact Hr2].
    rewrite Hs, Hx, Hc, !append_assoc. reflexivity. }
  destruct (String.length m0 =? 0)%nat.
  - destruct rest0 as [|c rest'].
    + destruct H as [H|[]]. exact (Hhere H).
    + destruct H as [H|H]; [exact (Hhere H)|].
      apply (Hlater _ _ H). exists (String c ""). reflexivity.
  - destruct H as [H|H]; [exact (Hhere H)|].
    apply (Hlater _ _ H). exists "". reflexivity.
Qed.

Lemma findall_sound (ic : bool) (r : regex) (s m : string) :
  In m (findall ic r s) ->
  exists a b p prev',
    s = a ++ m ++ b /\ run ic r prev' (m ++ b) found = Some (p, b).
Proof. apply findall_from_sound. Qed.

(** A search that succeeds at some place of the text succeeds. *)
Lemma first_match_complete (ic : bool) (r : regex) (a s : string) :
  (forall prev, run ic r prev s found <> None) ->
  forall prev, first_match ic r prev (a ++ s) <> None.
Proof.
  intro H. induction a as [|c a IH]; intro prev.
  - change (("" ++ s)%string) with s. pose proof (H prev) as Hp.
    unfold found in Hp.
    destruct s as [|d s]; cbn [first_match];
      destruct (run ic r prev _ _) as [[? ?]|]; congruence.
  - change ((String c a ++ s)%string) with (String c (a ++ s)).
    cbn [first_match].
    destruct (run ic r prev (String c (a ++ s)) _) as [[? ?]|];
      [discriminate|].
    specialize (IH (Some c)).
    destruct (first_match ic r (Some c) (a ++ s)) as [[[[? ?] ?] ?]|];
      congruence.
Qed.

(** ** Literals, classes and options *)

Lemma run_lit (l : string) :
  forall prev s k,
    run false (lit l) prev s k
    = match match_lit l prev s with
      | Some (p, rest) => k p rest
      | None => None
      end.
Proof.
  induction l as [|c l IH]; intros prev s k; [reflexivity|].
  destruct l as [|c' l'].
  - destruct s as [|d s]; [reflexivity|].
    cbn [lit chr run test match_lit]. destruct (Ascii.eqb c d); reflexivity.
  - change (lit (String c (String c' l')))
      with (Seq (chr c) (lit (String c' l'))).
    cbn [run chr test]. destruct s as [|d s]; [reflexivity|].
    cbn [match_lit]. destruct (Ascii.eqb c d); [apply IH | reflexivity].
Qed.

Lemma match_lit_sound (l : string) :
  forall prev s p rest, match_lit l prev s = Some (p, rest) -> s = l ++ rest.
Proof.
  induction l as [|c l IH]; intros prev s p rest H; simpl in H.
  - injection H as _ ->. reflexivity.
  - destruct s as [|d s]; [discriminate|].
    destruct (Ascii.eqb c d) eqn:E; [|discriminate].
    apply Ascii.eqb_eq in E. subst d. simpl. f_equal. eapply IH, H.
Qed.

Lemma match_lit_complete (l : string) :
  forall prev rest, exists p, match_lit l prev (l ++ rest) = Some (p, rest).
Proof.
  induction l as [|c l IH]; intros prev rest; simpl.
  - eexists. reflexivity.
  - rewrite Ascii.eqb_refl. apply IH.
Qed.

Lemma skip_class_sound (q : ascii -> bool) (s : string) :
  forall prev p rest,
    skip_class q prev s = (p, rest) ->
    exists body,
      s = body ++ rest /\ all_chars q body = true
      /\ starts_with_class q rest = false
      /\ (starts_with_class q s = true -> body <> "").
Proof.
  induction s as [|c s IH]; intros prev p rest H; simpl in H.
  - injection H as _ <-. exists "". repeat split. discriminate.
  - destruct (q c) eqn:Ec.
    + destruct (IH _ _ _ H) as (body & -> & Hall & Hrest & _).
      exists (String c body). simpl. rewrite Ec, Hall.
      repeat split; [exact Hrest | discriminate].
    + injection H as _ <-. exists "". simpl. rewrite Ec.
      repeat split. discriminate.
Qed.

Lemma rounds_class (ic : bool) (q : ascii -> bool) (fuel : nat) :
  forall (cnt : nat) (prev : option ascii) (s : string),
    (String.length s <= fuel)%nat ->
    rounds (run ic (Chr q)) 1 None found fuel cnt prev s
    = if (1 <=? cnt)%nat || starts_with_class (test ic q) s
      then Some (skip_class (test ic q) prev s) else None.
Proof.
  induction fuel as [|fuel IH]; intros cnt prev s Hlen.
  - destruct s as [|c s]; [|simpl in Hlen; lia].
    simpl. rewrite orb_false_r. reflexivity.
  - destruct s as [|c s].
    + simpl. rewrite orb_false_r. reflexivity.
    + simpl in Hlen. cbn [rounds run starts_with_class skip_class].
      destruct (test ic q c) eqn:Ec.
      * assert (Hlt : (String.length s <? String.length (String c s))%nat
                      = true) by (apply Nat.ltb_lt; simpl; lia).
        rewrite Hlt, IH by lia. rewrite orb_true_r. reflexivity.
      * rewrite orb_false_r. reflexivity.
Qed.

Lemma run_plus_class (ic : bool) (q : ascii -> bool) (prev : option ascii)
  (s : string) :
  run ic (plus (Chr q)) prev s found
  = if starts_with_class (test ic q) s
    then Some (skip_class (test ic q) prev s) else None.
Proof.
  change (run ic (plus (Chr q)) prev s found)
    with (rounds (run ic (Chr q)) 1 None found (String.length s) 0 prev s).
  rewrite rounds_class by lia. reflexivity.
Qed.

Lemma run_opt_chr (c : ascii) (prev : option ascii) (s : string) (k : cont) :
  run false (opt (chr c)) prev s k
  = match s with
    | String d s' =>
        if Ascii.eqb c d then
          match k (Some d) s' with
          | Some a => Some a
          | None => k prev s
          end
        else k prev s
    | EmptyString => k prev s
    end.
Proof.
  unfold opt, chr. cbn [run]. destruct s as [|d s]; [reflexivity|].
  cbn [String.length rounds run test].
  change (0 <? 1)%nat with true. change (0 <=? 0)%nat with true. cbv iota.
  destruct (Ascii.eqb c d); [|reflexivity].
  assert (Hlt : (String.length s <? S (String.length s))%nat = true)
    by (apply Nat.ltb_lt; lia).
  rewrite Hlt.
  match goal with
  | |- context [rounds ?f 0 (Some 1%nat) k (String.length s) 1 (Some d) s] =>
      replace (rounds f 0 (Some 1%nat) k (String.length s) 1 (Some d) s)
        with (k (Some d) s) by (destruct (String.length s); reflexivity)
  end.
  reflexivity.
Qed.

Lemma run_seq (ic : bool) (r1 r2 : regex) (prev : option ascii) (s : string)
  (k : cont) :
  run ic (Seq r1 r2) prev s k
  = run ic r1 prev s (fun p' s' => run ic r2 p' s' k).
Proof. reflexivity. Qed.

(** A literal followed by one or more characters of a class. *)
Lemma run_lit_plus (l : string) (q : ascii -> bool) (prev : option ascii)
  (s : string) (p : option ascii) (rest : string) :
  run false (Seq (lit l) (plus (Chr q))) prev s found = Some (p, rest) ->
  exists body,
    s = l ++ body ++ rest /\ body <> "" /\ all_chars q body = true
    /\ starts_with_class q rest = false.
Proof.
  rewrite run_seq, run_lit.
  destruct (match_lit l prev s) as [[p1 s1]|] eqn:E; [|discriminate].
  apply match_lit_sound in E. subst s.
  rewrite run_plus_class. change (test false q) with q.
  destruct (starts_with_class q s1) eqn:Es; [|discriminate].
  intro H. injection H as H.
  destruct (skip_class_sound _ _ _ _ _ H) as (body & -> & Hall & Hrest & Hne).
  exists body. repeat split; auto.
Qed.

Lemma run_lit_plus_complete (l : string) (q : ascii -> bool)
  (prev : option ascii) (c : ascii) (b : string) :
  q c = true ->
  run false (Seq (lit l) (plus (Chr q))) prev (l ++ String c b) found <> None.
Proof.
  intro Hc. rewrite run_seq, run_lit.
  destruct (match_lit_complete l prev (String c b)) as [p ->].
  rewrite run_plus_class. change (test false q) with q.
  simpl. rewrite Hc. discriminate.
Qed.

(** ** Links *)

(** The pattern of a link: http, an optional s, ://, then one or more
    characters of a class. *)
Lemma run_url (q : ascii -> bool) (prev : option ascii) (s : string)
  (p : option ascii) (rest : string) :
  run false
    (Seq (lit "http") (Seq (opt (chr "s")) (Seq (lit "://") (plus (Chr q)))))
    prev s found = Some (p, rest) ->
  exists scheme body,
    s = scheme ++ body ++ rest
    /\ (scheme = "http://" \/ scheme = "https://")
    /\ body <> "" /\ all_chars q body = true
    /\ starts_with_class q rest = false.
Proof.
  rewrite run_seq, run_lit.
  destruct (match_lit "http" prev s) as [[p1 s1]|] eqn:E; [|discriminate].
  apply match_lit_sound in E. subst s.
  rewrite run_seq, run_opt_chr.
  assert (Hplain : forall p0 s0,
             run false (Seq (lit "://") (plus (Chr q))) p0 s0 found
             = Some (p, rest) ->
             exists scheme body,
               "http" ++ s0 = scheme ++ body ++ rest
               /\ (scheme = "http://" \/ scheme = "https://")
               /\ body <> "" /\ all_chars q body = true
               /\ starts_with_class q rest = false).
  { intros p0 s0 H. apply run_lit_plus in H.
    destruct H as (body & -> & H). exists "http://", body.
    split; [reflexivity|]. split; [now left | exact H]. }
  destruct s1 as [|d s1]; [apply Hplain|].
  destruct (Ascii.eqb "s" d) eqn:Ed; [|apply Hplain].
  apply Ascii.eqb_eq in Ed. subst d.
  destruct (run false (Seq (lit "://") (plus (Chr q))) (Some "s"%char) s1
              found) as [[p2 r2]|] eqn:E2; [|apply Hplain].
  intro H. injection H as <- <-. apply run_lit_plus in E2.
  destruct E2 as (body & -> & H). exists "https://", body.
  split; [reflexivity|]. split; [now right | exact H].
Qed.

Lemma run_pdf_url (prev : option ascii) (s : string) (p : option ascii)
  (rest : string) :
  run false Utils.pdf_url_pattern prev s found = Some (p, rest) ->
  exists scheme body,
    s = scheme ++ body ++ rest
    /\ (scheme = "http://" \/ scheme = "https://")
    /\ body <> "" /\ all_chars url_char body = true
    /\ starts_with_class url_char rest = false.
Proof. exact (run_url url_char prev s p rest). Qed.

(** X10.  Every link that [extract_links_from_text] returns stands in the text,
    starts with http:// or https://, goes on with at least one character and
    holds no whitespace and none of the closing marks. *)
Theorem extract_links_from_text_shape (text link : string) :
  In link (ScoreUtils.extract_links_from_text text) ->
  (exists a b, text = a ++ link ++ b)
  /\ (exists body, (link = "http://" ++ body \/ link = "https://" ++ body)
                   /\ body <> "")
  /\ all_chars url_char link = true.
Proof.
  unfold ScoreUtils.extract_links_from_text, ScoreUtils._URL_RE.
  intro H. apply findall_sound in H.
  destruct H as (a & b & p & prev' & Ht & Hr).
  apply run_pdf_url in Hr.
  destruct Hr as (scheme & body & Hs & Hscheme & Hne & Hall & _).
  rewrite <- append_assoc in Hs. apply append_inv_tail in Hs. subst link.
  split; [exists a, b; exact Ht|]. split.
  - exists body. split; [|exact Hne].
    destruct Hscheme as [-> | ->]; [left | right]; reflexivity.
  - rewrite all_chars_append, Hall.
    destruct Hscheme as [-> | ->]; reflexivity.
Qed.

Lemma extract_links_from_text_shape_witness :
  In "https://a.io/x" (ScoreUtils.extract_links_from_text "(see https://a.io/x)")
  /\ all_chars url_char "https://a.io/x" = true.
Proof.
  assert (H : In "https://a.io/x"
                (ScoreUtils.extract_links_from_text "(see https://a.io/x)"))
    by (vm_compute; left; reflexivity).
  split; [exact H|].
  apply (extract_links_from_text_shape "(see https://a.io/x)" "https://a.io/x" H).
Defined.

(** ** The GitHub username *)

Lemma substring_all (b : string) : substring 0 (String.length b) b = b.
Proof. induction b as [|c b IH]; simpl; [|rewrite IH]; reflexivity. Qed.

Lemma substring_after (a b : string) :
  substring (String.length a) (String.length (a ++ b) - String.length a)
    (a ++ b) = b.
Proof.
  rewrite append_length.
  replace (String.length a + String.length b - String.length a)%nat
    with (String.length b) by lia.
  induction a as [|c a IH]; simpl; [apply substring_all | exact IH].
Qed.

Lemma extract_github_username_sound (text name : string) :
  Utils.extract_github_username text = Some name ->
  name <> "" /\ all_chars username_char name = true
  /\ exists a b,
       text = a ++ "github.com/" ++ name ++ b
       /\ starts_with_class username_char b = false.
Proof.
  unfold Utils.extract_github_username.
  change Utils.github_username_pattern
    with (Seq (lit "github.com/") (plus (Chr username_char))).
  intro H.
  destruct (first_match false _ None text) as [[[[before m] p] rest]|] eqn:E;
    [|discriminate].
  injection H as <-.
  destruct (first_match_sound _ _ _ _ _ _ _ _ E) as (Ht & prev' & Hr).
  apply run_lit_plus in Hr. destruct Hr as (body & Hm & Hne & Hall & Hrest).
  rewrite <- append_assoc in Hm. apply append_inv_tail in Hm. subst m.
  pose proof (substring_after "github.com/" body) as Hsub.
  change (String.length "github.com/") with 11%nat in Hsub. rewrite Hsub.
  split; [exact Hne|]. split; [exact Hall|].
  exists before, rest. split; [|exact Hrest].
  rewrite Ht, !append_assoc. reflexivity.
Qed.

Lemma extract_github_username_complete (a : string) (c : ascii) (b : string) :
  username_char c = true ->
  exists name,
    Utils.extract_github_username (a ++ "github.com/" ++ String c b)
    = Some name.
Proof.
  intro Hc. unfold Utils.extract_github_username.
  change Utils.github_username_pattern
    with (Seq (lit "github.com/") (plus (Chr username_char))).
  pose proof (first_match_complete false
                (Seq (lit "github.com/") (plus (Chr username_char))) a
                ("github.com/" ++ String c b)
                (fun prev => run_lit_plus_complete "github.com/" _ prev c b Hc)
                None) as H.
  destruct (first_match false _ None _) as [[[[before m] p] rest]|];
    [eexists; reflexivity | congruence].
Qed.

(** X11.  [extract_github_username] answers a name exactly when github.com/ is
    followed somewhere in the text by a letter, a digit or a hyphen.  The name
    is then not empty, made of such characters only, stands in the text right
    after github.com/ and ends where they end. *)
Theorem extract_github_username_spec (text : string) :
  (forall name,
      Utils.extract_github_username text = Some name ->
      name <> "" /\ all_chars username_char name = true
      /\ exists a b,
           text = a ++ "github.com/" ++ name ++ b
           /\ starts_with_class username_char b = false)
  /\ (forall a c b,
         text = a ++ "github.com/" ++ String c b ->
         username_char c = true ->
         exists name, Utils.extract_github_username text = Some name).
Proof.
  split.
  - intros name. apply extract_github_username_sound.
  - intros a c b -> Hc. apply extract_github_username_complete, Hc.
Qed.

Lemma extract_github_username_spec_witness :
  Utils.extract_github_username "see github.com/alice-1/repo" = Some "alice-1"
  /\ all_chars username_char "alice-1" = true
  /\ exists name,
       Utils.extract_github_username "see github.com/alice-1/repo" = Some name.
Proof.
  assert (E : Utils.extract_github_username "see github.com/alice-1/repo"
              = Some "alice-1") by (vm_compute; reflexivity).
  pose proof (extract_github_username_spec "see github.com/alice-1/repo")
    as [Hs Hc].
  split; [exact E|]. split; [apply (Hs "alice-1" E)|].
  apply (Hc "see " "a"%char "lice-1/repo"); reflexivity.
Defined.

(** ** [dict.fromkeys] *)

Lemma dict_keys_set (k : string) (d : list (string * unit)) :
  dict_keys (dict_set k tt d)
  = if existsb (String.eqb k) (dict_keys d) then dict_keys d
    else (dict_keys d ++ [k])%list.
Proof.
  unfold dict_keys.
  induction d as [|[k' []] d IH]; [reflexivity|].
  cbn [dict_set map fst existsb]. rewrite (String.eqb_sym k k').
  destruct (k' =? k)%string eqn:E; cbn [map fst orb].
  - apply String.eqb_eq in E. subst. reflexivity.
  - rewrite IH. destruct (existsb (String.eqb k) (map fst d)); reflexivity.
Qed.

Lemma filter_filter_comm {A : Type} (p q : A -> bool) (l : list A) :
  filter p (filter q l) = filter q (filter p l).
Proof.
  induction l as [|x l IH]; simpl; [reflexivity|].
  destruct (p x) eqn:Ep, (q x) eqn:Eq; simpl; rewrite ?Ep, ?Eq, IH; reflexivity.
Qed.

Lemma filter_absent (x : string) (l : list string) :
  ~ In x l -> filter (fun y => negb (y =? x)%string) l = l.
Proof.
  induction l as [|y l IH]; simpl; intro H; [reflexivity|].
  destruct (y =? x)%string eqn:E.
  - apply String.eqb_eq in E. exfalso. apply H. now left.
  - simpl. rewrite IH; [reflexivity|]. intro Hin. apply H. now right.
Qed.

Lemma dedup_first_filter (p : string -> bool) (l : list string) :
  dedup_first (filter p l) = filter p (dedup_first l).
Proof.
  induction l as [|x l IH]; simpl; [reflexivity|].
  destruct (p x) eqn:Ep; simpl.
  - rewrite IH. f_equal. apply filter_filter_comm.
  - rewrite IH, filter_filter_comm. symmetry. apply filter_absent.
    intro Hin. apply filter_In in Hin. destruct Hin as [_ Hp]. congruence.
Qed.

Lemma dedup_first_In (x : string) (l : list string) :
  In x (dedup_first l) <-> In x l.
Proof.
  induction l as [|y l IH]; simpl; [tauto|].
  rewrite filter_In, IH. destruct (String.eqb_spec x y) as [->|Hne].
  - tauto.
  - split.
    + intros [H|[H _]]; auto.
    + intros [H|H]; [auto|]. right. split; [exact H | reflexivity].
Qed.

Lemma dedup_first_NoDup (l : list string) : NoDup (dedup_first l).
Proof.
  induction l as [|x l IH]; simpl; constructor.
  - intro H. apply filter_In in H. destruct H as [_ H].
    rewrite String.eqb_refl in H. discriminate.
  - apply NoDup_filter, IH.
Qed.

(** The keys that the entries of a list leave in a dict are the first
    occurrences of the entries, in their order. *)
Lemma fold_fromkeys (l : list string) :
  forall d : list (string * unit),
    dict_keys (fold_left (fun d k => dict_set k tt d) l d)
    = (dict_keys d
       ++ dedup_first
            (filter (fun k => negb (existsb (String.eqb k) (dict_keys d))) l))%list.
Proof.
  induction l as [|x l IH]; intro d; simpl.
  - symmetry. apply app_nil_r.
  - rewrite IH, dict_keys_set.
    destruct (existsb (String.eqb x) (dict_keys d)) eqn:Ex; simpl.
    + reflexivity.
    + rewrite <- app_assoc. simpl. f_equal. f_equal.
      rewrite <- dedup_first_filter. f_equal.
      clear IH. induction l as [|y l IHl]; simpl; [reflexivity|].
      rewrite existsb_app. simpl. rewrite orb_false_r, negb_orb.
      destruct (existsb (String.eqb y) (dict_keys d)); simpl; [exact IHl|].
      destruct (y =? x)%string; simpl; [exact IHl | rewrite IHl; reflexivity].
Qed.

Lemma dict_fromkeys_keys (l : list string) :
  dict_keys (dict_fromkeys l) = dedup_first l.
Proof.
  unfold dict_fromkeys. rewrite fold_fromkeys. simpl.
  f_equal. induction l as [|x l IH]; simpl; [|rewrite IH]; reflexivity.
Qed.

(** X12.  The sibling of [extract_and_identify_links] does remove duplicates:
    whatever the text of the PDF is, [extract_links_combined] returns that text
    and each link and each mailto: address found in it once, in the order of
    their first occurrences, links first. *)
Theorem extract_links_combined_unique {file : Type}
  (extract_text_from_pdf : file -> string) (pdf_path : file) :
  let text := extract_text_from_pdf pdf_path in
  let found_all :=
    (findall false Utils.pdf_url_pattern text
     ++ map (fun e => ("mailto:" ++ e)%string) (findall false Utils.email_pattern text))%list
  in
  let r := Utils.extract_links_combined extract_text_from_pdf pdf_path in
  snd r = text
  /\ fst r = dedup_first found_all
  /\ NoDup (fst r)
  /\ forall l, In l (fst r) <-> In l found_all.
Proof.
  unfold Utils.extract_links_combined. cbv zeta. cbn [fst snd].
  rewrite dict_fromkeys_keys.
  split; [reflexivity|]. split; [reflexivity|].
  split; [apply dedup_first_NoDup | intro l; apply dedup_first_In].
Qed.

(** ** Metrics of a resume *)

(** The number that carries the bullet is, in every table of the embedding,
    what U+2022 is in CPython: no whitespace, no word character, no digit,
    no letter, no line end, its own lower and upper case, and the lower or
    upper case of no other character. *)
Lemma bullet_char_plain :
  isspace Utils.bullet_char = false
  /\ isword Utils.bullet_char = false
  /\ is_linebreak Utils.bullet_char = false
  /\ Utils.digit Utils.bullet_char = false
  /\ Utils.letter Utils.bullet_char = false
  /\ Utils.alnum Utils.bullet_char = false
  /\ Utils.delimiter Utils.bullet_char = false
  /\ lower_char Utils.bullet_char = Utils.bullet_char
  /\ upper_char Utils.bullet_char = Utils.bullet_char
  /\ forall c, lower_char c = Utils.bullet_char \/ upper_char c = Utils.bullet_char ->
               c = Utils.bullet_char.
Proof.
  repeat split; try reflexivity.
  intro c. destruct c as [[] [] [] [] [] [] [] []]; vm_compute;
    intros [H | H]; congruence.
Qed.

(** On the resume with two bullets both patterns that name the bullet
    match: two bullets, one action verb on each, two quantities, and with
    the layout, the keywords and the rest 11 points of 15. *)
Example bulleted_resume_metrics :
  let m := Utils.derive_resume_metrics bulleted_resume "Software Engineer" in
  List.length (findall false Utils.bullet_pattern bulleted_resume) = 2%nat
  /\ map (fun v => Utils.count_action_verb v bulleted_resume)
         ["led"; "built"; "reduced"] = [1; 1; 0]%nat
  /\ m_action_verbs_per_bullet m = Some 1%Q
  /\ m_quantified_bullets_ratio m = Some 1%Q
  /\ m_avg_bullets_per_job m = Some (2 # 1)%Q
  /\ subtotal_earned (Utils.ats_resume_scoring m) = 11
  /\ option_map Views.ats_score
       (Views.analyze_resume_context None None None bulleted_resume)
     = Some 73.
Proof. vm_compute. repeat split; reflexivity. Qed.

Lemma Qdiv_inject_nonneg (a b : Z) :
  0 <= a -> 0 < b -> (0 <= inject_Z a / inject_Z b)%Q.
Proof.
  intros Ha Hb. destruct b as [|b|b]; try lia.
  unfold Qdiv, Qmult, Qinv, Qle, inject_Z. simpl. lia.
Qed.

Lemma Qdiv_inject_pos (a b : Z) :
  0 < a -> 0 < b -> (0 < inject_Z a / inject_Z b)%Q.
Proof.
  intros Ha Hb. destruct b as [|b|b]; try lia.
  unfold Qdiv, Qmult, Qinv, Qlt, inject_Z. simpl. lia.
Qed.

Lemma Qdiv_inject_le_1 (a b : Z) :
  a <= b -> 0 < b -> (inject_Z a / inject_Z b <= 1)%Q.
Proof.
  intros Ha Hb. destruct b as [|b|b]; try lia.
  unfold Qdiv, Qmult, Qinv, Qle, inject_Z. simpl. lia.
Qed.

Lemma minQ_le_l (a b : Q) : (minQ a b <= a)%Q.
Proof.
  unfold minQ. destruct (Qle_bool a b) eqn:E; [apply Qle_refl|].
  apply Qle_bool_false in E. apply Qlt_le_weak, E.
Qed.

Lemma minQ_ge (c a b : Q) : (c <= a)%Q -> (c <= b)%Q -> (c <= minQ a b)%Q.
Proof. intros Ha Hb. unfold minQ. destruct (Qle_bool a b); assumption. Qed.

Lemma minQ_gt (c a b : Q) : (c < a)%Q -> (c < b)%Q -> (c < minQ a b)%Q.
Proof. intros Ha Hb. unfold minQ. destruct (Qle_bool a b); assumption. Qed.

Lemma keyword_match_rate_bounds (text : string) (kws : list string) :
  (0 <= Utils.keyword_match_rate text kws <= 1)%Q.
Proof.
  unfold Utils.keyword_match_rate. destruct kws as [|kw kws]; [lra|].
  set (l := kw :: kws).
  pose proof (filter_length_le
                (fun kw => contains (lower kw) (Utils.normalize_text text)) l)
    as Hle.
  assert (Hlen : (0 < List.length l)%nat) by (simpl; lia).
  split.
  - apply Qdiv_inject_nonneg; lia.
  - apply Qdiv_inject_le_1; lia.
Qed.

(** X13.  The rate is a fraction: between 0 and 1 for every text and every list
    of keywords, and 0 for the empty list. *)
Theorem keyword_match_rate_range (text : string) (kws : list string) :
  (0 <= Utils.keyword_match_rate text kws <= 1)%Q
  /\ Utils.keyword_match_rate text [] = 0%Q.
Proof. split; [apply keyword_match_rate_bounds | reflexivity]. Qed.

Lemma derived_rate_bounds (text role : string) :
  (0 <= Utils.derive_keyword_match_rate text role <= 1)%Q.
Proof.
  unfold Utils.derive_keyword_match_rate.
  destruct (Utils.role_kws role); [lra | apply keyword_match_rate_bounds].
Qed.

Lemma sumZ_nonneg (l : list Z) : Forall (fun x => 0 <= x) l -> 0 <= sumZ l.
Proof.
  unfold sumZ. assert (G : forall a, 0 <= a -> Forall (fun x => 0 <= x) l ->
                               0 <= fold_left Z.add l a).
  { induction l as [|x l IH]; intros a Ha H; simpl; [exact Ha|].
    inversion H; subst. apply IH; [lia | assumption]. }
  apply G. lia.
Qed.

(** X14.  For every text and role the derived metrics stay in their ranges: the
    three rates lie in [0,1], there is at least one page, the bullets per job
    lie in (0,12], the repetition rate is 0.08 or 0.18, the jargon rate 0.12 or
    0.22, the skill count lies in [0,15], and the layout is always taken as
    single-column. *)
Theorem derive_resume_metrics_ranges (resume_text role_title : string) :
  exists sp te av qr kmr pages ab rep jar usk,
    Utils.derive_resume_metrics resume_text role_title
    = Metrics (Some sp) (Some true) (Some te) (Some av) (Some qr) (Some kmr)
        (Some pages) (Some ab) (Some rep) (Some jar) (Some usk)
    /\ (0 <= av <= 1)%Q /\ (0 <= qr <= 1)%Q /\ (0 <= kmr <= 1)%Q
    /\ 1 <= pages /\ (0 < ab <= 12)%Q
    /\ (rep == 8 # 100 \/ rep == 18 # 100)%Q
    /\ (jar == 12 # 100 \/ jar == 22 # 100)%Q
    /\ 0 <= usk <= 15.
Proof.
  unfold Utils.derive_resume_metrics. cbv zeta.
  do 10 eexists. split; [reflexivity|].
  set (hits := sumZ _).
  assert (Hhits : 0 <= hits).
  { subst hits. apply sumZ_nonneg, Forall_map, Forall_forall. intros; lia. }
  set (bullets := Z.max 1 (Z.of_nat (List.length (findall false _ resume_text)))).
  assert (Hb : 1 <= bullets) by (subst bullets; lia).
  repeat split.
  - apply minQ_ge; [lra | apply Qdiv_inject_nonneg; lia].
  - apply minQ_le_l.
  - apply minQ_ge; [lra | apply Qdiv_inject_nonneg; lia].
  - apply minQ_le_l.
  - apply derived_rate_bounds.
  - apply derived_rate_bounds.
  - lia.
  - apply minQ_gt; [reflexivity | apply Qdiv_inject_pos; lia].
  - apply minQ_le_l.
  - destruct (negb _); [left | right]; reflexivity.
  - destruct (_ && _)%bool; [left | right]; reflexivity.
  - lia.
  - lia.
Qed.

(** ** Pages *)

Lemma round_le_2 (x : Q) : (x <= 5 # 2)%Q -> round x <= 2.
Proof.
  intro Hx. unfold round.
  pose proof (Qfloor_le x) as Hf.
  set (f := Qfloor x) in *.
  assert (Hf2 : f <= 2).
  { assert (H : (inject_Z f <= 5 # 2)%Q) by (eapply Qle_trans; eassumption).
    unfold Qle, inject_Z in H. simpl in H. lia. }
  destruct (Qcompare (x - inject_Z f) (1 # 2)) eqn:E.
  - destruct (Z.even f) eqn:Ev; [lia|].
    assert (f <> 2) by (intros ->; discriminate Ev). lia.
  - lia.
  - apply Qgt_alt in E.
    assert (f <> 2).
    { intros Hf'. rewrite Hf' in E.
      assert (H : (2 + (1 # 2) < x)%Q) by (change (inject_Z 2) with 2%Q in E; lra).
      lra. }
    lia.
Qed.

Lemma round_ge_3 (x : Q) : (5 # 2 < x)%Q -> 3 <= round x.
Proof.
  intro Hx. unfold round.
  pose proof (Qlt_floor x) as Hf.
  set (f := Qfloor x) in *.
  assert (Hf2 : 2 <= f).
  { assert (H : (5 # 2 < inject_Z (f + 1))%Q) by (eapply Qlt_trans; eassumption).
    unfold Qlt, inject_Z in H. simpl in H. lia. }
  destruct (Qcompare (x - inject_Z f) (1 # 2)) eqn:E.
  - apply Qeq_alt in E.
    assert (f <> 2).
    { intros Hf'. rewrite Hf' in E. change (inject_Z 2) with 2%Q in E. lra. }
    destruct (Z.even f); lia.
  - apply Qlt_alt in E.
    assert (f <> 2).
    { intros Hf'. rewrite Hf' in E. change (inject_Z 2) with 2%Q in E. lra. }
    lia.
  - lia.
Qed.

(** X15.  A resume counts as at most two pages exactly when it has at most
    5000 characters: 2.5 pages round to the even 2. *)
Theorem pages_at_most_two (resume_text role_title : string) :
  exists pages,
    m_pages (Utils.derive_resume_metrics resume_text role_title) = Some pages
    /\ (pages <= 2 <-> (String.length resume_text <= 5000)%nat).
Proof.
  unfold Utils.derive_resume_metrics. cbv zeta. cbn [m_pages].
  eexists. split; [reflexivity|].
  set (n := Z.of_nat (String.length resume_text)).
  assert (Hn : 0 <= n) by (subst n; lia).
  assert (Hdiv : forall k, (inject_Z n / 2000 <= k # 2)%Q <-> 2 * n <= 2000 * k).
  { intro k. unfold Qdiv, Qmult, Qinv, Qle, inject_Z. cbn -[Z.mul]. lia. }
  split.
  - intro H.
    destruct (Z_le_gt_dec n 5000) as [Hle|Hgt]; [lia|].
    assert (Hx : (5 # 2 < inject_Z n / 2000)%Q).
    { apply Qnot_le_lt. intro Hc. apply (Hdiv 5) in Hc. lia. }
    apply round_ge_3 in Hx. lia.
  - intro H.
    assert (Hx : (inject_Z n / 2000 <= 5 # 2)%Q) by (apply Hdiv; lia).
    apply round_le_2 in Hx. lia.
Qed.

(** ** Blank texts *)

(** X16.  A text counts as extractable exactly when it has a word. *)
Theorem text_extractable_iff (resume_text role_title : string) :
  m_text_extractable (Utils.derive_resume_metrics resume_text role_title)
  = Some (negb (match split resume_text with [] => true | _ => false end)).
Proof.
  unfold Utils.derive_resume_metrics. cbv zeta. cbn [m_text_extractable].
  f_equal. rewrite normalize_text_words.
  pose proof (split_words resume_text) as Hw.
  destruct (split resume_text) as [|w ws]; [reflexivity|].
  inversion Hw as [|? ? Hw1 _]; subst.
  destruct w as [|c w]; [discriminate Hw1|].
  cbn [map lower]. rewrite join_cons_char. reflexivity.
Qed.

(** ** The view [analyze_resume] *)

(** The points of a threshold ladder. *)
Lemma ladder1 (b : bool) : 0 <= (if b then 1 else 0) <= 1.
Proof. destruct b; lia. Qed.

Lemma ladder2 (b b' : bool) :
  0 <= (if b then 2 else if b' then 1 else 0) <= 2.
Proof. destruct b, b'; lia. Qed.

Lemma ladder3 (b b' b'' : bool) :
  0 <= (if b then 3 else if b' then 2 else if b'' then 1 else 0) <= 3.
Proof. destruct b, b', b''; lia. Qed.

Lemma int_bool_bounds (o : option bool) : 0 <= int_bool o <= 1.
Proof. destruct o as [[|]|]; simpl; lia. Qed.

(** A metrics dict that says single-column earns at least one point. *)
Lemma rubric_total_single_column (m : metrics) :
  m_single_column m = Some true ->
  1 <= subtotal_earned (Utils.ats_resume_scoring m) <= 15.
Proof.
  intro Hs. unfold Utils.ats_resume_scoring. cbv zeta. cbn [subtotal_earned].
  rewrite Hs. change (int_bool (Some true)) with 1.
  generalize (int_bool_bounds (m_sections_present m)).
  generalize (int_bool (m_sections_present m)). intros x1 H1.
  generalize (int_bool_bounds (m_text_extractable m)).
  generalize (int_bool (m_text_extractable m)). intros x2 H2.
  repeat match goal with
         | |- context [if ?b then 3 else if ?b' then 2
                       else if ?b'' then 1 else 0] =>
             generalize (ladder3 b b' b'');
             generalize (if b then 3 else if b' then 2
                         else if b'' then 1 else 0);
             intros ? ?
         | |- context [if ?b then 2 else if ?b' then 1 else 0] =>
             generalize (ladder2 b b');
             generalize (if b then 2 else if b' then 1 else 0);
             intros ? ?
         | |- context [if ?b then 1 else 0] =>
             generalize (ladder1 b);
             generalize (if b then 1 else 0);
             intros ? ?
         end.
  lia.
Qed.

Lemma rubric_score_single_column (m : metrics) :
  m_single_column m = Some true ->
  In (score_100 (Utils.ats_resume_scoring m))
     [7; 13; 20; 27; 33; 40; 47; 53; 60; 67; 73; 80; 87; 93; 100].
Proof.
  intro Hs. pose proof (rubric_total_single_column m Hs) as Ht.
  change (score_100 (Utils.ats_resume_scoring m))
    with (round ((inject_Z (subtotal_earned (Utils.ats_resume_scoring m))
                  / inject_Z 15) * 100)%Q).
  set (t := subtotal_earned _) in *. clearbody t.
  assert (E : t = 1 \/ t = 2 \/ t = 3 \/ t = 4 \/ t = 5 \/ t = 6 \/ t = 7
              \/ t = 8 \/ t = 9 \/ t = 10 \/ t = 11 \/ t = 12 \/ t = 13
              \/ t = 14 \/ t = 15) by lia.
  repeat (destruct E as [-> | E]; [vm_compute; tauto|]).
  subst t. vm_compute. tauto.
Qed.

(** The username the view passes to the engine is not empty exactly when
    the form has one or the text shows one. *)
Lemma view_github_username (post_github : option string) (text : string) :
  (Views.or_str (strip (or_empty post_github))
     (Views.or_str (or_empty (Utils.extract_github_username text)) "")
   =? "")%string = false
  <-> (strip (or_empty post_github) <> ""
       \/ exists name, Utils.extract_github_username text = Some name).
Proof.
  unfold Views.or_str.
  destruct (strip (or_empty post_github) =? "")%string eqn:Ep.
  - apply String.eqb_eq in Ep.
    destruct (Utils.extract_github_username text) as [name|] eqn:Ex.
    + destruct (extract_github_username_sound _ _ Ex) as [Hne _].
      apply String.eqb_neq in Hne. cbn [or_empty]. rewrite Hne, Hne.
      split; [intros _; right; eexists; reflexivity | reflexivity].
    + cbn. split; [discriminate|].
      intros [H | [name H]]; [contradiction | discriminate].
  - rewrite Ep. split; [intros _; left; apply String.eqb_neq, Ep | reflexivity].
Qed.

(** Open the view on the report the engine returns. *)
Ltac open_view r :=
  unfold Views.analyze_resume_context; cbv zeta;
  match goal with
  | |- context [Utils.calculate_dynamic_ats_score ?t ?g ?l ?k] =>
      destruct (utils_report_form t g l k)
        as (r & ?s1 & ?s2 & ?s3 & ?s4 & ?s5 & ?s6 & Hcalc & Hsec & Hs1 & Hs2
            & Hs3 & Hs4 & [Hs5 Hg5] & Hs6 & Hsug & Havg & Hgrade);
      rewrite Hcalc; cbn [bind]; rewrite Hsec
  end.

(** X17.  The view replaces the score of the Resume section by the score of the
    rubric, which it also shows as the ATS score, keeps the grade Average of the
    placeholder whatever that score is, and drops the weight.  The overall
    average and grade are those of the engine, computed with the placeholder:
    between 11 and 26, and Poor. *)
Theorem view_resume_section
  (post_github post_leetcode post_role : option string) (resume_text : string) :
  exists c,
    Views.analyze_resume_context post_github post_leetcode post_role
      resume_text = Some c
    /\ (exists s,
           dict_get "Resume (ATS Score)" (Views.score_breakdown c) = Some s
           /\ Views.score s = Views.ats_score c
           /\ Views.grade s = "Average"
           /\ Views.weight s = None)
    /\ 11 <= Views.overall_score_average c <= 26
    /\ Views.overall_grade c = "Poor".
Proof.
  open_view r. eexists. split; [reflexivity|].
  cbn [Views.score_breakdown Views.overall_score_average Views.overall_grade
       Views.ats_score].
  split; [|split; assumption].
  eexists. split; [reflexivity|]. cbn. auto.
Qed.

(** X18.  The ATS score of the view is the score of the rubric on the derived
    metrics, capped at 89.  It is one of fourteen values between 7 and 89: a
    derived resume always earns the point for a single column, and the two
    highest scores of the rubric, 93 and 100, are both shown as 89.  The role is
    one of the five titles of the form, and each of them names an entry of the
    keyword catalog. *)
Theorem view_ats_score
  (post_github post_leetcode post_role : option string) (resume_text : string) :
  exists c,
    Views.analyze_resume_context post_github post_leetcode post_role
      resume_text = Some c
    /\ Views.ats_score c
       = Z.min 89 (score_100 (Utils.ats_resume_scoring
                                (Utils.derive_resume_metrics resume_text
                                   (Views.role c))))
    /\ In (Views.ats_score c)
          [7; 13; 20; 27; 33; 40; 47; 53; 60; 67; 73; 80; 87; 89]
    /\ In (Views.role c)
          [ "Software Engineer"; "Data Scientist"; "DevOps Engineer";
            "Web Developer"; "Mobile App Developer" ]
    /\ Utils.base_role (Views.role c) = Some (lower (Views.role c)).
Proof.
  open_view r. eexists. split; [reflexivity|].
  cbn [Views.ats_score Views.role].
  set (role_title := get (dict_get _ Views.TECH_ROLE_MAP) _).
  pose proof (rubric_score_single_column
                (Utils.derive_resume_metrics resume_text role_title) eq_refl)
    as Hin.
  set (x := score_100 _) in *. clearbody x.
  assert (Hx : 7 <= x <= 100).
  { cbn [In] in Hin. lia. }
  split; [lia|]. split.
  - cbn [In] in Hin |- *. lia.
  - subst role_title. unfold Views.TECH_ROLE_MAP. cbn [dict_get].
    repeat match goal with
           | |- context [if ?b then _ else _] => destruct b
           end; cbn [get]; (split; [cbn [In]; auto 6 | vm_compute; reflexivity]).
Qed.

(** X19.  The breakdown keeps the six sections in the order of the engine, the
    ordered breakdown lists the same six entries with the Resume first, and the
    view shows at most two suggestions: the first two of the messages for
    GitHub, LeetCode, Portfolio and LinkedIn, in this order, whose category
    scores 0. *)
Theorem view_breakdown_order
  (post_github post_leetcode post_role : option string) (resume_text : string) :
  exists c,
    Views.analyze_resume_context post_github post_leetcode post_role
      resume_text = Some c
    /\ map fst (Views.score_breakdown c)
       = [ "GitHub Profile"; "LeetCode/DSA Skills"; "Portfolio Website";
           "LinkedIn"; "Resume (ATS Score)"; "Certifications & Branding" ]
    /\ map fst (Views.score_breakdown_ordered c)
       = [ "Resume (ATS Score)"; "GitHub Profile"; "Portfolio Website";
           "LeetCode/DSA Skills"; "LinkedIn"; "Certifications & Branding" ]
    /\ (forall kv, In kv (Views.score_breakdown_ordered c)
                   <-> In kv (Views.score_breakdown c))
    /\ (let missing name message :=
          match view_score name c with
          | Some 0 => [message]
          | _ => []
          end in
        Views.suggestions c
        = firstn 2
            (missing "GitHub Profile"
               "Add a GitHub profile link with pinned, recent projects."
             ++ missing "LeetCode/DSA Skills"
                  "Include a LeetCode link to showcase DSA practice."
             ++ missing "Portfolio Website"
                  "Publish a simple portfolio with 2–3 best projects."
             ++ missing "LinkedIn"
                  "Add a public LinkedIn link (custom URL preferred).")%list).
Proof.
  open_view r. eexists. split; [reflexivity|].
  unfold view_score.
  cbn [Views.score_breakdown Views.score_breakdown_ordered Views.suggestions].
  match goal with
  | |- context [dict_set "Resume (ATS Score)" ?s _] => generalize s; intro sec
  end.
  cbn [map fst snd].
  change (dict_set "Resume (ATS Score)" sec
            [("GitHub Profile", Views.of_engine s1);
             ("LeetCode/DSA Skills", Views.of_engine s2);
             ("Portfolio Website", Views.of_engine s3);
             ("LinkedIn", Views.of_engine s4);
             ("Resume (ATS Score)", Views.of_engine s5);
             ("Certifications & Branding", Views.of_engine s6)])
    with [("GitHub Profile", Views.of_engine s1);
          ("LeetCode/DSA Skills", Views.of_engine s2);
          ("Portfolio Website", Views.of_engine s3);
          ("LinkedIn", Views.of_engine s4);
          ("Resume (ATS Score)", sec);
          ("Certifications & Branding", Views.of_engine s6)].
  split; [reflexivity|].
  split; [reflexivity|].
  split.
  - intro kv. cbn. tauto.
  - cbv zeta. cbn [dict_get String.eqb Ascii.eqb Bool.eqb option_map
                   Views.of_engine Views.score].
    rewrite Hsug, Hs1, Hs2, Hs3, Hs4.
    destruct (Utils.github_presence _), (Utils.leetcode_presence _),
      (Utils.portfolio_presence _), (Utils.linkedin_presence _); reflexivity.
Qed.

(** X20.  The engine of [main/utils.py] never reads the text for GitHub; the
    view does it beforehand.  The GitHub section of the view scores 11 when the
    form has a username that is not blank or the text shows github.com/ followed
    by a letter, a digit or a hyphen, and 0 otherwise.  The profile counts as
    detected when the section scores or the lowered text contains github.com, so
    also for a text that earns no score. *)
Theorem view_github_fallback
  (post_github post_leetcode post_role : option string) (resume_text : string) :
  exists c,
    Views.analyze_resume_context post_github post_leetcode post_role
      resume_text = Some c
    /\ (view_score "GitHub Profile" c = Some 11
        \/ view_score "GitHub Profile" c = Some 0)
    /\ (view_score "GitHub Profile" c = Some 11
        <-> (strip (or_empty post_github) <> ""
             \/ exists name,
                 Utils.extract_github_username resume_text = Some name))
    /\ (forall a ch b,
           resume_text = a ++ "github.com/" ++ String ch b ->
           username_char ch = true ->
           view_score "GitHub Profile" c = Some 11)
    /\ (Views.github_detection c = "YES"
        <-> (contains "github.com" (lower resume_text) = true
             \/ view_score "GitHub Profile" c = Some 11)).
Proof.
  pose proof (view_github_username post_github resume_text) as Hgh.
  open_view r.
  set (gh := Views.or_str (strip (or_empty post_github)) _) in *.
  eexists. split; [reflexivity|].
  unfold view_score. cbn [Views.score_breakdown Views.github_detection].
  match goal with
  | |- context [dict_set "Resume (ATS Score)" ?s _] => generalize s; intro sec
  end.
  cbn [map fst snd dict_set dict_get String.eqb Ascii.eqb Bool.eqb option_map
       Views.of_engine Views.score].
  rewrite Hs1. unfold Utils.github_presence, truthy.
  destruct (gh =? "")%string; cbn [negb].
  - split; [right; reflexivity|]. split; [|split].
    + split; [discriminate|]. intro H. apply Hgh in H. discriminate H.
    + intros a ch b -> Hc.
      assert (H : true = false); [|discriminate H].
      apply Hgh. right. apply extract_github_username_complete, Hc.
    + rewrite orb_false_r.
      destruct (contains "github.com" (lower resume_text)); cbn [Views.yes_no];
        split; try reflexivity; try discriminate;
        [intros _; left; reflexivity | intros [H | H]; discriminate H].
  - split; [left; reflexivity|]. split; [|split].
    + split; [intros _; apply Hgh; reflexivity | reflexivity].
    + reflexivity.
    + rewrite orb_true_r. split; [intros _; right; reflexivity | reflexivity].
Qed.

Lemma view_github_fallback_witness :
  exists c,
    Views.analyze_resume_context None None None "see github.com/alice" = Some c
    /\ view_score "GitHub Profile" c = Some 11
    /\ Views.github_detection c = "YES".
Proof.
  destruct (view_github_fallback None None None "see github.com/alice")
    as (c & Hc & _ & _ & Ht & Hd).
  exists c. split; [exact Hc|].
  assert (Hs : view_score "GitHub Profile" c = Some 11).
  { apply (Ht "see " "a"%char "lice"); reflexivity. }
  split; [exact Hs | exact (proj2 Hd (or_intror Hs))].
Defined.

(** X21.  The name shown by the view is the one [extract_applicant_name] finds:
    it is never empty, so the default Candidate of the view is never used. *)
Theorem view_applicant_name
  (post_github post_leetcode post_role : option string) (resume_text : string) :
  exists c,
    Views.analyze_resume_context post_github post_leetcode post_role
      resume_text = Some c
    /\ Views.applicant_name c = Utils.extract_applicant_name resume_text
    /\ Views.applicant_name c <> "".
Proof.
  open_view r. eexists. split; [reflexivity|].
  cbn [Views.applicant_name]. unfold Views.or_str.
  pose proof (extract_applicant_name_nonempty resume_text) as H.
  rewrite H. split; [reflexivity|]. apply String.eqb_neq, H.
Qed.

(** ** Substitution of the runs of a class *)

Section SubClass.
Context {char : Type}.
Variable q : char -> bool.

Lemma drop_class_length (s : list char) :
  (List.length (drop_class q s) <= List.length s)%nat.
Proof.
  induction s as [|c s IH]; simpl; [lia|]. destruct (q c); simpl; lia.
Qed.

Lemma filter_drop_class (s : list char) :
  filter (fun c => negb (q c)) s
  = filter (fun c => negb (q c)) (drop_class q s).
Proof.
  induction s as [|c s IH]; simpl; [reflexivity|].
  destruct (q c) eqn:Ec; simpl; [exact IH|]. rewrite Ec. reflexivity.
Qed.

Lemma rounds_any_class (fuel : nat) :
  forall (cnt : nat) (s : list char),
    (List.length s <= fuel)%nat ->
    Unicode.rounds (Unicode.run (Unicode.Chr q)) 1 None (fun rest => Some rest)
      fuel cnt s
    = if (1 <=? cnt)%nat || match s with [] => false | c :: _ => q c end
      then Some (drop_class q s) else None.
Proof.
  induction fuel as [|fuel IH]; intros cnt s Hlen.
  - destruct s as [|c s]; [|simpl in Hlen; lia].
    simpl. rewrite orb_false_r. reflexivity.
  - destruct s as [|c s].
    + simpl. rewrite orb_false_r. reflexivity.
    + simpl in Hlen. cbn [Unicode.rounds Unicode.run drop_class].
      destruct (q c) eqn:Ec.
      * assert (Hlt : (List.length s <? List.length (c :: s))%nat = true)
          by (apply Nat.ltb_lt; simpl; lia).
        rewrite Hlt, IH by lia. rewrite orb_true_r. reflexivity.
      * rewrite orb_false_r. reflexivity.
Qed.

Lemma first_match_any_class (s : list char) :
  (Unicode.first_match (Unicode.plus (Unicode.Chr q)) s = None
   /\ filter (fun c => negb (q c)) s = s)
  \/ (exists before m rest,
         Unicode.first_match (Unicode.plus (Unicode.Chr q)) s
         = Some (before, m, rest)
         /\ (List.length m =? 0)%nat = false
         /\ (List.length rest < List.length s)%nat
         /\ filter (fun c => negb (q c)) s
            = (before ++ filter (fun c => negb (q c)) rest)%list).
Proof.
  induction s as [|c s IH].
  - left. split; reflexivity.
  - cbn [Unicode.first_match Unicode.plus Unicode.run].
    rewrite rounds_any_class by lia.
    cbn [Nat.leb orb].
    destruct (q c) eqn:Ec.
    + right. cbn [drop_class]. rewrite Ec.
      pose proof (drop_class_length s) as Hlen.
      exists [], (firstn (List.length (c :: s) - List.length (drop_class q s))
                    (c :: s)), (drop_class q s).
      split; [reflexivity|]. split; [|split].
      * cbn [List.length].
        replace (S (List.length s) - List.length (drop_class q s))%nat
          with (S (List.length s - List.length (drop_class q s)))%nat by lia.
        reflexivity.
      * simpl. lia.
      * simpl. rewrite Ec. simpl. apply filter_drop_class.
    + destruct IH as [[E Hs] | (before & m & rest & E & Hm & Hl & Hs)].
      * left. rewrite E. split; [reflexivity|].
        simpl. rewrite Ec, Hs. reflexivity.
      * right. rewrite E. exists (c :: before), m, rest.
        split; [reflexivity|]. split; [exact Hm|]. split; [simpl; lia|].
        simpl. rewrite Ec, Hs. reflexivity.
Qed.

Lemma sub_from_any_class (fuel : nat) :
  forall s : list char,
    (List.length s < fuel)%nat ->
    Unicode.sub_from fuel (Unicode.plus (Unicode.Chr q)) [] s
    = filter (fun c => negb (q c)) s.
Proof.
  induction fuel as [|fuel IH]; intros s Hlen; [lia|].
  cbn [Unicode.sub_from].
  destruct (first_match_any_class s)
    as [[E Hs] | (before & m & rest & E & Hm & Hl & Hs)]; rewrite E.
  - symmetry. exact Hs.
  - rewrite Hm, IH by lia. symmetry. exact Hs.
Qed.

(** [re.sub] of the runs of a class by the empty text keeps the other
    characters. *)
Lemma sub_any_class_delete (t : list char) :
  Unicode.sub (Unicode.plus (Unicode.Chr q)) [] t
  = filter (fun c => negb (q c)) t.
Proof. unfold Unicode.sub. apply sub_from_any_class. lia. Qed.

End SubClass.

Section StripFilter.
Context {char : Type}.
Variables isspace p : char -> bool.
Hypothesis Hsp : forall c, isspace c = true -> p c = false.

Lemma filter_lstrip (s : list char) :
  filter p (Unicode.lstrip isspace s) = filter p s.
Proof.
  induction s as [|c s IH]; simpl; [reflexivity|].
  destruct (isspace c) eqn:E; [|reflexivity].
  rewrite (Hsp c E). exact IH.
Qed.

Lemma filter_rstrip (s : list char) :
  filter p (Unicode.rstrip isspace s) = filter p s.
Proof.
  induction s as [|c s IH]; [reflexivity|].
  cbn [Unicode.rstrip]. cbn [filter]. rewrite <- IH.
  destruct (Unicode.rstrip isspace s) as [|d r].
  - destruct (isspace c) eqn:E; simpl; [rewrite (Hsp c E)|]; reflexivity.
  - reflexivity.
Qed.
End StripFilter.

Lemma filter_ext_bool {A : Type} (p q : A -> bool) (l : list A) :
  (forall x, p x = q x) -> filter p l = filter q l.
Proof.
  intro H. induction l as [|x l IH]; simpl; [reflexivity|].
  rewrite H, IH. reflexivity.
Qed.

Lemma forallb_filter_same {A : Type} (p : A -> bool) (l : list A) :
  forallb p (filter p l) = true.
Proof.
  induction l as [|x l IH]; simpl; [reflexivity|].
  destruct (p x) eqn:E; [simpl; rewrite E|]; exact IH.
Qed.

Lemma filter_idem {A : Type} (p : A -> bool) (l : list A) :
  filter p (filter p l) = filter p l.
Proof.
  induction l as [|x l IH]; simpl; [reflexivity|].
  destruct (p x) eqn:E; [simpl; rewrite E, IH; reflexivity | exact IH].
Qed.

Lemma digit_no_space (c : ascii) : isspace c = true -> Utils.digit c = false.
Proof. destruct c as [[] [] [] [] [] [] [] []]; vm_compute; congruence. Qed.

(** ** The keys of the one-time passwords *)

(** X22.  Over any alphabet in which no whitespace character is a decimal
    digit, as it is in Unicode, [norm_mobile] keeps the decimal digits of the
    number, those of the class [\d] whatever their script, in their order, and
    nothing else; a number that went through it is left as it is. *)
Theorem norm_mobile_digits {char : Type} (isspace isdecimal : char -> bool)
  (Hdisjoint : forall c, isspace c = true -> isdecimal c = false)
  (mobile : option (list char)) :
  Views.norm_mobile isspace isdecimal mobile
  = filter isdecimal (get mobile [])
  /\ forallb isdecimal (Views.norm_mobile isspace isdecimal mobile) = true
  /\ Views.norm_mobile isspace isdecimal
       (Some (Views.norm_mobile isspace isdecimal mobile))
     = Views.norm_mobile isspace isdecimal mobile.
Proof.
  assert (E : forall m, Views.norm_mobile isspace isdecimal m
                        = filter isdecimal (get m [])).
  { intro m. unfold Views.norm_mobile, Views.non_digits.
    rewrite sub_any_class_delete.
    rewrite (filter_ext_bool _ isdecimal) by (intro c; apply negb_involutive).
    unfold Unicode.strip.
    rewrite filter_rstrip, filter_lstrip by exact Hdisjoint.
    reflexivity. }
  split; [apply E|]. split.
  - rewrite E. apply forallb_filter_same.
  - rewrite (E (Some _)), E. cbn [get]. apply filter_idem.
Qed.

Lemma norm_mobile_digits_witness :
  Views.norm_mobile isspace Utils.digit
    (Some (list_ascii_of_string "+91 94945-57188"))
  = list_ascii_of_string "919494557188".
Proof.
  exact (proj1 (norm_mobile_digits isspace Utils.digit digit_no_space
                  (Some (list_ascii_of_string "+91 94945-57188")))).
Defined.

(** X23.  [norm_email] answers a lower-case text without whitespace at its ends,
    and leaves such a text as it is. *)
Theorem norm_email_idempotent (email : option string) :
  Views.norm_email (Some (Views.norm_email email)) = Views.norm_email email
  /\ strip (Views.norm_email email) = Views.norm_email email
  /\ lower (Views.norm_email email) = Views.norm_email email.
Proof.
  unfold Views.norm_email. cbn [or_empty].
  assert (E : forall s, strip (lower s) = lower (strip s)).
  { intro s. unfold strip. rewrite lstrip_lower, rstrip_lower. reflexivity. }
  rewrite E, strip_idem, lower_idem. auto.
Qed.

(** ** [_ordered_sections] *)

Lemma filter_all {A : Type} (l : list A) : filter (fun _ => true) l = l.
Proof. induction l as [|x l IH]; simpl; [|rewrite IH]; reflexivity. Qed.

Lemma ordered_sections_other_names {V : Type} (sections : list (string * V)) :
  Forall (fun kv => dict_get (snd kv) sections = None) Views.key_mapping ->
  Views._ordered_sections sections = sections.
Proof.
  intro H. unfold Views.key_mapping in H.
  repeat match goal with
         | H : Forall _ (_ :: _) |- _ =>
             let H1 := fresh "H" in
             let H2 := fresh "H" in
             inversion H as [|? ? H1 H2]; subst; clear H; cbn [snd] in H1
         end.
  unfold Views._ordered_sections. cbv zeta.
  cbn [flat_map dict_get Views.key_mapping String.eqb Ascii.eqb Bool.eqb negb
       app].
  repeat match goal with
         | H : dict_get _ sections = None |- _ => rewrite H; clear H
         end.
  cbn [app map existsb negb]. apply filter_all.
Qed.

(** X24.  None of the six display names of [_ordered_sections] is the name of a
    section of the engines: sections under other names are returned as they are,
    and so are the sections of every report of both modules. *)
Theorem ordered_sections_of_reports
  (resume_text : string) (github_username leetcode_username : option string)
  (links : list Utils.link) (extracted_links : option (list ScoreUtils.link))
  (domain : string) :
  (forall (V : Type) (sections : list (string * V)),
      Forall (fun kv => dict_get (snd kv) sections = None) Views.key_mapping ->
      Views._ordered_sections sections = sections)
  /\ (exists r,
         Utils.calculate_dynamic_ats_score resume_text github_username
           leetcode_username links = Some r
         /\ Views._ordered_sections (Utils.sections r) = Utils.sections r)
  /\ (let r := ScoreUtils.calculate_dynamic_ats_score resume_text
                 github_username leetcode_username extracted_links domain in
      Views._ordered_sections (ScoreUtils.sections r) = ScoreUtils.sections r).
Proof.
  split; [intros V sections; apply ordered_sections_other_names|]. split.
  - destruct (utils_report_form resume_text github_username leetcode_username
                links)
      as (r & s1 & s2 & s3 & s4 & s5 & s6 & E & Hsec & _).
    exists r. split; [exact E|]. rewrite Hsec. reflexivity.
  - cbv zeta. apply ordered_sections_other_names.
    score_utils_cases; vm_compute; repeat constructor.
Qed.

Lemma ordered_sections_of_reports_witness :
  Views._ordered_sections [("Skills", 1); ("Summary", 2)]
  = [("Skills", 1); ("Summary", 2)].
Proof.
  apply (ordered_sections_of_reports "" None None [] None "").
  repeat constructor.
Defined.

(** ** The GitHub username under [re.I] *)

Lemma run_lit_ic (l : string) :
  forall host, lower host = l ->
  forall prev rest k, exists p,
    run true (lit l) prev (host ++ rest) k = k p rest.
Proof.
  assert (Ht : forall d, test true (Ascii.eqb (lower_char d)) d = true).
  { intro d. unfold test. rewrite Ascii.eqb_refl.
    rewrite orb_true_r. reflexivity. }
  induction l as [|c l IH]; intros host Hl prev rest k.
  - destruct host; [|discriminate Hl]. exists prev. reflexivity.
  - destruct host as [|d host]; [discriminate Hl|].
    simpl in Hl. injection Hl as <- Hl.
    destruct l as [|c' l'].
    + destruct host; [|discriminate Hl].
      exists (Some d). cbn [lit chr run append]. rewrite Ht. reflexivity.
    + change (lit (String (lower_char d) (String c' l')))
        with (Seq (chr (lower_char d)) (lit (String c' l'))).
      cbn [run chr append]. rewrite Ht. apply IH, Hl.
Qed.

Lemma run_lit_plus_ic (l : string) (q : ascii -> bool) (host : string)
  (prev : option ascii) (c : ascii) (b : string) :
  lower host = l -> q c = true ->
  run true (Seq (lit l) (plus (Chr q))) prev (host ++ String c b) found
  <> None.
Proof.
  intros Hl Hc. rewrite run_seq.
  destruct (run_lit_ic l host Hl prev (String c b)
              (fun p' s' => run true (plus (Chr q)) p' s' found)) as [p ->].
  rewrite run_plus_class. cbn [starts_with_class]. unfold test at 1.
  rewrite Hc. discriminate.
Qed.

Lemma score_utils_github_username_complete (a host : string) (c : ascii)
  (b : string) :
  lower host = "github.com/" -> username_char c = true ->
  exists name,
    ScoreUtils.extract_github_username (a ++ host ++ String c b) = Some name.
Proof.
  intros Hl Hc. unfold ScoreUtils.extract_github_username.
  change Utils.github_username_pattern
    with (Seq (lit "github.com/") (plus (Chr username_char))).
  pose proof (first_match_complete true
                (Seq (lit "github.com/") (plus (Chr username_char))) a
                (host ++ String c b)
                (fun prev => run_lit_plus_ic "github.com/" _ host prev c b Hl Hc)
                None) as H.
  destruct (first_match true _ None _) as [[[[before m] p] rest]|];
    [eexists; reflexivity | congruence].
Qed.

(** X25.  [main/score_utils.py] searches the GitHub username with [re.I] and
    [main/utils.py] without: the first finds a name wherever github.com/, in any
    letter case, is followed by a letter, a digit or a hyphen, so in every text
    where the second finds one; the second finds none after GitHub.com/. *)
Theorem extract_github_username_letter_case :
  (forall a host c b,
      lower host = "github.com/" -> username_char c = true ->
      exists name,
        ScoreUtils.extract_github_username (a ++ host ++ String c b)
        = Some name)
  /\ (forall text name,
         Utils.extract_github_username text = Some name ->
         exists name', ScoreUtils.extract_github_username text = Some name')
  /\ Utils.extract_github_username "GitHub.com/alice" = None
  /\ ScoreUtils.extract_github_username "GitHub.com/alice" = Some "alice".
Proof.
  split; [intros a host c b; apply score_utils_github_username_complete|].
  split; [|split; vm_compute; reflexivity].
  intros text name H.
  destruct (extract_github_username_sound _ _ H)
    as (Hne & Hall & a & b & -> & _).
  destruct name as [|c name]; [contradiction|].
  simpl in Hall. apply andb_true_iff in Hall. destruct Hall as [Hc _].
  change (String c name ++ b) with (String c (name ++ b)).
  apply score_utils_github_username_complete; [reflexivity | exact Hc].
Qed.

Lemma extract_github_username_letter_case_witness :
  (exists name,
      ScoreUtils.extract_github_username "see GITHUB.COM/alice" = Some name)
  /\ (exists name,
         ScoreUtils.extract_github_username "see github.com/bob" = Some name).
Proof.
  pose proof extract_github_username_letter_case as (Hany & Hsame & _).
  split.
  - apply (Hany "see " "GITHUB.COM/" "a"%char "lice"); reflexivity.
  - apply (Hsame "see github.com/bob" "bob"). vm_compute. reflexivity.
Defined.

(** ** The entries of [extract_and_identify_links] *)

Lemma add_anchors_entries (hrefs : list string) :
  forall (links : list Utils.link) (existing : list string),
    Forall link_entry_ok links ->
    Forall link_entry_ok (Utils.add_anchors hrefs links existing).
Proof.
  induction hrefs as [|h hrefs IH]; intros links existing H; simpl;
    [exact H|].
  destruct (negb (existsb (String.eqb h) existing)); [|apply IH, H].
  apply IH. apply Forall_app. split; [exact H|].
  constructor; [|constructor]. left. reflexivity.
Qed.

Lemma classify_http (u : string) :
  (exists body, u = "http" ++ body) -> Utils._classify u <> "Email".
Proof.
  intros [body ->]. unfold Utils._classify.
  repeat match goal with
         | |- context [if ?b then _ else _] =>
             lazymatch b with
             | startswith _ _ => fail
             | _ => destruct b; [discriminate|]
             end
         end.
  change (startswith "mailto:" ("http" ++ body)) with false. discriminate.
Qed.

(** X26.  Every entry of [extract_and_identify_links] but the inferred one has a
    url, and its type is the class of the url, or Email for an address with
    mailto: before it.  The inferred entry has no url; it is there only when the
    text names linkedin and no entry is typed LinkedIn.  No url of the scan is
    typed Email. *)
Theorem extract_links_entries (anchor_hrefs : string -> list string)
  (text : string) :
  let links := Utils.extract_and_identify_links anchor_hrefs text in
  Forall (fun d => link_entry_ok d \/ d = Utils.Link None "LinkedIn (Inferred)")
         links
  /\ (In (Utils.Link None "LinkedIn (Inferred)") links ->
      search true (lit "linkedin") text = true
      /\ forall d, In d links -> Utils.type d <> "LinkedIn")
  /\ Forall (fun u => Utils._classify u <> "Email")
            (findall false Utils.url_pattern text).
Proof.
  cbv zeta. unfold Utils.extract_and_identify_links.
  set (base := (map _ (findall false Utils.url_pattern text)
                ++ map _ (findall false Utils.email_pattern text))%list).
  assert (Hbase : Forall link_entry_ok base).
  { subst base. apply Forall_app. split; apply Forall_forall; intros d Hd;
      apply in_map_iff in Hd; destruct Hd as (x & <- & _).
    - left. reflexivity.
    - right. split; [reflexivity|].
      unfold startswith. simpl. destruct x; reflexivity. }
  pose proof (add_anchors_entries (anchor_hrefs text) base
                (Utils.existing_urls base) Hbase) as Hall.
  set (links := Utils.add_anchors _ base _) in *. clearbody links.
  assert (Hno : ~ In (Utils.Link None "LinkedIn (Inferred)") links).
  { intro Hin. rewrite Forall_forall in Hall. apply (Hall _ Hin). }
  split; [|split].
  - destruct (search true (lit "linkedin") text);
      [destruct (negb _)|];
      try (eapply Forall_impl; [|exact Hall]; intros d Hd; left; exact Hd).
    apply Forall_app. split.
    + eapply Forall_impl; [|exact Hall]. intros d Hd. left. exact Hd.
    + constructor; [right; reflexivity | constructor].
  - destruct (search true (lit "linkedin") text); [|intro H; contradiction].
    destruct (existsb _ links) eqn:Ex; cbn [negb];
      [intro H; contradiction|].
    intros _. split; [reflexivity|].
    intros d Hd. apply in_app_or in Hd. destruct Hd as [Hd | [<- | []]].
    + intro Ht. assert (Hex : existsb
                                (fun d => (Utils.type d =? "LinkedIn")%string)
                                links = true).
      { apply existsb_exists. exists d. split; [exact Hd|].
        apply String.eqb_eq, Ht. }
      congruence.
    + discriminate.
  - apply Forall_forall. intros u Hu. apply classify_http.
    apply findall_sound in Hu. destruct Hu as (a & b & p & prev' & _ & Hr).
    change Utils.url_pattern
      with (Seq (lit "http")
              (Seq (opt (chr "s"))
                 (Seq (lit "://")
                    (plus (Chr (fun c => negb (isspace c
                                               || Ascii.eqb c dquote)))))))
      in Hr.
    apply run_url in Hr. destruct Hr as (scheme & body & Hs & Hscheme & _).
    rewrite <- append_assoc in Hs. apply append_inv_tail in Hs. subst u.
    destruct Hscheme as [-> | ->]; eexists; reflexivity.
Qed.

Lemma extract_links_entries_witness :
  search true (lit "linkedin") "my LinkedIn page" = true.
Proof.
  assert (H : In (Utils.Link None "LinkedIn (Inferred)")
                (Utils.extract_and_identify_links (fun _ => [])
                   "my LinkedIn page"))
    by (vm_compute; left; reflexivity).
  exact (proj1 (proj1 (proj2 (extract_links_entries (fun _ => [])
                                "my LinkedIn page")) H)).
Defined.

(** ** The LeetCode username *)

Lemma run_opt_lit (l : string) (prev : option ascii) (s : string) (k : cont) :
  l <> "" ->
  run false (opt (lit l)) prev s k
  = match match_lit l prev s with
    | Some (p', s') =>
        match k p' s' with
        | Some a => Some a
        | None => k prev s
        end
    | None => k prev s
    end.
Proof.
  intro Hl. unfold opt. cbn [run].
  destruct (match_lit l prev s) as [[p' s']|] eqn:E.
  - pose proof (match_lit_sound _ _ _ _ _ E) as Hs.
    assert (Hlen : (String.length s' < String.length s)%nat).
    { rewrite Hs, append_length. destruct l; [contradiction|]. simpl. lia. }
    destruct (String.length s) as [|f] eqn:Ef; [lia|].
    cbn [rounds]. change (0 <? 1)%nat with true. cbv iota.
    rewrite run_lit, E.
    apply Nat.ltb_lt in Hlen. rewrite Ef, Hlen.
    change (0 <=? 0)%nat with true. cbv iota.
    replace (rounds (run false (lit l)) 0 (Some 1%nat) k f 1 p' s')
      with (k p' s') by (destruct f; reflexivity).
    reflexivity.
  - destruct (String.length s) as [|f]; [reflexivity|].
    cbn [rounds]. change (0 <? 1)%nat with true. cbv iota.
    rewrite run_lit, E. reflexivity.
Qed.


Lemma run_leetcode (prev : option ascii) (s : string) (p : option ascii)
  (rest : string) :
  run false (Seq (lit "leetcode.com/")
               (Seq (opt (lit "u/")) (plus (Chr handle_char))))
    prev s found = Some (p, rest) ->
  exists mid body,
    s = "leetcode.com/" ++ mid ++ body ++ rest
    /\ (mid = "" \/ mid = "u/")
    /\ body <> "" /\ all_chars handle_char body = true
    /\ starts_with_class handle_char rest = false.
Proof.
  rewrite run_seq, run_lit.
  destruct (match_lit "leetcode.com/" prev s) as [[p1 s1]|] eqn:E;
    [|discriminate].
  apply match_lit_sound in E. subst s.
  rewrite run_seq, run_opt_lit by discriminate.
  assert (Hclass : forall p0 s0,
             run false (plus (Chr handle_char)) p0 s0 found = Some (p, rest) ->
             exists body,
               s0 = body ++ rest /\ body <> ""
               /\ all_chars handle_char body = true
               /\ starts_with_class handle_char rest = false).
  { intros p0 s0. rewrite run_plus_class. change (test false handle_char)
      with handle_char.
    destruct (starts_with_class handle_char s0) eqn:Es; [|discriminate].
    intro H. injection H as H.
    destruct (skip_class_sound _ _ _ _ _ H) as (body & -> & Hall & Hrest & Hne).
    exists body. repeat split; auto. }
  destruct (match_lit "u/" p1 s1) as [[p2 s2]|] eqn:E2.
  - apply match_lit_sound in E2. subst s1.
    destruct (run false (plus (Chr handle_char)) p2 s2 found)
      as [[p3 r3]|] eqn:E3.
    + intro H. injection H as <- <-.
      destruct (Hclass _ _ E3) as (body & -> & H).
      exists "u/", body. split; [reflexivity|]. split; [now right | exact H].
    + intro H. destruct (Hclass _ _ H) as (body & Hb & H').
      exists "", body. split; [rewrite Hb; reflexivity|].
      split; [now left | exact H'].
  - intro H. destruct (Hclass _ _ H) as (body & -> & H').
    exists "", body. split; [reflexivity|]. split; [now left | exact H'].
Qed.

Lemma run_leetcode_complete (prev : option ascii) (c : ascii) (b : string) :
  handle_char c = true ->
  run false (Seq (lit "leetcode.com/")
               (Seq (opt (lit "u/")) (plus (Chr handle_char))))
    prev ("leetcode.com/" ++ String c b) found <> None.
Proof.
  intro Hc. rewrite run_seq, run_lit.
  destruct (match_lit_complete "leetcode.com/" prev (String c b)) as [p ->].
  rewrite run_seq, run_opt_lit by discriminate.
  assert (Hplain : run false (plus (Chr handle_char)) p (String c b) found
                   <> None).
  { rewrite run_plus_class. change (test false handle_char) with handle_char.
    simpl. rewrite Hc. discriminate. }
  destruct (match_lit "u/" p (String c b)) as [[p2 s2]|]; [|exact Hplain].
  destruct (run false (plus (Chr handle_char)) p2 s2 found);
    [discriminate | exact Hplain].
Qed.

Lemma prefix_append (a b : string) : prefix a (a ++ b) = true.
Proof.
  induction a as [|c a IH]; simpl; [destruct b; reflexivity|].
  destruct (ascii_dec c c) as [_|H]; [exact IH | contradiction].
Qed.

Lemma prefix_cons (c : ascii) (a : string) (d : ascii) (b : string) :
  prefix (String c a) (String d b)
  = if Ascii.eqb c d then prefix a b else false.
Proof.
  cbn [prefix]. destruct (ascii_dec c d) as [<- | Hn].
  - rewrite Ascii.eqb_refl. reflexivity.
  - apply Ascii.eqb_neq in Hn. rewrite Hn. reflexivity.
Qed.

Lemma handle_no_slash (body : string) :
  all_chars handle_char body = true ->
  prefix "leetcode.com/u/" ("leetcode.com/" ++ body) = false.
Proof.
  intro Hall.
  change (prefix "leetcode.com/u/" ("leetcode.com/" ++ body))
    with (prefix "u/" body).
  destruct body as [|c1 [|c2 body]]; [reflexivity | |].
  - rewrite prefix_cons. destruct (Ascii.eqb "u" c1); reflexivity.
  - simpl in Hall. apply andb_true_iff in Hall. destruct Hall as [_ Hall].
    apply andb_true_iff in Hall. destruct Hall as [H2 _].
    rewrite !prefix_cons. destruct (Ascii.eqb "u" c1); [|reflexivity].
    destruct (Ascii.eqb "/" c2) eqn:E; [|reflexivity].
    apply Ascii.eqb_eq in E. subst c2. discriminate H2.
Qed.

Lemma extract_leetcode_username_sound (text name : string) :
  Utils.extract_leetcode_username text = Some name ->
  name <> "" /\ all_chars handle_char name = true
  /\ exists a mid b,
       text = a ++ "leetcode.com/" ++ mid ++ name ++ b
       /\ (mid = "" \/ mid = "u/")
       /\ starts_with_class handle_char b = false.
Proof.
  unfold Utils.extract_leetcode_username.
  change Utils.leetcode_username_pattern
    with (Seq (lit "leetcode.com/")
            (Seq (opt (lit "u/")) (plus (Chr handle_char)))).
  intro H.
  destruct (first_match false _ None text) as [[[[before m] p] rest]|] eqn:E;
    [|discriminate].
  cbv zeta in H. injection H as <-.
  destruct (first_match_sound _ _ _ _ _ _ _ _ E) as (Ht & prev' & Hr).
  apply run_leetcode in Hr.
  destruct Hr as (mid & body & Hm & Hmid & Hne & Hall & Hrest).
  assert (Hm' : m = "leetcode.com/" ++ mid ++ body).
  { apply (append_inv_tail _ _ rest). rewrite Hm, !append_assoc. reflexivity. }
  assert (Hname : substring
                    (if prefix "leetcode.com/u/" m then 15 else 13)
                    (String.length m
                     - (if prefix "leetcode.com/u/" m then 15 else 13)) m
                  = body).
  { subst m. destruct Hmid as [-> | ->].
    - change ("leetcode.com/" ++ "" ++ body) with ("leetcode.com/" ++ body).
      rewrite handle_no_slash by exact Hall.
      pose proof (substring_after "leetcode.com/" body) as Hsub.
      change (String.length "leetcode.com/") with 13%nat in Hsub. exact Hsub.
    - change ("leetcode.com/" ++ "u/" ++ body)
        with ("leetcode.com/u/" ++ body).
      rewrite prefix_append.
      pose proof (substring_after "leetcode.com/u/" body) as Hsub.
      change (String.length "leetcode.com/u/") with 15%nat in Hsub.
      exact Hsub. }
  rewrite Hname. split; [exact Hne|]. split; [exact Hall|].
  exists before, mid, rest. split; [|split; [exact Hmid | exact Hrest]].
  rewrite Ht, Hm'. rewrite !append_assoc. reflexivity.
Qed.

Lemma extract_leetcode_username_complete (a : string) (c : ascii) (b : string) :
  handle_char c = true ->
  exists name,
    Utils.extract_leetcode_username (a ++ "leetcode.com/" ++ String c b)
    = Some name.
Proof.
  intro Hc. unfold Utils.extract_leetcode_username.
  change Utils.leetcode_username_pattern
    with (Seq (lit "leetcode.com/")
            (Seq (opt (lit "u/")) (plus (Chr handle_char)))).
  pose proof (first_match_complete false _ a
                ("leetcode.com/" ++ String c b)
                (fun prev => run_leetcode_complete prev c b Hc)
                None) as H.
  destruct (first_match false _ None _) as [[[[before m] p] rest]|];
    [eexists; reflexivity | congruence].
Qed.

(** X27.  [extract_leetcode_username] answers a name exactly when leetcode.com/
    is followed somewhere in the text by a letter, a digit, an underscore or a
    hyphen.  The name is not empty, made of such characters only, and stands in
    the text right after leetcode.com/ or leetcode.com/u/; it ends where these
    characters end. *)
Theorem extract_leetcode_username_spec (text : string) :
  (forall name,
      Utils.extract_leetcode_username text = Some name ->
      name <> "" /\ all_chars handle_char name = true
      /\ exists a mid b,
           text = a ++ "leetcode.com/" ++ mid ++ name ++ b
           /\ (mid = "" \/ mid = "u/")
           /\ starts_with_class handle_char b = false)
  /\ (forall a c b,
         text = a ++ "leetcode.com/" ++ String c b ->
         handle_char c = true ->
         exists name, Utils.extract_leetcode_username text = Some name).
Proof.
  split.
  - intros name. apply extract_leetcode_username_sound.
  - intros a c b -> Hc. apply extract_leetcode_username_complete, Hc.
Qed.

Lemma extract_leetcode_username_spec_witness :
  Utils.extract_leetcode_username "at leetcode.com/u/bob_7, daily" = Some "bob_7"
  /\ all_chars handle_char "bob_7" = true
  /\ exists name,
       Utils.extract_leetcode_username "at leetcode.com/u/bob_7, daily"
       = Some name.
Proof.
  assert (E : Utils.extract_leetcode_username "at leetcode.com/u/bob_7, daily"
              = Some "bob_7") by (vm_compute; reflexivity).
  pose proof (extract_leetcode_username_spec "at leetcode.com/u/bob_7, daily")
    as [Hs Hc].
  split; [exact E|]. split; [apply (Hs "bob_7" E)|].
  apply (Hc "at " "u"%char "/bob_7, daily"); reflexivity.
Defined.

Lemma view_leetcode_username (post_leetcode : option string) (text : string) :
  (Views.or_str (strip (or_empty post_leetcode))
     (Views.or_str (or_empty (Utils.extract_leetcode_username text)) "")
   =? "")%string = false
  <-> (strip (or_empty post_leetcode) <> ""
       \/ exists name, Utils.extract_leetcode_username text = Some name).
Proof.
  unfold Views.or_str.
  destruct (strip (or_empty post_leetcode) =? "")%string eqn:Ep.
  - apply String.eqb_eq in Ep.
    destruct (Utils.extract_leetcode_username text) as [name|] eqn:Ex.
    + destruct (extract_leetcode_username_sound _ _ Ex) as [Hne _].
      apply String.eqb_neq in Hne. cbn [or_empty]. rewrite Hne, Hne.
      split; [intros _; right; eexists; reflexivity | reflexivity].
    + cbn. split; [discriminate|].
      intros [H | [name H]]; [contradiction | discriminate].
  - rewrite Ep. split; [intros _; left; apply String.eqb_neq, Ep | reflexivity].
Qed.

(** X28.  The view does for LeetCode what it does for GitHub: the section scores
    8 when the form has a username that is not blank or the text shows
    leetcode.com/ followed by a letter, a digit, an underscore or a hyphen, and
    0 otherwise. *)
Theorem view_leetcode_fallback
  (post_github post_leetcode post_role : option string) (resume_text : string) :
  exists c,
    Views.analyze_resume_context post_github post_leetcode post_role
      resume_text = Some c
    /\ (view_score "LeetCode/DSA Skills" c = Some 8
        \/ view_score "LeetCode/DSA Skills" c = Some 0)
    /\ (view_score "LeetCode/DSA Skills" c = Some 8
        <-> (strip (or_empty post_leetcode) <> ""
             \/ exists name,
                 Utils.extract_leetcode_username resume_text = Some name))
    /\ (forall a ch b,
           resume_text = a ++ "leetcode.com/" ++ String ch b ->
           handle_char ch = true ->
           view_score "LeetCode/DSA Skills" c = Some 8).
Proof.
  pose proof (view_leetcode_username post_leetcode resume_text) as Hlc.
  open_view r.
  set (lc := Views.or_str (strip (or_empty post_leetcode)) _) in *.
  eexists. split; [reflexivity|].
  unfold view_score. cbn [Views.score_breakdown].
  match goal with
  | |- context [dict_set "Resume (ATS Score)" ?s _] => generalize s; intro sec
  end.
  cbn [map fst snd dict_set dict_get String.eqb Ascii.eqb Bool.eqb option_map
       Views.of_engine Views.score].
  rewrite Hs2. unfold Utils.leetcode_presence, truthy.
  destruct (lc =? "")%string; cbn [negb].
  - split; [right; reflexivity|]. split.
    + split; [discriminate|]. intro H. apply Hlc in H. discriminate H.
    + intros a ch b -> Hc.
      assert (H : true = false); [|discriminate H].
      apply Hlc. right. apply extract_leetcode_username_complete, Hc.
  - split; [left; reflexivity|]. split.
    + split; [intros _; apply Hlc; reflexivity | reflexivity].
    + reflexivity.
Qed.

Lemma view_leetcode_fallback_witness :
  exists c,
    Views.analyze_resume_context None None None "see leetcode.com/bob" = Some c
    /\ view_score "LeetCode/DSA Skills" c = Some 8.
Proof.
  destruct (view_leetcode_fallback None None None "see leetcode.com/bob")
    as (c & Hc & _ & _ & Ht).
  exists c. split; [exact Hc|].
  apply (Ht "see " "b"%char "ob"); reflexivity.
Defined.

(** ** The two lookups *)

(** X29.  [get_github_repo_count] never raises.  For an empty username it
    returns 0 and asks nothing.  Otherwise it reads GITHUB_TOKEN, sends one
    request with the token, when there is one, in the headers, and returns
    the count of the answer when the status is 200 and the count can be
    read, and 0 in every other case; so its result is whatever the network
    answers. *)
Theorem get_github_repo_count_best_effort (username : string)
  (w : Process.world) (n : nat) :
  let token := strip (get (Process.environ w n "GITHUB_TOKEN") "") in
  let headers :=
    if (token =? "")%string
    then [("Accept", "application/vnd.github.v3+json")]
    else [("Accept", "application/vnd.github.v3+json");
          ("Authorization", "token " ++ token)] in
  let url := "https://api.github.com/users/" ++ username in
  Process.run w n (Utils.get_github_repo_count username)
  = (if (username =? "")%string then (Some 0, [])
     else (Some (match Process.network w (S n) url headers with
                 | Some r =>
                     if Process.status_code r =? 200
                     then get (Process.json_int r "public_repos") 0
                     else 0
                 | None => 0
                 end),
           [Process.Env "GITHUB_TOKEN"; Process.Http url headers]))
  /\ (username <> "" ->
      forall count, exists w',
        fst (Process.run w' n (Utils.get_github_repo_count username))
        = Some count).
Proof.
  cbv zeta. split.
  - unfold Utils.get_github_repo_count.
    destruct (username =? "")%string; [reflexivity|].
    cbn [Utils._github_headers Process.bind Process.catch Process.http_get
         Process.run].
    destruct (strip (get (Process.environ w n "GITHUB_TOKEN") "") =? "")%string;
      cbn [negb dict_set];
      destruct (Process.network w (S n) _ _) as [r|]; cbn;
      try reflexivity;
      destruct (Process.status_code r =? 200); cbn; try reflexivity;
      destruct (Process.json_int r "public_repos"); reflexivity.
  - intros Hne count.
    exists (Process.World (fun _ _ => None)
              (fun _ _ _ => Some (Process.Response 200 (fun _ => Some count)))
              (fun _ _ _ => 0) (fun _ => 0)).
    unfold Utils.get_github_repo_count.
    apply String.eqb_neq in Hne. rewrite Hne. reflexivity.
Qed.

Lemma get_github_repo_count_best_effort_witness :
  exists w,
    fst (Process.run w 0 (Utils.get_github_repo_count "alice")) = Some 42.
Proof.
  apply (proj2 (get_github_repo_count_best_effort "alice"
                  (Process.World (fun _ _ => None) (fun _ _ _ => None)
                     (fun _ _ _ => 0) (fun _ => 0)) 0)).
  discriminate.
Defined.

(** X30.  [fetch_leetcode_problem_count] never raises.  For an empty
    username it returns 0 and asks nothing.  Otherwise it sends one request
    and returns the number of the answer when the status is 200 and the
    number can be read, and 0 in every other case. *)
Theorem fetch_leetcode_problem_count_best_effort (username : string)
  (w : Process.world) (n : nat) :
  let url := "https://leetcode-api-faisalshohag.vercel.app/" ++ username in
  Process.run w n (Utils.fetch_leetcode_problem_count username)
  = if (username =? "")%string then (Some 0, [])
    else (Some (match Process.network w n url [] with
                | Some r =>
                    if Process.status_code r =? 200
                    then get (Process.json_int r "totalSolved") 0
                    else 0
                | None => 0
                end),
          [Process.Http url []]).
Proof.
  cbv zeta. unfold Utils.fetch_leetcode_problem_count.
  destruct (username =? "")%string; [reflexivity|].
  cbn [Process.bind Process.catch Process.http_get Process.run].
  destruct (Process.network w n _ _) as [r|]; cbn; try reflexivity.
  destruct (Process.status_code r =? 200); cbn; try reflexivity.
  destruct (Process.json_int r "totalSolved"); reflexivity.
Qed.
